(** * Teacher-first dashboard views (migration v3): a shallow embedding

    The tiering, growth and priority pipeline of the repository lives in the
    SQL views of [schema/migration_v3_teacher_first.sql]:
    [v_teacher_roster], [v_support_status], [v_teacher_kpis],
    [v_growth_last_two] and [v_priority_students].  Each view is embedded as
    a function from the tables it reads (lists of records) to the list of
    rows it returns.

    Conventions.
    - A nullable column is an [option]; [None] is SQL's NULL.
    - Conditions are evaluated in SQL's three-valued logic ([Sql.tv]); WHERE,
      ON, FILTER and CASE WHEN keep a row or take a branch only when the
      condition is TRUE ([Sql.holds]).
    - NUMERIC and DOUBLE PRECISION scores are exact rationals ([Q]): every
      finite value of either type is one, and comparison is comparison of
      those values.  Dates are day numbers and timestamps are tick counts
      ([Z]).  UUIDs are opaque keys ([N]).
    - A view is a bag of rows: the order in which groups are emitted is not
      fixed by SQL and is not relied upon by any statement below. *)

From Stdlib Require Import ZArith QArith List String Ascii Bool Lia Lqa.
From Stdlib Require Import Sorting.Sorted Sorting.Permutation.
From Stdlib Require OrdersEx.
Import ListNotations.

Close Scope Q_scope.
Local Open Scope string_scope.
Local Open Scope Z_scope.

(* ------------------------------------------------------------------------- *)
(** ** A small SQL kernel *)
(* ------------------------------------------------------------------------- *)

Module Sql.

(** Three-valued truth: [None] is UNKNOWN. *)
Definition tv := option bool.

Definition holds (p : tv) : bool :=
  match p with Some true => true | _ => false end.

Definition is_null {A} (x : option A) : tv :=
  Some (match x with None => true | Some _ => false end).

Definition is_not_null {A} (x : option A) : tv :=
  Some (match x with None => false | Some _ => true end).

Definition and3 (p q : tv) : tv :=
  match p, q with
  | Some false, _ | _, Some false => Some false
  | Some true, Some true => Some true
  | _, _ => None
  end.

Definition or3 (p q : tv) : tv :=
  match p, q with
  | Some true, _ | _, Some true => Some true
  | Some false, Some false => Some false
  | _, _ => None
  end.

(** A comparison operator applied to two nullable operands. *)
Definition cmp3 {A B} (f : A -> B -> bool) (x : option A) (y : option B) : tv :=
  match x, y with
  | Some a, Some b => Some (f a b)
  | _, _ => None
  end.

(** A binary arithmetic operator applied to two nullable operands. *)
Definition op3 {A B C} (f : A -> B -> C) (x : option A) (y : option B) : option C :=
  match x, y with
  | Some a, Some b => Some (f a b)
  | _, _ => None
  end.

(** [x IS NOT DISTINCT FROM y]: the equality used by GROUP BY, PARTITION BY
    and DISTINCT ON, under which two NULLs are the same. *)
Definition not_distinct {A} (eqb : A -> A -> bool) (x y : option A) : bool :=
  match x, y with
  | Some a, Some b => eqb a b
  | None, None => true
  | _, _ => false
  end.

(** Searched CASE: the first branch whose condition is TRUE. *)
Fixpoint case_when {A} (branches : list (tv * A)) (otherwise : A) : A :=
  match branches with
  | [] => otherwise
  | (c, v) :: rest => if holds c then v else case_when rest otherwise
  end.

(** [x IN (v1, ..., vn)] for a non-null list of literals. *)
Definition in_list {A} (eqb : A -> A -> bool) (x : option A) (vs : list A) : tv :=
  match x with
  | None => None
  | Some a => Some (existsb (eqb a) vs)
  end.

Definition coalesce {A} (x : option A) (d : A) : A :=
  match x with Some a => a | None => d end.

(** *** ORDER BY *)

(** One sort item, [e DESC NULLS LAST]: [Lt] when the left row comes first. *)
Definition desc_nulls_last (x y : option Z) : comparison :=
  match x, y with
  | Some a, Some b => Z.compare b a
  | Some _, None => Lt
  | None, Some _ => Gt
  | None, None => Eq
  end.

(** One sort item, [e DESC]: NULLS FIRST is the default for DESC. *)
Definition desc_nulls_first (x y : option Z) : comparison :=
  match x, y with
  | Some a, Some b => Z.compare b a
  | Some _, None => Gt
  | None, Some _ => Lt
  | None, None => Eq
  end.

Definition then_by (c1 c2 : comparison) : comparison :=
  match c1 with Eq => c2 | _ => c1 end.

Section OrderBy.
Context {A : Type} (cmp : A -> A -> comparison).

Fixpoint insert_row (x : A) (sorted : list A) : list A :=
  match sorted with
  | [] => [x]
  | y :: rest =>
      match cmp x y with
      | Gt => y :: insert_row x rest
      | _ => x :: y :: rest
      end
  end.

(** A stable insertion sort.  Rows that compare [Eq] are peers: SQL leaves
    their relative order open, here they stay in table order. *)
Definition order_by (rows : list A) : list A :=
  fold_right insert_row [] rows.
End OrderBy.

(** *** Grouping *)

Section Groups.
Context {K : Type} (same : K -> K -> bool).

(** The distinct keys of a column, first occurrences kept. *)
Fixpoint distinct (ks : list K) : list K :=
  match ks with
  | [] => []
  | k :: rest => k :: filter (fun k' => negb (same k k')) (distinct rest)
  end.

Context {A : Type} (key : A -> K).

Definition group (k : K) (rows : list A) : list A :=
  filter (fun r => same k (key r)) rows.

(** [SELECT DISTINCT ON (key) ... ORDER BY key, cmp]: of each set of rows
    with the same key, the first one in the order [cmp]. *)
Definition distinct_on (cmp : A -> A -> comparison) (rows : list A) : list A :=
  flat_map (fun k => firstn 1 (order_by cmp (group k rows)))
           (distinct (map key rows)).

(** [ROW_NUMBER() OVER (PARTITION BY key ORDER BY cmp)]: every row paired
    with its 1-based rank inside its partition. *)
Definition row_number (cmp : A -> A -> comparison) (rows : list A) : list (A * Z) :=
  flat_map (fun k =>
              let part := order_by cmp (group k rows) in
              combine part (map Z.of_nat (seq 1 (List.length part))))
           (distinct (map key rows)).
End Groups.

(** [t1 LEFT JOIN t2 ON on]: every match, or one NULL-extended row. *)
Definition left_join {A B} (on : A -> B -> tv) (a : A) (right : list B) : list (option B) :=
  match filter (fun b => holds (on a b)) right with
  | [] => [None]
  | ms => map Some ms
  end.

(** *** Aggregates *)

(** [COUNT( * ) FILTER (WHERE p)], as the aggregate's transition function
    folded over the rows of the group. *)
Definition count_filter {A} (p : A -> tv) (rows : list A) : Z :=
  fold_left (fun n r => if holds (p r) then n + 1 else n) rows 0.

Definition count_star {A} (rows : list A) : Z :=
  count_filter (fun _ : A => Some true) rows.

Definition Qmax_step (acc : option Q) (v : option Q) : option Q :=
  match acc, v with
  | None, _ => v
  | Some a, None => Some a
  | Some a, Some b => Some (if Qle_bool a b then b else a)
  end.

(** [MAX(e) FILTER (WHERE p)]: NULL inputs are ignored, no input gives NULL. *)
Definition max_filter {A} (e : A -> option Q) (p : A -> tv) (rows : list A) : option Q :=
  fold_left (fun acc r => if holds (p r) then Qmax_step acc (e r) else acc) rows None.

(** [PERCENTILE_CONT(0.5) WITHIN GROUP (ORDER BY e) FILTER (WHERE e IS NOT NULL)]:
    with N inputs the target position is (N-1)/2 (0-based); the result
    interpolates linearly between the rows at its floor and its ceiling. *)
Definition percentile_cont_half (vals : list (option Z)) : option Q :=
  let present := flat_map (fun v => match v with Some d => [d] | None => [] end) vals in
  match present with
  | [] => None
  | _ =>
      let sorted := order_by Z.compare present in
      let n := List.length sorted in
      let lo := ((n - 1) / 2)%nat in
      let hi := (n / 2)%nat in
      let v1 := inject_Z (nth lo sorted 0) in
      let v2 := inject_Z (nth hi sorted 0) in
      Some (if (lo =? hi)%nat then v1 else (v1 + (1 # 2) * (v2 - v1))%Q)
  end.

(** *** Text *)

(** [LOWER] on the ASCII letters; other bytes are left as they are. *)

Definition lower_char (c : ascii) : ascii :=
  let n := nat_of_ascii c in
  if ((65 <=? n) && (n <=? 90))%nat then ascii_of_nat (n + 32) else c.

Fixpoint lower (s : string) : string :=
  match s with
  | EmptyString => EmptyString
  | String c rest => String (lower_char c) (lower rest)
  end.

Fixpoint char_in (c : ascii) (chars : string) : bool :=
  match chars with
  | EmptyString => false
  | String d rest => Ascii.eqb c d || char_in c rest
  end.

Fixpoint ltrim (chars s : string) : string :=
  match s with
  | EmptyString => EmptyString
  | String c rest => if char_in c chars then ltrim chars rest else s
  end.

Fixpoint rtrim (chars s : string) : string :=
  match s with
  | EmptyString => EmptyString
  | String c rest =>
      match rtrim chars rest with
      | EmptyString => if char_in c chars then EmptyString else String c EmptyString
      | kept => String c kept
      end
  end.

(** [TRIM(BOTH chars FROM s)]: the longest prefix and suffix made only of
    characters of [chars] are removed. *)
Definition trim_both (chars s : string) : string :=
  rtrim chars (ltrim chars s).

(** [TRIM(s)]: spaces only. *)
Definition trim (s : string) : string := trim_both " " s.

(** [CONCAT_WS(sep, a1, ..., an)]: NULL arguments are skipped, the others
    joined with [sep]. *)
Definition concat_ws (sep : string) (args : list (option string)) : string :=
  String.concat sep
    (flat_map (fun a => match a with Some s => [s] | None => [] end) args).

End Sql.

(* ------------------------------------------------------------------------- *)
(** ** Tables *)
(* ------------------------------------------------------------------------- *)

Definition uuid := N.
Definition text := string.
Definition date := Z.
Definition timestamptz := Z.

(** [public.assessments], the columns the views read. *)
Record assessment := mk_assessment {
  a_enrollment_id : option uuid;
  a_subject_area : option text;
  a_assessment_type : text;
  a_assessment_period : text;
  a_school_year : text;
  a_score_normalized : option Q;
  a_effective_date : option date;
  a_created_at : option timestamptz
}.

(** [public.student_enrollments]. *)
Record enrollment := mk_enrollment {
  e_enrollment_id : uuid;
  e_student_uuid : option uuid;
  e_school_year : option text;
  e_grade_level : option text;
  e_class_name : option text;
  e_teacher_name : option text
}.

(** [public.students_core]. *)
Record student := mk_student {
  s_student_uuid : uuid;
  s_display_name : option text
}.

(** [public.interventions]. *)
Record intervention := mk_intervention {
  i_enrollment_id : option uuid;
  i_subject_area : option text;
  i_status : option text
}.

(** [public.benchmark_thresholds]. *)
Record benchmark_threshold_row := mk_threshold {
  t_subject_area : text;
  t_assessment_type : text;
  t_grade_level : text;
  t_assessment_period : text;
  t_school_year : text;
  t_support_threshold : option Q;
  t_benchmark_threshold : option Q
}.

(** The labels the views produce. *)
Inductive support_status := Status_Unknown | Needs_Support | Monitor | On_Track.
Inductive tier := Tier_Unknown | Intensive | Strategic | Core.
Inductive trend := No_Data | Improving | Declining | Stable.

Definition support_status_label (s : support_status) : string :=
  match s with
  | Status_Unknown => "Unknown"
  | Needs_Support => "Needs Support"
  | Monitor => "Monitor"
  | On_Track => "On Track"
  end.

Definition tier_label (t : tier) : string :=
  match t with
  | Tier_Unknown => "Unknown"
  | Intensive => "Intensive"
  | Strategic => "Strategic"
  | Core => "Core"
  end.

Definition trend_label (t : trend) : string :=
  match t with
  | No_Data => "No Data"
  | Improving => "Improving"
  | Declining => "Declining"
  | Stable => "Stable"
  end.

Definition tier_eqb (a b : tier) : bool :=
  String.eqb (tier_label a) (tier_label b).

Definition trend_eqb (a b : trend) : bool :=
  String.eqb (trend_label a) (trend_label b).

Definition Qltb (x y : Q) : bool := negb (Qle_bool y x).
Definition Qgeb (x y : Q) : bool := Qle_bool y x.

(** [ORDER BY a.effective_date DESC NULLS LAST, a.created_at DESC], the order
    shared by the [latest] and [ranked] CTEs. *)
Definition recency (a b : assessment) : comparison :=
  Sql.then_by (Sql.desc_nulls_last (a_effective_date a) (a_effective_date b))
              (Sql.desc_nulls_first (a_created_at a) (a_created_at b)).

(* ------------------------------------------------------------------------- *)
(** ** 2.1 [v_teacher_roster] *)
(* ------------------------------------------------------------------------- *)

Record latest_row := mk_latest {
  l_enrollment_id : option uuid;
  l_subject_area : option text;
  l_latest_score : option Q;
  l_latest_date : option date;
  l_latest_period : text;
  l_school_year : text;
  l_latest_type : text
}.

Definition enrollment_subject (a : assessment) : option uuid * option text :=
  (a_enrollment_id a, a_subject_area a).

Definition same_enrollment_subject (k1 k2 : option uuid * option text) : bool :=
  Sql.not_distinct N.eqb (fst k1) (fst k2)
  && Sql.not_distinct String.eqb (snd k1) (snd k2).

(** The rows [latest] keeps: one assessment per (enrollment_id, subject_area),
    the first in [recency] order among the rows with an enrollment. *)
Definition latest_assessments (assessments : list assessment) : list assessment :=
  Sql.distinct_on same_enrollment_subject enrollment_subject recency
    (filter (fun a => Sql.holds (Sql.is_not_null (a_enrollment_id a))) assessments).

(** The [latest] CTE. *)
Definition latest (assessments : list assessment) : list latest_row :=
  map (fun a =>
         {| l_enrollment_id := a_enrollment_id a;
            l_subject_area := a_subject_area a;
            l_latest_score := a_score_normalized a;
            l_latest_date := a_effective_date a;
            l_latest_period := a_assessment_period a;
            l_school_year := a_school_year a;
            l_latest_type := a_assessment_type a |})
      (latest_assessments assessments).

Definition active_statuses : list text := ["active"; "in progress"; "ongoing"]%string.

(** The WHERE clause of the [active_intervention] CTE. *)
Definition is_active_intervention (i : intervention) : Sql.tv :=
  Sql.and3 (Sql.is_not_null (i_enrollment_id i))
    (Sql.or3 (Sql.is_null (i_status i))
       (Sql.in_list String.eqb
          (option_map (fun s => Sql.lower (Sql.trim s)) (i_status i))
          active_statuses)).

Record active_intervention_row := mk_active {
  ai_enrollment_id : option uuid;
  ai_has_active_intervention : bool
}.

(** The [active_intervention] CTE: [GROUP BY enrollment_id]. *)
Definition active_intervention (interventions : list intervention)
  : list active_intervention_row :=
  map (fun k => {| ai_enrollment_id := k; ai_has_active_intervention := true |})
      (Sql.distinct (Sql.not_distinct N.eqb)
         (map i_enrollment_id
            (filter (fun i => Sql.holds (is_active_intervention i)) interventions))).

Record roster_row := mk_roster {
  r_enrollment_id : uuid;
  r_student_uuid : option uuid;
  r_display_name : option text;
  r_school_year : option text;
  r_grade_level : option text;
  r_class_name : option text;
  r_teacher_name : option text;
  r_subject_area : option text;
  r_latest_score : option Q;
  r_latest_date : option date;
  r_latest_period : option text;
  r_latest_type : option text;
  r_days_since_assessment : option Z;
  r_has_active_intervention : bool
}.

Definition bind {A B} (x : option A) (f : A -> option B) : option B :=
  match x with Some a => f a | None => None end.

Definition roster_select (today : date) (e : enrollment) (s : student)
  (l : option latest_row) (ai : option active_intervention_row) : roster_row :=
  {| r_enrollment_id := e_enrollment_id e;
     r_student_uuid := e_student_uuid e;
     r_display_name := s_display_name s;
     r_school_year := e_school_year e;
     r_grade_level := e_grade_level e;
     r_class_name := e_class_name e;
     r_teacher_name := e_teacher_name e;
     r_subject_area := bind l l_subject_area;
     r_latest_score := bind l l_latest_score;
     r_latest_date := bind l l_latest_date;
     r_latest_period := option_map l_latest_period l;
     r_latest_type := option_map l_latest_type l;
     r_days_since_assessment := Sql.op3 Z.sub (Some today) (bind l l_latest_date);
     r_has_active_intervention :=
       Sql.coalesce (option_map ai_has_active_intervention ai) false |}.

(** The three ON clauses of the view. *)
Definition student_matches (e : enrollment) (s : student) : Sql.tv :=
  Sql.cmp3 N.eqb (Some (s_student_uuid s)) (e_student_uuid e).

Definition latest_matches (e : enrollment) (l : latest_row) : Sql.tv :=
  Sql.and3 (Sql.cmp3 N.eqb (l_enrollment_id l) (Some (e_enrollment_id e)))
           (Sql.cmp3 String.eqb (Some (l_school_year l)) (e_school_year e)).

Definition active_matches (e : enrollment) (ai : active_intervention_row) : Sql.tv :=
  Sql.cmp3 N.eqb (ai_enrollment_id ai) (Some (e_enrollment_id e)).

(** [v_teacher_roster]; [today] is CURRENT_DATE. *)
Definition v_teacher_roster (today : date)
  (enrollments : list enrollment) (students : list student)
  (assessments : list assessment) (interventions : list intervention)
  : list roster_row :=
  flat_map (fun e =>
    flat_map (fun s =>
      flat_map (fun l =>
        map (fun ai => roster_select today e s l ai)
            (Sql.left_join active_matches e (active_intervention interventions)))
        (Sql.left_join latest_matches e (latest assessments)))
      (filter (fun s => Sql.holds (student_matches e s)) students))
    enrollments.

(* ------------------------------------------------------------------------- *)
(** ** 2.2 [v_support_status] *)
(* ------------------------------------------------------------------------- *)

(** The CASE expression of the [support_status] column. *)
Definition support_status_case
  (latest_score support_threshold benchmark_threshold : option Q) : support_status :=
  Sql.case_when
    [ (Sql.is_null latest_score, Status_Unknown);
      (Sql.and3 (Sql.is_not_null support_threshold)
                (Sql.cmp3 Qltb latest_score support_threshold), Needs_Support);
      (Sql.and3 (Sql.is_not_null benchmark_threshold)
                (Sql.cmp3 Qltb latest_score benchmark_threshold), Monitor) ]
    On_Track.

(** The CASE expression of the [tier] column. *)
Definition tier_case
  (latest_score support_threshold benchmark_threshold : option Q) : tier :=
  Sql.case_when
    [ (Sql.is_null latest_score, Tier_Unknown);
      (Sql.and3 (Sql.is_not_null support_threshold)
                (Sql.cmp3 Qltb latest_score support_threshold), Intensive);
      (Sql.and3 (Sql.is_not_null benchmark_threshold)
                (Sql.cmp3 Qltb latest_score benchmark_threshold), Strategic) ]
    Core.

Record support_row := mk_support {
  ss_enrollment_id : uuid;
  ss_student_uuid : option uuid;
  ss_display_name : option text;
  ss_school_year : option text;
  ss_grade_level : option text;
  ss_class_name : option text;
  ss_teacher_name : option text;
  ss_subject_area : option text;
  ss_latest_score : option Q;
  ss_latest_date : option date;
  ss_latest_period : option text;
  ss_days_since_assessment : option Z;
  ss_has_active_intervention : bool;
  ss_support_threshold : option Q;
  ss_benchmark_threshold : option Q;
  ss_support_status : support_status;
  ss_tier : tier
}.

(** The ON clause of the join with [benchmark_thresholds]: all five keys. *)
Definition threshold_matches (r : roster_row) (t : benchmark_threshold_row) : Sql.tv :=
  Sql.and3 (Sql.cmp3 String.eqb (Some (t_subject_area t)) (r_subject_area r))
  (Sql.and3 (Sql.cmp3 String.eqb (Some (t_assessment_type t)) (r_latest_type r))
  (Sql.and3 (Sql.cmp3 String.eqb (Some (t_grade_level t)) (r_grade_level r))
  (Sql.and3 (Sql.cmp3 String.eqb (Some (t_assessment_period t)) (r_latest_period r))
            (Sql.cmp3 String.eqb (Some (t_school_year t)) (r_school_year r))))).

Definition support_select (r : roster_row) (t : option benchmark_threshold_row)
  : support_row :=
  let st := bind t t_support_threshold in
  let bt := bind t t_benchmark_threshold in
  {| ss_enrollment_id := r_enrollment_id r;
     ss_student_uuid := r_student_uuid r;
     ss_display_name := r_display_name r;
     ss_school_year := r_school_year r;
     ss_grade_level := r_grade_level r;
     ss_class_name := r_class_name r;
     ss_teacher_name := r_teacher_name r;
     ss_subject_area := r_subject_area r;
     ss_latest_score := r_latest_score r;
     ss_latest_date := r_latest_date r;
     ss_latest_period := r_latest_period r;
     ss_days_since_assessment := r_days_since_assessment r;
     ss_has_active_intervention := r_has_active_intervention r;
     ss_support_threshold := st;
     ss_benchmark_threshold := bt;
     ss_support_status := support_status_case (r_latest_score r) st bt;
     ss_tier := tier_case (r_latest_score r) st bt |}.

(** [v_support_status] over the rows of the roster. *)
Definition v_support_status (roster : list roster_row)
  (thresholds : list benchmark_threshold_row) : list support_row :=
  flat_map (fun r => map (support_select r) (Sql.left_join threshold_matches r thresholds))
           roster.

(* ------------------------------------------------------------------------- *)
(** ** 2.3 [v_teacher_kpis] *)
(* ------------------------------------------------------------------------- *)

(** The view's four count and median columns; the two rounded percentage
    columns are functions of the counts and are not needed below. *)
Record kpi_row := mk_kpi {
  k_teacher_name : option text;
  k_school_year : option text;
  k_subject_area : option text;
  k_total_students : Z;
  k_assessed_students : Z;
  k_overdue_count : Z;
  k_median_days_since : option Q
}.

Definition kpi_key : Type := option text * option text * option text.

Definition teacher_year_subject (r : roster_row) : kpi_key :=
  (r_teacher_name r, r_school_year r, r_subject_area r).

Definition same_kpi_key (k1 k2 : kpi_key) : bool :=
  Sql.not_distinct String.eqb (fst (fst k1)) (fst (fst k2))
  && Sql.not_distinct String.eqb (snd (fst k1)) (snd (fst k2))
  && Sql.not_distinct String.eqb (snd k1) (snd k2).

(** The aggregates of one group. *)
Definition kpi_of_group (k : kpi_key) (rows : list roster_row) : kpi_row :=
  {| k_teacher_name := fst (fst k);
     k_school_year := snd (fst k);
     k_subject_area := snd k;
     k_total_students := Sql.count_star rows;
     k_assessed_students :=
       Sql.count_filter (fun r => Sql.is_not_null (r_latest_score r)) rows;
     k_overdue_count :=
       Sql.count_filter
         (fun r => Sql.cmp3 Z.gtb (r_days_since_assessment r) (Some 90)) rows;
     k_median_days_since :=
       Sql.percentile_cont_half (map r_days_since_assessment rows) |}.

(** [v_teacher_kpis]: [GROUP BY teacher_name, school_year, subject_area]. *)
Definition v_teacher_kpis (roster : list roster_row) : list kpi_row :=
  map (fun k => kpi_of_group k (Sql.group same_kpi_key teacher_year_subject k roster))
      (Sql.distinct same_kpi_key (map teacher_year_subject roster)).

(* ------------------------------------------------------------------------- *)
(** ** 2.4 [v_growth_last_two] *)
(* ------------------------------------------------------------------------- *)

Definition growth_key : Type := option uuid * option text * text.

Definition enrollment_subject_year (a : assessment) : growth_key :=
  (a_enrollment_id a, a_subject_area a, a_school_year a).

Definition same_growth_key (k1 k2 : growth_key) : bool :=
  Sql.not_distinct N.eqb (fst (fst k1)) (fst (fst k2))
  && Sql.not_distinct String.eqb (snd (fst k1)) (snd (fst k2))
  && String.eqb (snd k1) (snd k2).

(** The WHERE clause of the [ranked] CTE. *)
Definition is_scored (a : assessment) : Sql.tv :=
  Sql.and3 (Sql.is_not_null (a_enrollment_id a))
           (Sql.is_not_null (a_score_normalized a)).

(** The [ranked] CTE: each scored assessment with its [rn]. *)
Definition ranked (assessments : list assessment) : list (assessment * Z) :=
  Sql.row_number same_growth_key enrollment_subject_year recency
    (filter (fun a => Sql.holds (is_scored a)) assessments).

Record pair_row := mk_pair {
  p_enrollment_id : option uuid;
  p_subject_area : option text;
  p_school_year : text;
  p_latest_score : option Q;
  p_prior_score : option Q
}.

Definition ranked_key (r : assessment * Z) : growth_key :=
  enrollment_subject_year (fst r).

Definition pair_of_group (k : growth_key) (rows : list (assessment * Z)) : pair_row :=
  {| p_enrollment_id := fst (fst k);
     p_subject_area := snd (fst k);
     p_school_year := snd k;
     p_latest_score :=
       Sql.max_filter (fun r => a_score_normalized (fst r))
                      (fun r => Some (snd r =? 1)) rows;
     p_prior_score :=
       Sql.max_filter (fun r => a_score_normalized (fst r))
                      (fun r => Some (snd r =? 2)) rows |}.

(** The [pairs] CTE: [WHERE rn <= 2 GROUP BY 1, 2, 3]. *)
Definition pairs (assessments : list assessment) : list pair_row :=
  let top := filter (fun r => Sql.holds (Some (snd r <=? 2))) (ranked assessments) in
  map (fun k => pair_of_group k (Sql.group same_growth_key ranked_key k top))
      (Sql.distinct same_growth_key (map ranked_key top)).

(** The CASE expression of the [trend] column. *)
Definition trend_case (latest_score prior_score : option Q) : trend :=
  Sql.case_when
    [ (Sql.is_null prior_score, No_Data);
      (Sql.cmp3 Qgeb (Sql.op3 Qminus latest_score prior_score) (Some (2 # 1)%Q), Improving);
      (Sql.cmp3 Qle_bool (Sql.op3 Qminus latest_score prior_score) (Some (- 2 # 1)%Q),
       Declining) ]
    Stable.

Record growth_row := mk_growth {
  g_enrollment_id : option uuid;
  g_subject_area : option text;
  g_school_year : text;
  g_latest_score : option Q;
  g_prior_score : option Q;
  g_growth : option Q;
  g_trend : trend
}.

Definition growth_select (p : pair_row) : growth_row :=
  {| g_enrollment_id := p_enrollment_id p;
     g_subject_area := p_subject_area p;
     g_school_year := p_school_year p;
     g_latest_score := p_latest_score p;
     g_prior_score := p_prior_score p;
     g_growth := Sql.op3 Qminus (p_latest_score p) (p_prior_score p);
     g_trend := trend_case (p_latest_score p) (p_prior_score p) |}.

Definition v_growth_last_two (assessments : list assessment) : list growth_row :=
  map growth_select (pairs assessments).

(* ------------------------------------------------------------------------- *)
(** ** 2.5 [v_priority_students] *)
(* ------------------------------------------------------------------------- *)

Definition tier_is (t : tier) (lit : tier) : Sql.tv := Some (tier_eqb t lit).

Definition trend_is (t : option trend) (lit : trend) : Sql.tv :=
  Sql.cmp3 trend_eqb t (Some lit).

Definition days_over (days : option Z) (limit : Z) : Sql.tv :=
  Sql.cmp3 Z.gtb days (Some limit).

(** [has_active_intervention = FALSE AND tier IN ('Intensive', 'Strategic')]. *)
Definition uncovered (has_active_intervention : bool) (t : tier) : Sql.tv :=
  Sql.and3 (Some (Bool.eqb has_active_intervention false))
           (Sql.in_list tier_eqb (Some t) [Intensive; Strategic]).

(** The [priority_score] column. *)
Definition priority_score_of (t : tier) (tr : option trend) (days : option Z)
  (has_active_intervention : bool) : Z :=
  Sql.case_when [ (tier_is t Intensive, 5); (tier_is t Strategic, 3) ] 0
  + Sql.case_when [ (trend_is tr Declining, 3); (trend_is tr Stable, 1) ] 0
  + Sql.case_when [ (days_over days 90, 2); (days_over days 60, 1) ] 0
  + Sql.case_when [ (uncovered has_active_intervention t, 2) ] 0.

(** The arguments of CONCAT_WS in the [reasons] column; a CASE without ELSE
    is NULL when no branch is taken. *)
Definition reason_args (t : tier) (tr : option trend) (days : option Z)
  (has_active_intervention : bool) : list (option string) :=
  [ Sql.case_when [ (tier_is t Intensive, Some "Intensive tier");
                    (tier_is t Strategic, Some "Strategic tier") ] None;
    Sql.case_when [ (trend_is tr Declining, Some "Declining growth trend") ] None;
    Sql.case_when [ (uncovered has_active_intervention t,
                     Some "No active intervention") ] None;
    Sql.case_when [ (days_over days 90, Some "Overdue assessment (>90d)") ] None ].

(** The [reasons] column. *)
Definition reasons_of (t : tier) (tr : option trend) (days : option Z)
  (has_active_intervention : bool) : string :=
  Sql.trim_both " |" (Sql.concat_ws " | " (reason_args t tr days has_active_intervention)).

Record priority_row := mk_priority {
  pr_enrollment_id : uuid;
  pr_display_name : option text;
  pr_teacher_name : option text;
  pr_school_year : option text;
  pr_grade_level : option text;
  pr_class_name : option text;
  pr_subject_area : option text;
  pr_latest_score : option Q;
  pr_support_status : support_status;
  pr_tier : tier;
  pr_trend : option trend;
  pr_days_since_assessment : option Z;
  pr_has_active_intervention : bool;
  pr_priority_score : Z;
  pr_reasons : string
}.

(** The ON clause of the join with [v_growth_last_two]. *)
Definition growth_matches (ss : support_row) (g : growth_row) : Sql.tv :=
  Sql.and3 (Sql.cmp3 N.eqb (g_enrollment_id g) (Some (ss_enrollment_id ss)))
  (Sql.and3 (Sql.cmp3 String.eqb (g_subject_area g) (ss_subject_area ss))
            (Sql.cmp3 String.eqb (Some (g_school_year g)) (ss_school_year ss))).

Definition priority_select (ss : support_row) (g : option growth_row) : priority_row :=
  let tr := option_map g_trend g in
  {| pr_enrollment_id := ss_enrollment_id ss;
     pr_display_name := ss_display_name ss;
     pr_teacher_name := ss_teacher_name ss;
     pr_school_year := ss_school_year ss;
     pr_grade_level := ss_grade_level ss;
     pr_class_name := ss_class_name ss;
     pr_subject_area := ss_subject_area ss;
     pr_latest_score := ss_latest_score ss;
     pr_support_status := ss_support_status ss;
     pr_tier := ss_tier ss;
     pr_trend := tr;
     pr_days_since_assessment := ss_days_since_assessment ss;
     pr_has_active_intervention := ss_has_active_intervention ss;
     pr_priority_score :=
       priority_score_of (ss_tier ss) tr (ss_days_since_assessment ss)
                         (ss_has_active_intervention ss);
     pr_reasons :=
       reasons_of (ss_tier ss) tr (ss_days_since_assessment ss)
                  (ss_has_active_intervention ss) |}.

Definition v_priority_students (support : list support_row) (growth : list growth_row)
  : list priority_row :=
  flat_map (fun ss => map (priority_select ss) (Sql.left_join growth_matches ss growth))
           support.

(** The whole pipeline from the tables, as the database evaluates the views. *)
Record database := mk_database {
  db_today : date;
  db_enrollments : list enrollment;
  db_students : list student;
  db_assessments : list assessment;
  db_interventions : list intervention;
  db_thresholds : list benchmark_threshold_row
}.

Definition roster_of (db : database) : list roster_row :=
  v_teacher_roster (db_today db) (db_enrollments db) (db_students db)
                   (db_assessments db) (db_interventions db).

Definition support_status_of (db : database) : list support_row :=
  v_support_status (roster_of db) (db_thresholds db).



(* ------------------------------------------------------------------------- *)
(** ** Vocabulary of the statements *)
(* ------------------------------------------------------------------------- *)

(** [x] does not sort after [y] in the order [cmp]. *)
Definition not_after {A} (cmp : A -> A -> comparison) (x y : A) : Prop :=
  cmp x y <> Gt.

(** [a] is at least as recent as [b]: [a] does not sort after [b] under
    [effective_date DESC NULLS LAST, created_at DESC]. *)
Definition at_least_as_recent : assessment -> assessment -> Prop :=
  not_after recency.



(** The selector as the design document words it (section 4.2): keep the rows
    with a normalized score, order them by recency, take the first. *)
Definition latest_scored_spec (rows : list assessment) : option assessment :=
  hd_error
    (Sql.order_by recency
       (filter (fun a => Sql.holds (Sql.is_not_null (a_score_normalized a))) rows)).

(** Substring test. *)
Fixpoint contains (needle hay : string) : bool :=
  String.prefix needle hay
  || match hay with
     | EmptyString => false
     | String _ rest => contains needle rest
     end.


(** Intervention presence as the design document words it (section 4.5): an
    intervention of this enrollment and this subject whose status contains
    one of the three words, whatever the case. *)
Definition status_mentions_active (status : option text) : bool :=
  match status with
  | None => false
  | Some s => existsb (fun w => contains w (Sql.lower s)) active_statuses
  end.

Definition intervention_presence_spec (interventions : list intervention)
  (enrollment_id : uuid) (subject_area : option text) : bool :=
  existsb (fun i =>
             Sql.not_distinct N.eqb (i_enrollment_id i) (Some enrollment_id)
             && Sql.not_distinct String.eqb (i_subject_area i) subject_area
             && status_mentions_active (i_status i))
          interventions.

(** The status test of the view, on one status value. *)
Definition status_counts_as_active (status : option text) : Prop :=
  match status with
  | None => True
  | Some s => In (Sql.lower (Sql.trim s)) active_statuses
  end.

(** The ordinal scale of the tiers: Intensive < Strategic < Core. *)
Definition tier_rank (t : tier) : Z :=
  match t with
  | Tier_Unknown => 0
  | Intensive => 1
  | Strategic => 2
  | Core => 3
  end.


Definition more_than (days : option Z) (limit : Z) : bool :=
  match days with
  | Some d => limit <? d
  | None => false
  end.

Definition is_tier (t lit : tier) : bool :=
  match t, lit with
  | Tier_Unknown, Tier_Unknown | Intensive, Intensive
  | Strategic, Strategic | Core, Core => true
  | _, _ => false
  end.

Definition is_trend (t : option trend) (lit : trend) : bool :=
  match t, lit with
  | Some No_Data, No_Data | Some Improving, Improving
  | Some Declining, Declining | Some Stable, Stable => true
  | _, _ => false
  end.

Definition when (fired : bool) (reason : string) : list string :=
  if fired then [reason] else [].

(** The reasons that fired, in display order. *)
Definition fired_reasons (t : tier) (tr : option trend) (days : option Z)
  (has_active_intervention : bool) : list string :=
  (when (is_tier t Intensive) "Intensive tier"
   ++ when (is_tier t Strategic) "Strategic tier"
   ++ when (is_trend tr Declining) "Declining growth trend"
   ++ when (negb has_active_intervention
            && (is_tier t Intensive || is_tier t Strategic)) "No active intervention"
   ++ when (more_than days 90) "Overdue assessment (>90d)")%list.

Definition has_score (r : roster_row) : bool :=
  match r_latest_score r with Some _ => true | None => false end.

Definition has_days (r : roster_row) : bool :=
  match r_days_since_assessment r with Some _ => true | None => false end.

(** Concrete rows used in the examples. *)
Definition fall_scored : assessment :=
  mk_assessment (Some 1%N) (Some "Math") "Benchmark" "Fall" "2024-25"
                (Some (50 # 1)%Q) (Some 19980) (Some 100).

Definition winter_unscored : assessment :=
  mk_assessment (Some 1%N) (Some "Math") "Benchmark" "Winter" "2024-25"
                None (Some 20080) (Some 200).

Definition winter_scored : assessment :=
  mk_assessment (Some 1%N) (Some "Math") "Benchmark" "Winter" "2024-25"
                (Some (58 # 1)%Q) (Some 20080) (Some 200).

Definition enrollment_one : enrollment :=
  mk_enrollment 1%N (Some 7%N) (Some "2024-25") (Some "3")
                (Some "3-A") (Some "Garcia").

Definition enrollment_two : enrollment :=
  mk_enrollment 2%N (Some 8%N) (Some "2024-25") (Some "3")
                (Some "3-A") (Some "Garcia").

Definition student_seven : student := mk_student 7%N (Some "Ada").
Definition student_eight : student := mk_student 8%N (Some "Ben").

Definition tutoring_tier2 : intervention :=
  mk_intervention (Some 1%N) (Some "Math") (Some "Active (Tier 2)").

Definition reading_support : intervention :=
  mk_intervention (Some 1%N) (Some "Reading") (Some "Active").

Definition math_coaching : intervention :=
  mk_intervention (Some 1%N) (Some "Math") (Some " In Progress ").

Definition reading_threshold : benchmark_threshold_row :=
  mk_threshold "Reading" "Benchmark" "3" "Winter" "2024-25"
               (Some (60 # 1)%Q) (Some (75 # 1)%Q).

Definition sample_db (assessments : list assessment)
  (interventions : list intervention) (thresholds : list benchmark_threshold_row)
  : database :=
  mk_database 20100 [enrollment_one; enrollment_two] [student_seven; student_eight]
              assessments interventions thresholds.

(* ------------------------------------------------------------------------- *)
(** ** Migration sections 1.1, 1.2 and 1.5: the data fixes *)
(* ------------------------------------------------------------------------- *)

(** [UPDATE t SET ... WHERE p]: the rows for which [p] is TRUE are rewritten,
    the others stay, and the table keeps its rows in place. *)
Definition sql_update {A} (p : A -> Sql.tv) (set : A -> A) (table : list A) : list A :=
  map (fun r => if Sql.holds (p r) then set r else r) table.

(** [DELETE FROM t a USING t a2 WHERE c]: a row goes when some row of the
    table, as it is before the statement, makes [c] TRUE with it. *)
Definition sql_delete_using {A} (c : A -> A -> Sql.tv) (table : list A) : list A :=
  filter (fun a => negb (existsb (fun a2 => Sql.holds (c a a2)) table)) table.

(** [COALESCE(x, y)] with a nullable last argument. *)
Definition coalesce2 {A} (x y : option A) : option A :=
  match x with Some a => Some a | None => y end.

(** A row of [public.assessments] as the migration sees it: the columns the
    views read, and the three they do not. *)
Record stored_assessment := mk_stored_assessment {
  sa_assessment_id : Z;
  sa_assessment_date : option date;
  sa_period_order : option Z;
  sa_columns : assessment
}.

Definition with_effective_date (d : option date) (row : stored_assessment)
  : stored_assessment :=
  let a := sa_columns row in
  {| sa_assessment_id := sa_assessment_id row;
     sa_assessment_date := sa_assessment_date row;
     sa_period_order := sa_period_order row;
     sa_columns :=
       {| a_enrollment_id := a_enrollment_id a;
          a_subject_area := a_subject_area a;
          a_assessment_type := a_assessment_type a;
          a_assessment_period := a_assessment_period a;
          a_school_year := a_school_year a;
          a_score_normalized := a_score_normalized a;
          a_effective_date := d;
          a_created_at := a_created_at a |} |}.

Definition with_period_order (n : option Z) (row : stored_assessment)
  : stored_assessment :=
  {| sa_assessment_id := sa_assessment_id row;
     sa_assessment_date := sa_assessment_date row;
     sa_period_order := n;
     sa_columns := sa_columns row |}.

Section EffectiveDate.
(** [created_at::date]: the calendar day of a timestamp in the time zone of
    the session. *)
Variable date_of_timestamp : timestamptz -> date.

(** [COALESCE(assessment_date::date, created_at::date)]. *)
Definition effective_date_default (row : stored_assessment) : option date :=
  coalesce2 (sa_assessment_date row)
            (option_map date_of_timestamp (a_created_at (sa_columns row))).

(** [UPDATE public.assessments SET effective_date = ... WHERE effective_date
    IS NULL]. *)
Definition backfill_effective_date (table : list stored_assessment)
  : list stored_assessment :=
  sql_update (fun row => Sql.is_null (a_effective_date (sa_columns row)))
             (fun row => with_effective_date (effective_date_default row) row)
             table.
End EffectiveDate.

(** [CASE LOWER(TRIM(assessment_period)) WHEN 'fall' THEN 1 ... ELSE NULL END]. *)
Definition period_order_case (assessment_period : text) : option Z :=
  let p := Some (Sql.lower (Sql.trim assessment_period)) in
  Sql.case_when
    [ (Sql.cmp3 String.eqb p (Some "fall"), Some 1);
      (Sql.cmp3 String.eqb p (Some "winter"), Some 2);
      (Sql.cmp3 String.eqb p (Some "spring"), Some 3);
      (Sql.cmp3 String.eqb p (Some "eoy"), Some 4) ]
    None.

(** [UPDATE public.assessments SET period_order = CASE ... END WHERE
    period_order IS NULL]. *)
Definition backfill_period_order (table : list stored_assessment)
  : list stored_assessment :=
  sql_update (fun row => Sql.is_null (sa_period_order row))
             (fun row =>
                with_period_order
                  (period_order_case (a_assessment_period (sa_columns row))) row)
             table.

(** The WHERE clause of the de-duplicating DELETE: [a] has an enrollment and
    [a2] is a row of the same enrollment, subject, type, period and year
    with a larger [assessment_id]. *)
Definition superseded_by (a a2 : stored_assessment) : Sql.tv :=
  Sql.and3 (Sql.is_not_null (a_enrollment_id (sa_columns a)))
  (Sql.and3 (Sql.cmp3 N.eqb (a_enrollment_id (sa_columns a))
                            (a_enrollment_id (sa_columns a2)))
  (Sql.and3 (Some (Sql.not_distinct String.eqb (a_subject_area (sa_columns a))
                                               (a_subject_area (sa_columns a2))))
  (Sql.and3 (Some (String.eqb (a_assessment_type (sa_columns a))
                              (a_assessment_type (sa_columns a2))))
  (Sql.and3 (Some (String.eqb (a_assessment_period (sa_columns a))
                              (a_assessment_period (sa_columns a2))))
  (Sql.and3 (Some (String.eqb (a_school_year (sa_columns a))
                              (a_school_year (sa_columns a2))))
            (Some (sa_assessment_id a <? sa_assessment_id a2))))))).

(** [DELETE FROM public.assessments a USING public.assessments a2 WHERE ...]. *)
Definition deduplicate_assessments (table : list stored_assessment)
  : list stored_assessment :=
  sql_delete_using superseded_by table.

(** The five columns of [uq_assessment_unique_window]. *)
Definition assessment_window (row : stored_assessment)
  : option uuid * option text * text * text * text :=
  (a_enrollment_id (sa_columns row), a_subject_area (sa_columns row),
   a_assessment_type (sa_columns row), a_assessment_period (sa_columns row),
   a_school_year (sa_columns row)).

(** The columns section 1.1 reads and writes in [interventions],
    [teacher_notes] and [student_goals]: the key of the row, the legacy
    [student_id] and the new [enrollment_id].  The three UPDATE statements are
    the same statement on the three tables. *)
Record workflow_row := mk_workflow {
  w_id : Z;
  w_student_id : Z;
  w_enrollment_id : option uuid
}.

(** [public.student_id_map]. *)
Record id_map_row := mk_id_map {
  m_legacy_student_id : option Z;
  m_student_uuid : option uuid
}.

Definition with_enrollment_id (eid : option uuid) (w : workflow_row) : workflow_row :=
  {| w_id := w_id w; w_student_id := w_student_id w; w_enrollment_id := eid |}.

Section EnrollmentBackfill.
(** The order of TEXT values under the collation of the database. *)
Variable text_compare : text -> text -> comparison.

(** One sort item, [e DESC NULLS LAST], on TEXT. *)
Definition text_desc_nulls_last (x y : option text) : comparison :=
  match x, y with
  | Some a, Some b => text_compare b a
  | Some _, None => Lt
  | None, Some _ => Gt
  | None, None => Eq
  end.

(** The FROM and WHERE of the sub-select: the rows without enrollment, joined
    through the id map to the enrollments of their student. *)
Definition backfill_join (rows : list workflow_row) (id_map : list id_map_row)
  (enrollments : list enrollment) : list (workflow_row * enrollment) :=
  filter (fun p => Sql.holds (Sql.is_null (w_enrollment_id (fst p))))
    (flat_map (fun i2 =>
       flat_map (fun m =>
         map (fun e => (i2, e))
             (filter (fun e => Sql.holds (Sql.cmp3 N.eqb (e_student_uuid e)
                                                         (m_student_uuid m)))
                     enrollments))
         (filter (fun m => Sql.holds (Sql.cmp3 Z.eqb (m_legacy_student_id m)
                                                     (Some (w_student_id i2))))
                 id_map))
       rows).

Definition by_school_year_desc (p q : workflow_row * enrollment) : comparison :=
  text_desc_nulls_last (e_school_year (snd p)) (e_school_year (snd q)).

(** The sub-select with its [rn]. *)
Definition backfill_candidates (rows : list workflow_row) (id_map : list id_map_row)
  (enrollments : list enrollment) : list ((workflow_row * enrollment) * Z) :=
  Sql.row_number Z.eqb (fun p => w_id (fst p)) by_school_year_desc
    (backfill_join rows id_map enrollments).

(** The WHERE clause of the UPDATE, between a target row and a sub-select
    row. *)
Definition backfill_matches (i : workflow_row) (sub : (workflow_row * enrollment) * Z)
  : Sql.tv :=
  Sql.and3 (Some (w_id (fst (fst sub)) =? w_id i))
  (Sql.and3 (Some (snd sub =? 1)) (Sql.is_null (w_enrollment_id i))).

(** What the UPDATE does to one row: a row with a matching sub-select row
    takes its enrollment. *)
Definition backfill_row (rows : list workflow_row) (id_map : list id_map_row)
  (enrollments : list enrollment) (i : workflow_row) : workflow_row :=
  match filter (fun sub => Sql.holds (backfill_matches i sub))
               (backfill_candidates rows id_map enrollments) with
  | [] => i
  | sub :: _ => with_enrollment_id (Some (e_enrollment_id (snd (fst sub)))) i
  end.

(** [UPDATE t i SET enrollment_id = sub.enrollment_id FROM (...) sub WHERE
    ...]. *)
Definition backfill_enrollment_id (rows : list workflow_row) (id_map : list id_map_row)
  (enrollments : list enrollment) : list workflow_row :=
  map (backfill_row rows id_map enrollments) rows.
End EnrollmentBackfill.

(** The byte order of TEXT (the C collation). *)
Definition byte_order : text -> text -> comparison :=
  OrdersEx.String_as_OT.compare.

Definition legacy_note : workflow_row := mk_workflow 31 501 None.

Definition enrollment_one_last_year : enrollment :=
  mk_enrollment 3%N (Some 7%N) (Some "2023-24") (Some "2") (Some "2-B")
                (Some "Lopez").

(** The enrollments a legacy row can take: those of the student its
    [student_id] maps to. *)
Definition enrollment_of_student (id_map : list id_map_row)
  (enrollments : list enrollment) (i : workflow_row) (e : enrollment) : Prop :=
  In e enrollments
  /\ exists m u, In m id_map
                 /\ m_legacy_student_id m = Some (w_student_id i)
                 /\ m_student_uuid m = Some u
                 /\ e_student_uuid e = Some u.

(* ------------------------------------------------------------------------- *)
(** ** Keys and sums used in the statements about the views *)
(* ------------------------------------------------------------------------- *)

Definition threshold_key (t : benchmark_threshold_row)
  : text * text * text * text * text :=
  (t_subject_area t, t_assessment_type t, t_grade_level t,
   t_assessment_period t, t_school_year t).

Definition roster_key (r : roster_row) : uuid * option text :=
  (r_enrollment_id r, r_subject_area r).

Definition growth_row_key (g : growth_row) : growth_key :=
  (g_enrollment_id g, g_subject_area g, g_school_year g).

Definition kpi_row_key (k : kpi_row) : kpi_key :=
  (k_teacher_name k, k_school_year k, k_subject_area k).

Definition Zsum (l : list Z) : Z := fold_right Z.add 0 l.

Definition present_days (rows : list roster_row) : list Z :=
  flat_map (fun r => match r_days_since_assessment r with
                     | Some d => [d]
                     | None => []
                     end) rows.

(* ------------------------------------------------------------------------- *)
(** * 3. The dashboard components (web/src)

    The pages read the rows of the views and draw them.  A JavaScript string
    is a [string]; a value that may be [null] or [undefined] is an [option]
    (the code below treats the two alike: it only uses [||], [??], [!],
    [?.] and [===] against a literal on them). *)
(* ------------------------------------------------------------------------- *)

Module Js.

(** Truthiness of a string that may be missing: [null], [undefined] and the
    empty string are falsy. *)
Definition truthy (s : option string) : bool :=
  match s with
  | Some (String _ _) => true
  | _ => false
  end.

(** [a || b]. *)
Definition or (a b : option string) : option string :=
  if truthy a then a else b.

(** [a || 'd'], with a string on the right. *)
Definition or_text (a : option string) (d : string) : string :=
  match a with
  | Some (String c rest) => String c rest
  | _ => d
  end.

(** [a === 'lit']. *)
Definition equals (a : option string) (lit : string) : bool :=
  match a with
  | Some s => String.eqb s lit
  | None => false
  end.

(** [a ?? d]. *)
Definition nullish {A} (a : option A) (d : A) : A :=
  match a with
  | Some x => x
  | None => d
  end.

(** The names every object literal inherits from [Object.prototype]. *)
Definition object_prototype : list string :=
  [ "constructor"; "hasOwnProperty"; "isPrototypeOf"; "propertyIsEnumerable";
    "toLocaleString"; "toString"; "valueOf"; "__proto__";
    "__defineGetter__"; "__defineSetter__"; "__lookupGetter__";
    "__lookupSetter__" ].

(** What [table[key]] finds in a table written as an object literal: its own
    entry, else a member inherited from the prototype, else [undefined]
    ([None]). *)
Inductive member (V : Type) :=
| Own (v : V)
| Inherited (name : string).
Arguments Own {V} v.
Arguments Inherited {V} name.

Fixpoint own {V} (table : list (string * V)) (key : string) : option V :=
  match table with
  | [] => None
  | (k, v) :: rest => if String.eqb k key then Some v else own rest key
  end.

Definition get {V} (table : list (string * V)) (key : string) : option (member V) :=
  match own table key with
  | Some v => Some (Own v)
  | None =>
      if existsb (String.eqb key) object_prototype then Some (Inherited key)
      else None
  end.

End Js.

(** [tierToDisplayTier] of the overview and of the student page. *)
Definition tierToDisplayTier (tier : option string) : string :=
  if Js.equals tier "Core" then "Core (Tier 1)"
  else if Js.equals tier "Strategic" then "Strategic (Tier 2)"
  else if Js.equals tier "Intensive" then "Intensive (Tier 3)"
  else Js.or_text tier "Unknown".

Definition STATUS_KEY : list (string * string) :=
  [ ("High", "intensive");
    ("Medium", "strategic");
    ("Low", "core");
    ("Core (Tier 1)", "core");
    ("Strategic (Tier 2)", "strategic");
    ("Intensive (Tier 3)", "intensive");
    ("Unknown", "unknown");
    ("Not assessed", "unknown") ].

(** What [RiskBadge] draws: the text of the badge and the status key that
    names its two colours, [--color-status-<key>-bg] and [-text]. *)
Record badge := mk_badge {
  badge_label : string;
  badge_key : Js.member string
}.

Definition RiskBadge (risk tier : option string) (showNotAssessed : bool) : badge :=
  let raw := Js.or tier risk in
  let isMissing := negb (Js.truthy raw) || Js.equals raw "Unknown" in
  let label :=
    if showNotAssessed && isMissing then "Not assessed" else Js.or_text raw "—" in
  let key :=
    Js.nullish
      (Js.get STATUS_KEY
         (Js.or_text (Js.or tier risk)
            (if showNotAssessed && isMissing then "Not assessed" else "")))
      (Js.Own "unknown") in
  mk_badge label key.

(** The badge of one row of the priority table:
    [<RiskBadge tier={tierToDisplayTier(r.tier)} showNotAssessed />]. *)
Definition priority_badge (tier : option string) : badge :=
  RiskBadge None (Some (tierToDisplayTier tier)) true.

Record trend_config := mk_trend_config {
  tc_icon : string;
  tc_label : string;
  tc_statusKey : string
}.

Definition TREND_CONFIG : list (string * trend_config) :=
  [ ("Improving", mk_trend_config "↑" "Improving" "improving");
    ("Declining", mk_trend_config "↓" "Declining" "declining");
    ("Stable", mk_trend_config "→" "Stable" "stable");
    ("Unknown", mk_trend_config "—" "Unknown" "unknown") ].

(** A property of a looked-up entry; an inherited member has none of the
    three properties, so reading one gives [undefined]. *)
Definition property (f : trend_config -> string) (m : Js.member trend_config)
  : option string :=
  match m with
  | Js.Own c => Some (f c)
  | Js.Inherited _ => None
  end.

(** A value inside a template string. *)
Definition interpolate (v : option string) : string :=
  Js.nullish v "undefined".

Definition getColors (statusKey : option string) : string * string :=
  if Js.equals statusKey "declining" then ("#FCE8E8", "#9B1C1C")
  else if Js.equals statusKey "improving" then ("#E6F2EC", "#1E6B43")
  else if Js.equals statusKey "stable" then ("#E6F2EC", "#1E6B43")
  else ("var(--color-status-" ++ interpolate statusKey ++ "-bg)",
        "var(--color-status-" ++ interpolate statusKey ++ "-text)").

Record chip := mk_chip {
  chip_icon : option string;
  chip_label : option string;
  chip_backgroundColor : string;
  chip_color : string
}.

(** [TrendChip]; [None] is the TypeError of reading [statusKey] of an
    undefined [config]. *)
Definition TrendChip (trend : option string) : option chip :=
  let key :=
    if Js.truthy trend
       && match Js.get TREND_CONFIG (Js.nullish trend "") with
          | Some _ => true
          | None => false
          end
    then Js.nullish trend "" else "Unknown" in
  match Js.get TREND_CONFIG key with
  | None => None
  | Some config =>
      let colors := getColors (property tc_statusKey config) in
      Some (mk_chip (property tc_icon config) (property tc_label config)
                    (fst colors) (snd colors))
  end.

(** The two chips drawn for a trend that has no entry of its own: the one of
    an inherited member, and the one of the "Unknown" entry. *)
Definition proto_chip : chip :=
  mk_chip None None "var(--color-status-undefined-bg)" "var(--color-status-undefined-text)".
Definition unknown_chip : chip :=
  mk_chip (Some "—") (Some "Unknown") "var(--color-status-unknown-bg)" "var(--color-status-unknown-text)".

(* ------------------------------------------------------------------------- *)
(** ** The overview and the student page (web/src/pages) *)
(* ------------------------------------------------------------------------- *)

(** [PriorityStudentRow] of api/client.ts: the columns of the priority view
    the overview reads, under the names of the view. *)
Record PriorityStudentRow := mk_PriorityStudentRow {
  row_display_name : option string;
  row_grade_level : option string;
  row_class_name : option string;
  row_support_status : option string;
  row_tier : string;
  row_trend : option string;
  row_days_since_assessment : option Z;
  row_has_active_intervention : bool;
  row_priority_score : Z;
  row_reasons : option string
}.

(** A row of the view as the client holds it: every column under its own
    name, the labels as the texts the view writes. *)
Definition client_row (p : priority_row) : PriorityStudentRow :=
  {| row_display_name := pr_display_name p;
     row_grade_level := pr_grade_level p;
     row_class_name := pr_class_name p;
     row_support_status := Some (support_status_label (pr_support_status p));
     row_tier := tier_label (pr_tier p);
     row_trend := option_map trend_label (pr_trend p);
     row_days_since_assessment := pr_days_since_assessment p;
     row_has_active_intervention := pr_has_active_intervention p;
     row_priority_score := pr_priority_score p;
     row_reasons := Some (pr_reasons p) |}.

Inductive KpiFilter := overdue | declining | no_intervention.

Definition kpi_predicate (f : KpiFilter) (r : PriorityStudentRow) : bool :=
  match f with
  | overdue => 90 <? Js.nullish (row_days_since_assessment r) 0
  | declining => Js.equals (row_trend r) "Declining"
  | no_intervention =>
      negb (row_has_active_intervention r)
      && (String.eqb (row_tier r) "Intensive"
          || String.eqb (row_tier r) "Strategic")
  end.

Section PriorityRows.

(** [String.prototype.trim] and [toLowerCase]. *)
Variable trim : string -> string.
Variable toLowerCase : string -> string.

Definition name_includes (q : string) (r : PriorityStudentRow) : bool :=
  match row_display_name r with
  | Some name => contains q (toLowerCase name)
  | None => false
  end.

(** [priorityRows] of the overview; [rows] is [priority?.rows]. *)
Definition priorityRows (rows : option (list PriorityStudentRow))
  (searchStudent : string) (kpiFilter : option KpiFilter)
  : list PriorityStudentRow :=
  match rows with
  | None => []
  | Some rows =>
      let list := rows in
      let list :=
        if Js.truthy (Some (trim searchStudent))
        then filter (name_includes (toLowerCase (trim searchStudent))) list
        else list in
      match kpiFilter with
      | Some f => filter (kpi_predicate f) list
      | None => list
      end
  end.

End PriorityRows.

Definition reason_of_filter (f : KpiFilter) : string :=
  match f with
  | overdue => "Overdue assessment (>90d)"
  | declining => "Declining growth trend"
  | no_intervention => "No active intervention"
  end.


(** [ids.includes(id)]. *)
Definition includes (ids : list string) (id : string) : bool :=
  existsb (String.eqb id) ids.

(** An empty selection stands for every enrollment. *)
Definition isEnrollmentSelected (selectedEnrollmentIds : list string)
  (eid : string) : bool :=
  (List.length selectedEnrollmentIds =? 0)%nat
  || includes selectedEnrollmentIds eid.

(** The state update of [toggleEnrollment]: [allIds] are the ids of the
    student's enrollments, [prev] the selection before. *)
Definition toggleEnrollment (allIds prev : list string) (eid : string)
  : list string :=
  let current := if (List.length prev =? 0)%nat then allIds else prev in
  let next :=
    if includes current eid
    then filter (fun id => negb (String.eqb id eid)) current
    else (current ++ [eid])%list in
  if (List.length next =? 0)%nat then prev
  else if (List.length next =? List.length allIds)%nat
          && forallb (fun id => includes next id) allIds
       then []
       else next.


(** [Array.prototype.sort] with a comparator ([Lt] for a negative result,
    [Gt] for a positive one); the sort is stable. *)
Definition array_sort {A} (compareFn : A -> A -> comparison) (items : list A)
  : list A :=
  Sql.order_by compareFn items.

(** [Enrollment] of api/client.ts, the two fields the filter reads. *)
Record Enrollment := mk_Enrollment {
  en_enrollment_id : string;
  en_school_year : string
}.

Section LatestYear.

(** The order of [>] on strings. *)
Variable string_compare : string -> string -> comparison.

Definition later (a b : string) : bool :=
  match string_compare a b with
  | Gt => true
  | _ => false
  end.

Definition latestYear (studentEnrollments : list Enrollment) : string :=
  fold_left (fun max e => if later (en_school_year e) max
                          then en_school_year e else max)
            studentEnrollments "".

(** The selection after [deselectToLatestYear]; with no enrollment the
    function returns early and the selection stays. *)
Definition deselectToLatestYear (studentEnrollments : list Enrollment)
  (selectedEnrollmentIds : list string) : list string :=
  if (List.length studentEnrollments =? 0)%nat then selectedEnrollmentIds
  else map en_enrollment_id
           (filter (fun e => String.eqb (en_school_year e)
                                        (latestYear studentEnrollments))
                   studentEnrollments).

End LatestYear.


(** [Assessment] of api/client.ts with the two fields the page adds: the
    fields the header is derived from.  A score is a number of JSON, so it
    is never NaN. *)
Record Assessment := mk_Assessment {
  as_score_normalized : option Q;
  as_effective_date : option string;
  as_assessment_date : option string
}.

(** The [header] of the API response; the page reads every field as
    nullable. *)
Record api_header := mk_api_header {
  h_latest_score : option Q;
  h_tier : option string;
  h_trend : option string;
  h_last_assessed_date : option string;
  h_days_since_assessment : option Z;
  h_has_active_intervention : option bool;
  h_goal_status : option string
}.

Record display_header := mk_display_header {
  d_latest_score : option Q;
  d_tier : option string;
  d_trend : option string;
  d_last_assessed_date : option string;
  d_days_since_assessment : option Z;
  d_has_active_intervention : bool;
  d_goal_status : string
}.

Definition hasScore (a : Assessment) : bool :=
  match as_score_normalized a with
  | Some _ => true
  | None => false
  end.

(** [a.effective_date ?? a.assessment_date ?? '']. *)
Definition date_text (a : Assessment) : string :=
  Js.nullish (coalesce2 (as_effective_date a) (as_assessment_date a)) "".

Section DisplayHeader.

Variable toLowerCase : string -> string.
Variable localeCompare : string -> string -> comparison.

(** The comparator of the sort: [db.localeCompare(da)]. *)
Definition by_date_descending (a b : Assessment) : comparison :=
  localeCompare (date_text b) (date_text a).

Definition lastWithScore (assessments : list Assessment) : option Assessment :=
  let scored := filter hasScore assessments in
  if (0 <? List.length scored)%nat
  then nth_error (array_sort by_date_descending scored) (List.length scored - 1)
  else None.

(** [interventions.some(...)], on the status of each intervention. *)
Definition derivedIntervention (interventions : list (option string)) : bool :=
  existsb (fun status => contains "active" (toLowerCase (Js.nullish status "")))
          interventions.

Definition derivedGoalStatus {G} (goals : list G) : string :=
  if (0 <? List.length goals)%nat then "Has goals" else "No goals".

(** [displayHeader] of the student page.  [h] is the header of the API
    response or of the page state, [scoresHistory] the scores of the legacy
    history; [None] is [null]. *)
Definition displayHeader {G} (isLegacyMode : bool) (scoresHistory : list Q)
  (interventions : list (option string)) (goals : list G)
  (h : option api_header) (assessments : list Assessment)
  : option display_header :=
  if isLegacyMode && (0 <? List.length scoresHistory)%nat
  then Some {| d_latest_score :=
                 nth_error scoresHistory (List.length scoresHistory - 1);
               d_tier := None;
               d_trend := None;
               d_last_assessed_date := None;
               d_days_since_assessment := None;
               d_has_active_intervention := derivedIntervention interventions;
               d_goal_status := derivedGoalStatus goals |}
  else
    let derivedLatestScore := bind (lastWithScore assessments) as_score_normalized in
    let derivedLastDate :=
      bind (lastWithScore assessments)
           (fun a => coalesce2 (as_effective_date a) (as_assessment_date a)) in
    match h with
    | None =>
        if (List.length assessments =? 0)%nat then None
        else Some {| d_latest_score := derivedLatestScore;
                     d_tier := None;
                     d_trend := None;
                     d_last_assessed_date := derivedLastDate;
                     d_days_since_assessment := None;
                     d_has_active_intervention := derivedIntervention interventions;
                     d_goal_status := derivedGoalStatus goals |}
    | Some h =>
        Some {| d_latest_score := coalesce2 (h_latest_score h) derivedLatestScore;
                d_tier := h_tier h;
                d_trend := h_trend h;
                d_last_assessed_date :=
                  coalesce2 (h_last_assessed_date h) derivedLastDate;
                d_days_since_assessment := h_days_since_assessment h;
                d_has_active_intervention :=
                  Js.nullish (h_has_active_intervention h)
                             (derivedIntervention interventions);
                d_goal_status :=
                  Js.nullish (h_goal_status h) (derivedGoalStatus goals) |}
    end.

End DisplayHeader.


Definition GRADE_ORDER : list string :=
  ["Kindergarten"; "First"; "Second"; "Third"; "Fourth"].

(** [GRADE_ORDER.map((g, i) => [g, i])]. *)
Fixpoint indexed (i : Z) (l : list string) : list (string * Z) :=
  match l with
  | [] => []
  | g :: rest => (g, i) :: indexed (i + 1) rest
  end.

(** [order.get(g) ?? 99]. *)
Definition grade_index (grade_level : string) : Z :=
  Js.nullish (Js.own (indexed 0 GRADE_ORDER) grade_level) 99.

Section SortByGrade.
Context {T : Type} (grade_level : T -> string).

Definition by_grade (a b : T) : comparison :=
  Z.compare (grade_index (grade_level a)) (grade_index (grade_level b)).

Definition sortByGrade (rows : list T) : list T :=
  array_sort by_grade rows.

End SortByGrade.

(* ------------------------------------------------------------------------- *)
(** ** Facts about the SQL kernel *)
(* ------------------------------------------------------------------------- *)

Lemma holds_true (p : Sql.tv) : Sql.holds p = true <-> p = Some true.
Proof. destruct p as [[|]|]; simpl; split; congruence. Qed.

Lemma and3_holds (p q : Sql.tv) :
  Sql.holds (Sql.and3 p q) = Sql.holds p && Sql.holds q.
Proof. destruct p as [[|]|], q as [[|]|]; reflexivity. Qed.

Lemma or3_holds (p q : Sql.tv) :
  Sql.holds (Sql.or3 p q) = Sql.holds p || Sql.holds q.
Proof. destruct p as [[|]|], q as [[|]|]; reflexivity. Qed.

Lemma cmp3_holds {A B} (f : A -> B -> bool) (a : A) (b : B) :
  Sql.holds (Sql.cmp3 f (Some a) (Some b)) = f a b.
Proof. simpl. now destruct (f a b). Qed.

Lemma cmp3_null_l {A B} (f : A -> B -> bool) (y : option B) :
  Sql.holds (Sql.cmp3 f None y) = false.
Proof. reflexivity. Qed.

Lemma cmp3_null_r {A B} (f : A -> B -> bool) (x : option A) :
  Sql.holds (Sql.cmp3 f x None) = false.
Proof. destruct x; reflexivity. Qed.

Section OrderByFacts.
Context {A : Type} (cmp : A -> A -> comparison).

Lemma insert_row_perm (x : A) (l : list A) :
  Permutation (Sql.insert_row cmp x l) (x :: l).
Proof.
  induction l as [|y l IH]; simpl.
  - apply Permutation_refl.
  - destruct (cmp x y); try apply Permutation_refl.
    eapply perm_trans; [apply perm_skip, IH | apply perm_swap].
Qed.

Lemma order_by_perm (l : list A) : Permutation (Sql.order_by cmp l) l.
Proof.
  induction l as [|x l IH]; simpl.
  - constructor.
  - eapply perm_trans; [apply insert_row_perm | now apply perm_skip].
Qed.

Lemma order_by_In (l : list A) (x : A) : In x (Sql.order_by cmp l) <-> In x l.
Proof.
  split; apply Permutation_in;
    [apply order_by_perm | apply Permutation_sym, order_by_perm].
Qed.

Lemma order_by_length (l : list A) :
  List.length (Sql.order_by cmp l) = List.length l.
Proof. apply Permutation_length, order_by_perm. Qed.

Hypothesis cmp_antisym : forall x y, cmp x y = CompOpp (cmp y x).
Hypothesis cmp_trans :
  forall x y z, not_after cmp x y -> not_after cmp y z -> not_after cmp x z.

Lemma not_after_total (x y : A) : cmp x y = Gt -> not_after cmp y x.
Proof.
  unfold not_after. intros Hxy Hyx.
  rewrite cmp_antisym, Hyx in Hxy. discriminate.
Qed.

Lemma insert_row_sorted (x : A) (l : list A) :
  StronglySorted (not_after cmp) l ->
  StronglySorted (not_after cmp) (Sql.insert_row cmp x l).
Proof.
  induction 1 as [|y l Hs IH Hall]; simpl.
  - repeat constructor.
  - destruct (cmp x y) eqn:E.
    + constructor; [now constructor|].
      assert (Hxy : not_after cmp x y) by (unfold not_after; congruence).
      constructor; [exact Hxy|].
      eapply Forall_impl; [|exact Hall]. intros z Hz. now apply cmp_trans with y.
    + constructor; [now constructor|].
      assert (Hxy : not_after cmp x y) by (unfold not_after; congruence).
      constructor; [exact Hxy|].
      eapply Forall_impl; [|exact Hall]. intros z Hz. now apply cmp_trans with y.
    + constructor; [exact IH|].
      rewrite Forall_forall. intros z Hz.
      apply (Permutation_in _ (insert_row_perm x l)) in Hz.
      destruct Hz as [<-|Hz].
      * now apply not_after_total.
      * rewrite Forall_forall in Hall. now apply Hall.
Qed.

Lemma order_by_sorted (l : list A) :
  StronglySorted (not_after cmp) (Sql.order_by cmp l).
Proof.
  induction l as [|x l IH]; simpl.
  - constructor.
  - now apply insert_row_sorted.
Qed.

Lemma cmp_refl (x : A) : not_after cmp x x.
Proof.
  unfold not_after. intros H. pose proof (cmp_antisym x x) as E.
  rewrite H in E. discriminate.
Qed.

(** The first row of the sorted list precedes or ties every row. *)
Lemma order_by_first (l : list A) (h : A) (t : list A) :
  Sql.order_by cmp l = h :: t -> forall y, In y l -> not_after cmp h y.
Proof.
  intros E y Hy. apply order_by_In in Hy. rewrite E in Hy.
  pose proof (order_by_sorted l) as Hs. rewrite E in Hs.
  inversion Hs as [|? ? _ Hall]; subst.
  destruct Hy as [<-|Hy].
  - apply cmp_refl.
  - rewrite Forall_forall in Hall. now apply Hall.
Qed.
End OrderByFacts.

Lemma recency_antisym (a b : assessment) : recency a b = CompOpp (recency b a).
Proof.
  unfold recency, Sql.then_by, Sql.desc_nulls_last, Sql.desc_nulls_first.
  destruct (a_effective_date a) as [da|], (a_effective_date b) as [db|],
           (a_created_at a) as [ca|], (a_created_at b) as [cb|];
    simpl; try reflexivity;
    try rewrite (Z.compare_antisym da db);
    try rewrite (Z.compare_antisym ca cb);
    repeat match goal with |- context [(?x ?= ?y)] => destruct (x ?= y) end;
    reflexivity.
Qed.

Lemma recency_trans (a b c : assessment) :
  at_least_as_recent a b -> at_least_as_recent b c -> at_least_as_recent a c.
Proof.
  unfold at_least_as_recent, not_after, recency, Sql.then_by,
    Sql.desc_nulls_last, Sql.desc_nulls_first.
  destruct (a_effective_date a) as [da|], (a_effective_date b) as [db|],
           (a_effective_date c) as [dc|],
           (a_created_at a) as [ca|], (a_created_at b) as [cb|],
           (a_created_at c) as [cc|];
    repeat match goal with
           | |- context [(?x ?= ?y)] => destruct (Z.compare_spec x y)
           end;
    intros; try congruence; try discriminate; try lia.
Qed.

Lemma filter_all {A} (f : A -> bool) (l : list A) :
  (forall x, In x l -> f x = true) -> filter f l = l.
Proof.
  induction l as [|x l IH]; simpl; intros H; [reflexivity|].
  rewrite (H x (or_introl eq_refl)). f_equal. apply IH. intros; apply H; now right.
Qed.

Lemma filter_none {A} (f : A -> bool) (l : list A) :
  (forall x, In x l -> f x = false) -> filter f l = [].
Proof.
  induction l as [|x l IH]; simpl; intros H; [reflexivity|].
  rewrite (H x (or_introl eq_refl)). apply IH. intros; apply H; now right.
Qed.


Lemma not_distinct_N (x y : option N) :
  Sql.not_distinct N.eqb x y = true <-> x = y.
Proof.
  destruct x, y; simpl; try (split; congruence).
  rewrite N.eqb_eq. split; congruence.
Qed.

Lemma not_distinct_text (x y : option text) :
  Sql.not_distinct String.eqb x y = true <-> x = y.
Proof.
  destruct x, y; simpl; try (split; congruence).
  rewrite String.eqb_eq. split; congruence.
Qed.

Lemma same_enrollment_subject_eq k1 k2 :
  same_enrollment_subject k1 k2 = true <-> k1 = k2.
Proof.
  destruct k1 as [e1 s1], k2 as [e2 s2]. unfold same_enrollment_subject. simpl.
  rewrite andb_true_iff, not_distinct_N, not_distinct_text. split.
  - intros [-> ->]. reflexivity.
  - intros E. inversion E. auto.
Qed.

Lemma same_kpi_key_eq k1 k2 : same_kpi_key k1 k2 = true <-> k1 = k2.
Proof.
  destruct k1 as [[t1 y1] s1], k2 as [[t2 y2] s2]. unfold same_kpi_key. simpl.
  rewrite !andb_true_iff, !not_distinct_text. split.
  - intros [[-> ->] ->]. reflexivity.
  - intros E. inversion E. auto.
Qed.

Lemma same_growth_key_eq k1 k2 : same_growth_key k1 k2 = true <-> k1 = k2.
Proof.
  destruct k1 as [[e1 s1] y1], k2 as [[e2 s2] y2]. unfold same_growth_key. simpl.
  rewrite !andb_true_iff, not_distinct_N, not_distinct_text, String.eqb_eq. split.
  - intros [[-> ->] ->]. reflexivity.
  - intros E. inversion E. auto.
Qed.

Section GroupFacts.
Context {K : Type} (same : K -> K -> bool).
Hypothesis same_eq : forall a b, same a b = true <-> a = b.

Lemma distinct_In (ks : list K) (k : K) : In k (Sql.distinct same ks) <-> In k ks.
Proof.
  induction ks as [|k0 ks IH]; simpl; [tauto|].
  rewrite filter_In, IH, negb_true_iff. split.
  - intros [E|[H _]]; auto.
  - intros [E|H]; [now left|].
    destruct (same k0 k) eqn:S.
    + left. now apply same_eq.
    + right. split; [exact H|reflexivity].
Qed.

Lemma distinct_NoDup (ks : list K) : NoDup (Sql.distinct same ks).
Proof.
  induction ks as [|k0 ks IH]; simpl; constructor.
  - rewrite filter_In. intros [_ H].
    rewrite (proj2 (same_eq k0 k0) eq_refl) in H. discriminate.
  - now apply NoDup_filter.
Qed.

Context {A : Type} (key : A -> K).

Lemma group_In (k : K) (rows : list A) (r : A) :
  In r (Sql.group same key k rows) <-> In r rows /\ key r = k.
Proof.
  unfold Sql.group. rewrite filter_In, same_eq. intuition congruence.
Qed.


(** DISTINCT ON returns rows of its input. *)
Lemma distinct_on_In (cmp : A -> A -> comparison) (rows : list A) (r : A) :
  In r (Sql.distinct_on same key cmp rows) ->
  In r rows /\
  exists rest, Sql.order_by cmp (Sql.group same key (key r) rows) = r :: rest.
Proof.
  unfold Sql.distinct_on. intros H.
  apply in_flat_map in H. destruct H as [k [_ H]].
  destruct (Sql.order_by cmp (Sql.group same key k rows)) as [|h t] eqn:E;
    simpl in H; [contradiction|].
  destruct H as [<-|[]].
  assert (Hh : In h (Sql.group same key k rows)).
  { apply (order_by_In cmp). rewrite E. now left. }
  apply group_In in Hh. destruct Hh as [Hh Hk]. split; [exact Hh|].
  exists t. now rewrite Hk.
Qed.

(** DISTINCT ON returns one row for each distinct key of its input. *)
Lemma distinct_on_keys (cmp : A -> A -> comparison) (rows : list A) :
  map key (Sql.distinct_on same key cmp rows) = Sql.distinct same (map key rows).
Proof.
  unfold Sql.distinct_on.
  assert (H : forall ks, (forall k, In k ks -> In k (map key rows)) ->
    map key (flat_map (fun k => firstn 1 (Sql.order_by cmp (Sql.group same key k rows))) ks)
    = ks).
  { induction ks as [|k ks IH]; intros Hks; [reflexivity|].
    cbn [flat_map]. rewrite map_app.
    rewrite IH by (intros; apply Hks; now right).
    destruct (Sql.order_by cmp (Sql.group same key k rows)) as [|h t] eqn:E.
    - exfalso. specialize (Hks k (or_introl eq_refl)).
      apply in_map_iff in Hks. destruct Hks as [r [Hr Hin]].
      assert (Hg : In r (Sql.group same key k rows)) by now apply group_In.
      apply (order_by_In cmp) in Hg. rewrite E in Hg. destruct Hg.
    - simpl. f_equal.
      assert (Hh : In h (Sql.group same key k rows)).
      { apply (order_by_In cmp). rewrite E. now left. }
      apply group_In in Hh. tauto. }
  apply H. intros k Hk. apply distinct_In. exact Hk.
Qed.
End GroupFacts.

(* ------------------------------------------------------------------------- *)
(** ** The [latest] CTE *)
(* ------------------------------------------------------------------------- *)

(** [latest] returns one row for each (enrollment, subject) pair that has an
    assessment. *)
Lemma latest_one_row_per_pair (assessments : list assessment) :
  map enrollment_subject (latest_assessments assessments)
  = Sql.distinct same_enrollment_subject
      (map enrollment_subject
         (filter (fun a => Sql.holds (Sql.is_not_null (a_enrollment_id a))) assessments)).
Proof.
  unfold latest_assessments.
  apply (distinct_on_keys _ same_enrollment_subject_eq).
Qed.

(** The row [latest] returns for a pair is at least as recent as every row of
    the pair, scored or not. *)
Lemma latest_is_newest_row (assessments : list assessment) (a : assessment) :
  In a (latest_assessments assessments) ->
  In a assessments /\
  a_enrollment_id a <> None /\
  forall b, In b assessments -> a_enrollment_id b <> None ->
            enrollment_subject b = enrollment_subject a ->
            at_least_as_recent a b.
Proof.
  unfold latest_assessments. intros H.
  apply (distinct_on_In _ same_enrollment_subject_eq) in H.
  destruct H as [Hin [rest E]].
  apply filter_In in Hin. destruct Hin as [Hin Hnn].
  split; [exact Hin|]. split.
  - destruct (a_enrollment_id a); [discriminate|discriminate Hnn].
  - intros b Hb Hbn Hk.
    apply (order_by_first recency recency_antisym recency_trans _ _ _ E).
    apply (group_In _ same_enrollment_subject_eq). split; [|exact Hk].
    apply filter_In. split; [exact Hb|].
    destruct (a_enrollment_id b); [reflexivity|contradiction].
Qed.


(** C1 (the code departs from the claim).  For the pair (enrollment 1, Math)
    with a scored Fall row and a more recent unscored Winter row, the [latest]
    CTE returns its one row from the unscored Winter row, so the current score
    is NULL, although the most recent row among those with a normalized score
    is the Fall row with score 50.  The CTE has no filter on
    [score_normalized]; the [ranked] CTE of [v_growth_last_two] has it. *)
Theorem latest_keeps_newest_row_even_unscored :
  latest [fall_scored; winter_unscored]
  = [ {| l_enrollment_id := Some 1%N;
         l_subject_area := Some "Math";
         l_latest_score := None;
         l_latest_date := Some 20080;
         l_latest_period := "Winter";
         l_school_year := "2024-25";
         l_latest_type := "Benchmark" |} ]
  /\ latest_scored_spec [fall_scored; winter_unscored] = Some fall_scored
  /\ a_score_normalized fall_scored = Some (50 # 1)%Q
  /\ map g_latest_score (v_growth_last_two [fall_scored; winter_unscored])
     = [Some (50 # 1)%Q].
Proof. repeat split; reflexivity. Qed.

(* ------------------------------------------------------------------------- *)
(** ** Tiering *)
(* ------------------------------------------------------------------------- *)

Lemma Qltb_lt (x y : Q) : Qltb x y = true <-> (x < y)%Q.
Proof.
  unfold Qltb. rewrite negb_true_iff. split.
  - intros H. apply Qnot_le_lt. intros Hle.
    apply Qle_bool_iff in Hle. congruence.
  - intros H. destruct (Qle_bool y x) eqn:E; [|reflexivity].
    apply Qle_bool_iff in E. exfalso. now apply (Qlt_not_le x y).
Qed.

Lemma Qltb_ge (x y : Q) : Qltb x y = false <-> (y <= x)%Q.
Proof.
  unfold Qltb. rewrite negb_false_iff. apply Qle_bool_iff.
Qed.

(** The condition of the second and third CASE branches: the threshold is
    present and the score is below it. *)
Lemma below_threshold (s : Q) (threshold : option Q) :
  Sql.holds (Sql.and3 (Sql.is_not_null threshold)
                      (Sql.cmp3 Qltb (Some s) threshold)) = true
  <-> exists t, threshold = Some t /\ (s < t)%Q.
Proof.
  destruct threshold as [t|]; simpl.
  - destruct (Qltb s t) eqn:E; simpl.
    + apply Qltb_lt in E. split; [intros _; now exists t|reflexivity].
    + apply Qltb_ge in E. split; [discriminate|].
      intros [t' [Ht Hlt]]. inversion Ht; subst.
      exfalso. now apply (Qlt_not_le s t').
  - split; [discriminate|]. intros [t [Ht _]]. discriminate.
Qed.

(** C2.  The tiering CASE expressions evaluate the four rules in order, first
    match winning: a null score gives Unknown/Unknown; otherwise a present
    support threshold above the score gives Needs Support/Intensive;
    otherwise a present benchmark threshold above the score gives
    Monitor/Strategic; otherwise On Track/Core.  A null threshold never fires
    its rule: in particular support threshold present, benchmark threshold
    absent and score at or above the support threshold gives On Track/Core. *)
Theorem tiering_rules (score support_threshold benchmark_threshold : option Q) :
  (score = None ->
     support_status_case score support_threshold benchmark_threshold = Status_Unknown
     /\ tier_case score support_threshold benchmark_threshold = Tier_Unknown)
  /\ (forall s t, score = Some s -> support_threshold = Some t -> (s < t)%Q ->
     support_status_case score support_threshold benchmark_threshold = Needs_Support
     /\ tier_case score support_threshold benchmark_threshold = Intensive)
  /\ (forall s b, score = Some s ->
     ~ (exists t, support_threshold = Some t /\ (s < t)%Q) ->
     benchmark_threshold = Some b -> (s < b)%Q ->
     support_status_case score support_threshold benchmark_threshold = Monitor
     /\ tier_case score support_threshold benchmark_threshold = Strategic)
  /\ (forall s, score = Some s ->
     ~ (exists t, support_threshold = Some t /\ (s < t)%Q) ->
     ~ (exists b, benchmark_threshold = Some b /\ (s < b)%Q) ->
     support_status_case score support_threshold benchmark_threshold = On_Track
     /\ tier_case score support_threshold benchmark_threshold = Core)
  /\ (forall s t, score = Some s -> support_threshold = Some t ->
     benchmark_threshold = None -> (t <= s)%Q ->
     support_status_case score support_threshold benchmark_threshold = On_Track
     /\ tier_case score support_threshold benchmark_threshold = Core).
Proof.
  assert (Hrule : forall s,
    score = Some s ->
    (support_status_case score support_threshold benchmark_threshold,
     tier_case score support_threshold benchmark_threshold)
    = if Sql.holds (Sql.and3 (Sql.is_not_null support_threshold)
                             (Sql.cmp3 Qltb (Some s) support_threshold))
      then (Needs_Support, Intensive)
      else if Sql.holds (Sql.and3 (Sql.is_not_null benchmark_threshold)
                                  (Sql.cmp3 Qltb (Some s) benchmark_threshold))
           then (Monitor, Strategic)
           else (On_Track, Core)).
  { intros s ->. unfold support_status_case, tier_case.
    destruct support_threshold as [t|], benchmark_threshold as [b|]; simpl;
      repeat match goal with
             | |- context [Qltb ?x ?y] => destruct (Qltb x y)
             end; reflexivity. }
  assert (Hno : forall s threshold,
    ~ (exists t, threshold = Some t /\ (s < t)%Q) ->
    Sql.holds (Sql.and3 (Sql.is_not_null threshold)
                        (Sql.cmp3 Qltb (Some s) threshold)) = false).
  { intros s threshold H. apply not_true_is_false. intros E.
    apply H. now apply below_threshold. }
  assert (Hyes : forall s threshold t, threshold = Some t -> (s < t)%Q ->
    Sql.holds (Sql.and3 (Sql.is_not_null threshold)
                        (Sql.cmp3 Qltb (Some s) threshold)) = true).
  { intros s threshold t Ht Hlt. apply below_threshold. now exists t. }
  split; [intros ->; split; reflexivity|].
  split; [|split; [|split]].
  - intros s t Hs Ht Hlt. specialize (Hrule s Hs).
    rewrite (Hyes s _ t Ht Hlt) in Hrule. now inversion Hrule.
  - intros s b Hs Hns Hb Hlt. specialize (Hrule s Hs).
    rewrite (Hno s _ Hns), (Hyes s _ b Hb Hlt) in Hrule. now inversion Hrule.
  - intros s Hs Hns Hnb. specialize (Hrule s Hs).
    rewrite (Hno s _ Hns), (Hno s _ Hnb) in Hrule. now inversion Hrule.
  - intros s t Hs Ht Hb Hle. specialize (Hrule s Hs).
    rewrite (Hno s support_threshold), (Hno s benchmark_threshold) in Hrule.
    + now inversion Hrule.
    + intros [b [Hb' _]]. congruence.
    + intros [t' [Ht' Hlt]]. rewrite Ht in Ht'. inversion Ht'; subst.
      now apply (Qlt_not_le s t').
Qed.

Lemma tiering_rules_witness :
  support_status_case (Some (65 # 1)%Q) (Some (60 # 1)%Q) None = On_Track
  /\ tier_case (Some (65 # 1)%Q) (Some (60 # 1)%Q) None = Core.
Proof.
  apply (proj2 (proj2 (proj2 (proj2
           (tiering_rules (Some (65 # 1)%Q) (Some (60 # 1)%Q) None))))
           (65 # 1)%Q (60 # 1)%Q);
    [reflexivity | reflexivity | reflexivity | vm_compute; discriminate].
Defined.

(** C8.  For a fixed pair of thresholds, present or absent, and two non-null
    scores s1 <= s2, the tier of s1 is at most the tier of s2 on the scale
    Intensive < Strategic < Core (and neither is Unknown). *)
Theorem tiering_monotonic (support_threshold benchmark_threshold : option Q)
  (s1 s2 : Q) :
  (s1 <= s2)%Q ->
  tier_case (Some s1) support_threshold benchmark_threshold <> Tier_Unknown
  /\ tier_case (Some s2) support_threshold benchmark_threshold <> Tier_Unknown
  /\ tier_rank (tier_case (Some s1) support_threshold benchmark_threshold)
     <= tier_rank (tier_case (Some s2) support_threshold benchmark_threshold).
Proof.
  intros Hle. unfold tier_case.
  destruct support_threshold as [t|], benchmark_threshold as [b|]; simpl;
    repeat match goal with
           | |- context [Qltb ?x ?y] =>
               let E := fresh "E" in
               destruct (Qltb x y) eqn:E;
               [apply Qltb_lt in E | apply Qltb_ge in E]
           end;
    simpl; repeat split; try discriminate; try lia; exfalso; lra.
Qed.

Lemma tiering_monotonic_witness :
  tier_case (Some (55 # 1)%Q) (Some (60 # 1)%Q) (Some (75 # 1)%Q) <> Tier_Unknown
  /\ tier_case (Some (70 # 1)%Q) (Some (60 # 1)%Q) (Some (75 # 1)%Q) <> Tier_Unknown
  /\ tier_rank (tier_case (Some (55 # 1)%Q) (Some (60 # 1)%Q) (Some (75 # 1)%Q))
     <= tier_rank (tier_case (Some (70 # 1)%Q) (Some (60 # 1)%Q) (Some (75 # 1)%Q)).
Proof.
  apply (tiering_monotonic (Some (60 # 1)%Q) (Some (75 # 1)%Q) (55 # 1)%Q (70 # 1)%Q).
  vm_compute. discriminate.
Defined.

(* ------------------------------------------------------------------------- *)
(** ** Priority score and reasons *)
(* ------------------------------------------------------------------------- *)

Ltac priority_cases t tr days has :=
  destruct t; destruct tr as [[]|]; destruct has;
  destruct days as [d|];
  unfold priority_score_of, reasons_of, reason_args, fired_reasons,
    days_over, more_than, Sql.cmp3;
  rewrite ?Z.gtb_ltb;
  try (destruct (Z.ltb_spec 90 d); destruct (Z.ltb_spec 60 d); try lia).



(* ------------------------------------------------------------------------- *)
(** ** Rows of the joined views *)
(* ------------------------------------------------------------------------- *)

Lemma left_join_In {A B} (on : A -> B -> Sql.tv) (a : A) (right : list B)
  (x : option B) :
  In x (Sql.left_join on a right) <->
  (x = None /\ forall b, In b right -> Sql.holds (on a b) = false)
  \/ (exists b, x = Some b /\ In b right /\ Sql.holds (on a b) = true).
Proof.
  unfold Sql.left_join.
  destruct (filter (fun b => Sql.holds (on a b)) right) as [|m ms] eqn:E.
  - assert (Hnone : forall b, In b right -> Sql.holds (on a b) = false).
    { intros b Hb. apply not_true_is_false. intros Hon.
      assert (Hin : In b (filter (fun b => Sql.holds (on a b)) right))
        by (apply filter_In; auto).
      rewrite E in Hin. destruct Hin. }
    simpl. split.
    + intros [<-|[]]. left. split; [reflexivity|exact Hnone].
    + intros [[-> _]|[b [_ [Hb Hon]]]]; [now left|].
      rewrite (Hnone b Hb) in Hon. discriminate.
  - rewrite <- E, in_map_iff. split.
    + intros [b [<- Hb]]. apply filter_In in Hb. right. exists b. tauto.
    + intros [[-> Hnone]|[b [-> [Hb Hon]]]].
      * exfalso. assert (Hm : In m (filter (fun b => Sql.holds (on a b)) right))
          by (rewrite E; now left).
        apply filter_In in Hm. destruct Hm as [Hm Hon].
        rewrite (Hnone m Hm) in Hon. discriminate.
      * exists b. split; [reflexivity|]. apply filter_In. auto.
Qed.

Lemma left_join_nonempty {A B} (on : A -> B -> Sql.tv) (a : A) (right : list B) :
  exists x, In x (Sql.left_join on a right).
Proof.
  unfold Sql.left_join.
  destruct (filter (fun b => Sql.holds (on a b)) right) as [|m ms].
  - exists None. now left.
  - exists (Some m). now left.
Qed.

Lemma left_join_no_match {A B} (on : A -> B -> Sql.tv) (a : A) (right : list B) :
  (forall b, In b right -> Sql.holds (on a b) = false) ->
  Sql.left_join on a right = [None].
Proof.
  intros H. unfold Sql.left_join. now rewrite filter_none.
Qed.

(** Every roster row is the projection of one enrollment, its student, one
    (possibly NULL-extended) [latest] row and one (possibly NULL-extended)
    [active_intervention] row. *)
Lemma roster_In (today : date) (enrollments : list enrollment)
  (students : list student) (assessments : list assessment)
  (interventions : list intervention) (r : roster_row) :
  In r (v_teacher_roster today enrollments students assessments interventions) <->
  exists e s l ai,
    In e enrollments
    /\ In s students /\ Sql.holds (student_matches e s) = true
    /\ In l (Sql.left_join latest_matches e (latest assessments))
    /\ In ai (Sql.left_join active_matches e (active_intervention interventions))
    /\ r = roster_select today e s l ai.
Proof.
  unfold v_teacher_roster. rewrite in_flat_map. split.
  - intros [e [He H]]. apply in_flat_map in H. destruct H as [s [Hs H]].
    apply filter_In in Hs. destruct Hs as [Hs Hm].
    apply in_flat_map in H. destruct H as [l [Hl H]].
    apply in_map_iff in H. destruct H as [ai [<- Hai]].
    exists e, s, l, ai. tauto.
  - intros [e [s [l [ai [He [Hs [Hm [Hl [Hai ->]]]]]]]]].
    exists e. split; [exact He|].
    apply in_flat_map. exists s. split; [apply filter_In; auto|].
    apply in_flat_map. exists l. split; [exact Hl|].
    apply in_map_iff. exists ai. auto.
Qed.

Lemma in_list_text_holds (x : option text) (vs : list text) :
  Sql.holds (Sql.in_list String.eqb x vs) = true <->
  exists a, x = Some a /\ In a vs.
Proof.
  destruct x as [a|]; simpl.
  - destruct (existsb (String.eqb a) vs) eqn:E.
    + apply existsb_exists in E. destruct E as [w [Hw E]].
      apply String.eqb_eq in E. subst w.
      split; [intros _; now exists a|reflexivity].
    + split; [discriminate|]. intros [a' [Ha Hin]]. inversion Ha; subst a'.
      assert (E' : existsb (String.eqb a) vs = true).
      { apply existsb_exists. exists a. split; [exact Hin|apply String.eqb_refl]. }
      congruence.
  - split; [discriminate|]. intros [a [Ha _]]. discriminate.
Qed.

Lemma is_active_intervention_holds (i : intervention) :
  Sql.holds (is_active_intervention i) = true <->
  i_enrollment_id i <> None /\ status_counts_as_active (i_status i).
Proof.
  unfold is_active_intervention, status_counts_as_active.
  rewrite and3_holds, or3_holds, andb_true_iff, orb_true_iff, in_list_text_holds.
  destruct (i_enrollment_id i) as [eid|], (i_status i) as [s|];
    cbn [Sql.holds Sql.is_not_null Sql.is_null option_map].
  - split.
    + intros [_ [H|[a [Ha Hin]]]]; [discriminate|]. split; [discriminate|].
      inversion Ha; subst a. exact Hin.
    + intros [_ H]. split; [reflexivity|]. right. eexists. split; [reflexivity|exact H].
  - split; [intros _; split; [discriminate|exact I]|auto].
  - split; [intros [H _]; discriminate|intros [H _]; now contradiction H].
  - split; [intros [H _]; discriminate|intros [H _]; now contradiction H].
Qed.

(** The enrollments listed by [active_intervention]. *)
Lemma active_intervention_In (interventions : list intervention)
  (ai : active_intervention_row) :
  In ai (active_intervention interventions) <->
  ai_has_active_intervention ai = true
  /\ exists i, In i interventions
               /\ i_enrollment_id i = ai_enrollment_id ai
               /\ ai_enrollment_id ai <> None
               /\ status_counts_as_active (i_status i).
Proof.
  unfold active_intervention. rewrite in_map_iff. split.
  - intros [k [<- Hk]]. simpl. split; [reflexivity|].
    apply (proj1 (distinct_In _ not_distinct_N _ _)) in Hk.
    apply in_map_iff in Hk. destruct Hk as [i [<- Hi]].
    apply filter_In in Hi. destruct Hi as [Hi Hact].
    apply is_active_intervention_holds in Hact.
    exists i. tauto.
  - intros [Hflag [i [Hi [Hid [Hnn Hact]]]]].
    exists (ai_enrollment_id ai). split.
    + destruct ai as [k f]. simpl in *. now subst.
    + apply (proj2 (distinct_In _ not_distinct_N _ _)).
      apply in_map_iff. exists i. split; [exact Hid|].
      apply filter_In. split; [exact Hi|].
      apply is_active_intervention_holds. rewrite Hid. tauto.
Qed.

(** The flag of a roster row is decided by the interventions of its
    enrollment alone: [active_intervention] is grouped by [enrollment_id]. *)
Lemma active_flag_per_enrollment (today : date) (enrollments : list enrollment)
  (students : list student) (assessments : list assessment)
  (interventions : list intervention) (r : roster_row) :
  In r (v_teacher_roster today enrollments students assessments interventions) ->
  (r_has_active_intervention r = true <->
   exists i, In i interventions
             /\ i_enrollment_id i = Some (r_enrollment_id r)
             /\ status_counts_as_active (i_status i)).
Proof.
  intros Hr. apply roster_In in Hr.
  destruct Hr as [e [s [l [ai [_ [_ [_ [_ [Hai ->]]]]]]]]]. simpl.
  apply left_join_In in Hai. split.
  - intros Hflag. destruct Hai as [[-> _]|[row [-> [Hrow Hon]]]]; [discriminate|].
    apply active_intervention_In in Hrow.
    destruct Hrow as [_ [i [Hi [Hid [_ Hact]]]]].
    exists i. split; [exact Hi|]. split; [|exact Hact].
    unfold active_matches in Hon. rewrite Hid.
    destruct (ai_enrollment_id row) as [k|]; [|discriminate].
    rewrite cmp3_holds in Hon. apply N.eqb_eq in Hon. now subst.
  - intros [i [Hi [Hid Hact]]].
    set (row := {| ai_enrollment_id := Some (e_enrollment_id e);
                   ai_has_active_intervention := true |}).
    assert (Hrow : In row (active_intervention interventions)).
    { apply active_intervention_In. split; [reflexivity|].
      exists i. simpl. split; [exact Hi|]. split; [exact Hid|].
      split; [discriminate|exact Hact]. }
    destruct Hai as [[_ Hnone]|[row' [-> [Hrow' _]]]].
    + specialize (Hnone row Hrow). unfold active_matches, row in Hnone.
      cbn [ai_enrollment_id] in Hnone.
      rewrite cmp3_holds, N.eqb_refl in Hnone. discriminate.
    + apply active_intervention_In in Hrow'. simpl. tauto.
Qed.

(** An active Reading intervention of enrollment 1 sets the flag of its Math
    row. *)
Lemma active_flag_on_other_subject :
  map (fun r => (r_enrollment_id r, r_subject_area r, r_has_active_intervention r))
      (roster_of (sample_db [winter_scored] [reading_support] []))
  = [ (1%N, Some "Math", true); (2%N, None, false) ].
Proof. reflexivity. Qed.

(** C3 (amended).  The flag of a roster row is true only if some intervention
    of that enrollment has a NULL status or a status that, trimmed of
    surrounding spaces and lower-cased, equals 'active', 'in progress' or
    'ongoing'; and it is true whenever such an intervention exists for that
    enrollment and that subject. *)
Theorem has_active_intervention_rule (today : date) (enrollments : list enrollment)
  (students : list student) (assessments : list assessment)
  (interventions : list intervention) (r : roster_row) :
  In r (v_teacher_roster today enrollments students assessments interventions) ->
  (r_has_active_intervention r = true ->
   exists i, In i interventions
             /\ i_enrollment_id i = Some (r_enrollment_id r)
             /\ status_counts_as_active (i_status i))
  /\ ((exists i, In i interventions
                 /\ i_enrollment_id i = Some (r_enrollment_id r)
                 /\ i_subject_area i = r_subject_area r
                 /\ status_counts_as_active (i_status i)) ->
      r_has_active_intervention r = true).
Proof.
  intros Hr.
  pose proof (active_flag_per_enrollment today enrollments students assessments
                interventions r Hr) as [Honly Hif].
  split; [exact Honly|].
  intros [i [Hi [Hid [_ Hact]]]]. apply Hif. exists i. auto.
Qed.

Lemma has_active_intervention_rule_witness :
  r_has_active_intervention
    (roster_select 20100 enrollment_one student_seven
       (hd_error (latest [winter_scored]))
       (hd_error (active_intervention [math_coaching]))) = true.
Proof.
  refine (proj2 (has_active_intervention_rule 20100 [enrollment_one] [student_seven]
                   [winter_scored] [math_coaching] _ _) _).
  - vm_compute. left. reflexivity.
  - exists math_coaching. split; [left; reflexivity|].
    split; [reflexivity|]. split; [reflexivity|].
    vm_compute. right. left. reflexivity.
Defined.

(** C3 (as stated, refuted).  A Math intervention of enrollment 1 with status
    "Active (Tier 2)" contains the word "active", yet the flag of the Math row
    of enrollment 1 is false. *)
Lemma active_flag_is_not_a_substring_match :
  exists r, In r (roster_of (sample_db [winter_scored] [tutoring_tier2] []))
            /\ r_subject_area r = Some "Math"
            /\ r_has_active_intervention r = false
            /\ intervention_presence_spec [tutoring_tier2]
                 (r_enrollment_id r) (r_subject_area r) = true.
Proof.
  eexists. split; [vm_compute; left; reflexivity|].
  repeat split; reflexivity.
Qed.

(* ------------------------------------------------------------------------- *)
(** ** Missing reference data *)
(* ------------------------------------------------------------------------- *)

Lemma support_In (roster : list roster_row)
  (thresholds : list benchmark_threshold_row) (ss : support_row) :
  In ss (v_support_status roster thresholds) <->
  exists r t, In r roster
              /\ In t (Sql.left_join threshold_matches r thresholds)
              /\ ss = support_select r t.
Proof.
  unfold v_support_status. rewrite in_flat_map. split.
  - intros [r [Hr H]]. apply in_map_iff in H. destruct H as [t [<- Ht]].
    exists r, t. tauto.
  - intros [r [t [Hr [Ht ->]]]]. exists r. split; [exact Hr|].
    apply in_map_iff. exists t. auto.
Qed.

Lemma priority_In (support : list support_row) (growth : list growth_row)
  (p : priority_row) :
  In p (v_priority_students support growth) <->
  exists ss g, In ss support
               /\ In g (Sql.left_join growth_matches ss growth)
               /\ p = priority_select ss g.
Proof.
  unfold v_priority_students. rewrite in_flat_map. split.
  - intros [ss [Hss H]]. apply in_map_iff in H. destruct H as [g [<- Hg]].
    exists ss, g. tauto.
  - intros [ss [g [Hss [Hg ->]]]]. exists ss. split; [exact Hss|].
    apply in_map_iff. exists g. auto.
Qed.

(** C4 (as stated, refuted).  Enrollment 1 has a Math score of 58 and the
    thresholds table is empty: its support row has no thresholds and tier
    Core, not Unknown. *)
Lemma missing_threshold_row_gives_core :
  exists ss, In ss (support_status_of (sample_db [winter_scored] [] []))
             /\ ss_latest_score ss = Some (58 # 1)%Q
             /\ ss_support_threshold ss = None
             /\ ss_benchmark_threshold ss = None
             /\ ss_tier ss = Core
             /\ ss_tier ss <> Tier_Unknown.
Proof.
  eexists. split; [vm_compute; left; reflexivity|].
  repeat split; try reflexivity. discriminate.
Qed.

(** C4 (amended).  A roster row with no matching threshold row yields exactly
    one support row, with both thresholds absent; its tier and status are
    Unknown when the latest score is null and Core / On Track when it is not.
    Whatever the thresholds table holds, every roster row yields a support
    row. *)
Theorem missing_threshold_row_tier (roster : list roster_row)
  (thresholds : list benchmark_threshold_row) (r : roster_row) :
  In r roster ->
  (forall t, In t thresholds -> Sql.holds (threshold_matches r t) = false) ->
  map (support_select r) (Sql.left_join threshold_matches r thresholds)
    = [support_select r None]
  /\ In (support_select r None) (v_support_status roster thresholds)
  /\ ss_support_threshold (support_select r None) = None
  /\ ss_benchmark_threshold (support_select r None) = None
  /\ (r_latest_score r = None ->
      ss_tier (support_select r None) = Tier_Unknown
      /\ ss_support_status (support_select r None) = Status_Unknown)
  /\ (r_latest_score r <> None ->
      ss_tier (support_select r None) = Core
      /\ ss_support_status (support_select r None) = On_Track)
  /\ (forall r', In r' roster ->
      exists ss, In ss (v_support_status roster thresholds)
                 /\ ss_enrollment_id ss = r_enrollment_id r'
                 /\ ss_subject_area ss = r_subject_area r').
Proof.
  intros Hr Hnone.
  pose proof (left_join_no_match threshold_matches r thresholds Hnone) as E.
  split; [now rewrite E|].
  split.
  { apply support_In. exists r, None. rewrite E. simpl. auto. }
  split; [reflexivity|]. split; [reflexivity|].
  split; [|split].
  - simpl. intros ->. split; reflexivity.
  - simpl. destruct (r_latest_score r); [split; reflexivity|congruence].
  - intros r' Hr'.
    destruct (left_join_nonempty threshold_matches r' thresholds) as [t Ht].
    exists (support_select r' t). split; [|split; reflexivity].
    apply support_In. exists r', t. auto.
Qed.

Lemma missing_threshold_row_tier_witness :
  ss_tier (support_select
             (roster_select 20100 enrollment_one student_seven
                (hd_error (latest [winter_scored])) None) None) = Core.
Proof.
  set (r := roster_select 20100 enrollment_one student_seven
              (hd_error (latest [winter_scored])) None).
  refine (proj1 (proj1 (proj2 (proj2 (proj2 (proj2 (proj2
            (missing_threshold_row_tier [r] [reading_threshold] r _ _)))))) _)).
  - left. reflexivity.
  - intros t [<-|[]]. reflexivity.
  - vm_compute. discriminate.
Defined.

(* ------------------------------------------------------------------------- *)
(** ** Enrollments without assessments *)
(* ------------------------------------------------------------------------- *)

Section Unassessed.
Variable db : database.
Variable e : enrollment.
Hypothesis no_assessment :
  forall a, In a (db_assessments db) ->
            a_enrollment_id a <> Some (e_enrollment_id e).




End Unassessed.



(* ------------------------------------------------------------------------- *)
(** ** Cohort aggregates *)
(* ------------------------------------------------------------------------- *)

Lemma count_filter_length {A} (p : A -> Sql.tv) (rows : list A) :
  Sql.count_filter p rows
  = Z.of_nat (List.length (filter (fun r => Sql.holds (p r)) rows)).
Proof.
  unfold Sql.count_filter.
  assert (H : forall n,
    fold_left (fun n r => if Sql.holds (p r) then n + 1 else n) rows n
    = n + Z.of_nat (List.length (filter (fun r => Sql.holds (p r)) rows))).
  { induction rows as [|r rows IH]; intros n; simpl; [lia|].
    rewrite IH. destruct (Sql.holds (p r)); simpl List.length; lia. }
  now rewrite H.
Qed.

Lemma count_star_length {A} (rows : list A) :
  Sql.count_star rows = Z.of_nat (List.length rows).
Proof.
  unfold Sql.count_star. rewrite count_filter_length.
  now rewrite filter_all by reflexivity.
Qed.

Lemma is_not_null_holds {A} (x : option A) :
  Sql.holds (Sql.is_not_null x) = match x with Some _ => true | None => false end.
Proof. now destruct x. Qed.


Lemma median_of_no_days (rows : list roster_row) :
  (forall r, In r rows -> r_days_since_assessment r = None) ->
  Sql.percentile_cont_half (map r_days_since_assessment rows) = None.
Proof.
  intros H. unfold Sql.percentile_cont_half.
  assert (E : flat_map (fun v : option Z => match v with Some d => [d] | None => [] end)
                (map r_days_since_assessment rows) = []).
  { induction rows as [|r rows IH]; [reflexivity|].
    simpl. rewrite (H r (or_introl eq_refl)). simpl.
    apply IH. intros; apply H; now right. }
  now rewrite E.
Qed.

Lemma kpis_In (roster : list roster_row) (k : kpi_row) :
  In k (v_teacher_kpis roster) <->
  exists key, In key (map teacher_year_subject roster)
              /\ k = kpi_of_group key
                       (Sql.group same_kpi_key teacher_year_subject key roster).
Proof.
  unfold v_teacher_kpis. rewrite in_map_iff. split.
  - intros [key [<- Hkey]].
    apply (proj1 (distinct_In _ same_kpi_key_eq _ _)) in Hkey. now exists key.
  - intros [key [Hkey ->]]. exists key. split; [reflexivity|].
    now apply (proj2 (distinct_In _ same_kpi_key_eq _ _)).
Qed.



(* ------------------------------------------------------------------------- *)
(** ** Growth between the last two scored assessments *)
(* ------------------------------------------------------------------------- *)










(* ------------------------------------------------------------------------- *)
(** ** Migration: period order and effective date *)
(* ------------------------------------------------------------------------- *)

Lemma sql_update_length {A} (p : A -> Sql.tv) (set : A -> A) (table : list A) :
  List.length (sql_update p set table) = List.length table.
Proof. unfold sql_update. apply length_map. Qed.

Lemma sql_update_In {A} (p : A -> Sql.tv) (set : A -> A) (table : list A) (r' : A) :
  In r' (sql_update p set table) <->
  exists r, In r table /\ r' = if Sql.holds (p r) then set r else r.
Proof.
  unfold sql_update. rewrite in_map_iff. split; intros [r [H1 H2]]; exists r; auto.
Qed.

(** An UPDATE whose SET is stable on the rows it has rewritten changes
    nothing when it is run again. *)
Lemma sql_update_idempotent {A} (p : A -> Sql.tv) (set : A -> A) (table : list A) :
  (forall r, Sql.holds (p r) = true -> Sql.holds (p (set r)) = true ->
             set (set r) = set r) ->
  sql_update p set (sql_update p set table) = sql_update p set table.
Proof.
  intros Hstable. unfold sql_update. rewrite map_map. apply map_ext. intros r.
  destruct (Sql.holds (p r)) eqn:E.
  - destruct (Sql.holds (p (set r))) eqn:E'; [now apply Hstable|reflexivity].
  - now rewrite E.
Qed.

Lemma period_order_case_spec (p : text) :
  let v := Sql.lower (Sql.trim p) in
  (v = "fall" /\ period_order_case p = Some 1)
  \/ (v = "winter" /\ period_order_case p = Some 2)
  \/ (v = "spring" /\ period_order_case p = Some 3)
  \/ (v = "eoy" /\ period_order_case p = Some 4)
  \/ (~ In v ["fall"; "winter"; "spring"; "eoy"] /\ period_order_case p = None).
Proof.
  unfold period_order_case. cbv zeta.
  set (v := Sql.lower (Sql.trim p)).
  cbn [Sql.case_when]. rewrite !cmp3_holds.
  destruct (String.eqb_spec v "fall") as [E1|N1]; [left; auto|].
  destruct (String.eqb_spec v "winter") as [E2|N2]; [right; left; auto|].
  destruct (String.eqb_spec v "spring") as [E3|N3]; [right; right; left; auto|].
  destruct (String.eqb_spec v "eoy") as [E4|N4]; [right; right; right; left; auto|].
  right. right. right. right. split; [|reflexivity].
  simpl. intros [H|[H|[H|[H|[]]]]]; congruence.
Qed.

(** X1.  A period gets an order only when its name, trimmed and lower-cased,
    is one of fall, winter, spring, eoy; the order is between 1 and 4, and
    two periods with the same order are the same name up to case and
    surrounding spaces.  Any other name gets NULL. *)
Theorem period_order_names_the_period (p1 p2 : text) :
  (forall n, period_order_case p1 = Some n ->
     1 <= n <= 4
     /\ In (Sql.lower (Sql.trim p1)) ["fall"; "winter"; "spring"; "eoy"]
     /\ (period_order_case p2 = Some n ->
         Sql.lower (Sql.trim p1) = Sql.lower (Sql.trim p2)))
  /\ (period_order_case p1 = None <->
      ~ In (Sql.lower (Sql.trim p1)) ["fall"; "winter"; "spring"; "eoy"]).
Proof.
  pose proof (period_order_case_spec p1) as H1.
  pose proof (period_order_case_spec p2) as H2.
  cbv zeta in H1, H2. split.
  - intros n Hn. rewrite Hn in H1.
    destruct H1 as [[V1 E1]|[[V1 E1]|[[V1 E1]|[[V1 E1]|[_ E1]]]]];
      try discriminate; inversion E1; subst n;
      (split; [lia|]); (split; [rewrite V1; simpl; tauto|]);
      intros Hp2; rewrite Hp2 in H2;
      destruct H2 as [[V2 E2]|[[V2 E2]|[[V2 E2]|[[V2 E2]|[_ E2]]]]];
      try discriminate; congruence.
  - split.
    + intros Hn. rewrite Hn in H1.
      destruct H1 as [[_ E1]|[[_ E1]|[[_ E1]|[[_ E1]|[V1 _]]]]];
        try discriminate. exact V1.
    + intros Hv.
      destruct H1 as [[V1 _]|[[V1 _]|[[V1 _]|[[V1 _]|[_ E1]]]]];
        try (exfalso; apply Hv; rewrite V1; simpl; tauto). exact E1.
Qed.

Lemma period_order_names_the_period_witness :
  1 <= 2 <= 4
  /\ In (Sql.lower (Sql.trim "  Winter ")) ["fall"; "winter"; "spring"; "eoy"]
  /\ (period_order_case "WINTER" = Some 2 ->
      Sql.lower (Sql.trim "  Winter ") = Sql.lower (Sql.trim "WINTER")).
Proof.
  apply (proj1 (period_order_names_the_period "  Winter " "WINTER") 2).
  reflexivity.
Defined.

(** X2.  The period-order backfill rewrites only the rows whose period_order
    is NULL and only that column; afterwards a row has no period_order
    exactly when it had none and its period is not one of the four names;
    running the statement a second time changes nothing. *)
Theorem backfill_period_order_fills_once (table : list stored_assessment) :
  List.length (backfill_period_order table) = List.length table
  /\ map sa_assessment_id (backfill_period_order table) = map sa_assessment_id table
  /\ map sa_columns (backfill_period_order table) = map sa_columns table
  /\ (forall row', In row' (backfill_period_order table) ->
        exists row, In row table
          /\ sa_columns row' = sa_columns row
          /\ (sa_period_order row <> None -> row' = row)
          /\ (sa_period_order row' = None <->
              sa_period_order row = None
              /\ period_order_case (a_assessment_period (sa_columns row)) = None))
  /\ backfill_period_order (backfill_period_order table)
     = backfill_period_order table.
Proof.
  unfold backfill_period_order.
  split; [apply sql_update_length|].
  split; [|split; [|split]].
  - unfold sql_update. rewrite map_map. apply map_ext. intros r.
    now destruct (Sql.holds _).
  - unfold sql_update. rewrite map_map. apply map_ext. intros r.
    now destruct (Sql.holds _).
  - intros row' H. apply sql_update_In in H. destruct H as [row [Hin ->]].
    exists row. split; [exact Hin|].
    destruct (sa_period_order row) as [n|] eqn:E; simpl.
    + rewrite E. repeat split; try congruence. intros [H _]. discriminate.
    + repeat split; try congruence; tauto.
  - apply sql_update_idempotent. intros r _ H.
    simpl in H. unfold with_period_order. simpl.
    destruct (period_order_case (a_assessment_period (sa_columns r)));
      [discriminate|reflexivity].
Qed.

Lemma backfill_period_order_fills_once_witness :
  exists row, In row [mk_stored_assessment 7 None None winter_scored]
    /\ sa_columns (mk_stored_assessment 7 None (Some 2) winter_scored) = sa_columns row
    /\ (sa_period_order row <> None ->
        mk_stored_assessment 7 None (Some 2) winter_scored = row)
    /\ (sa_period_order (mk_stored_assessment 7 None (Some 2) winter_scored) = None <->
        sa_period_order row = None
        /\ period_order_case (a_assessment_period (sa_columns row)) = None).
Proof.
  apply (proj1 (proj2 (proj2 (proj2
           (backfill_period_order_fills_once
              [mk_stored_assessment 7 None None winter_scored]))))).
  left. reflexivity.
Defined.

(** X3.  The effective-date backfill rewrites only the rows whose
    effective_date is NULL and only that column, to the assessment date or
    else the day of created_at; afterwards a row has no effective date
    exactly when it has neither an assessment date nor a created_at; running
    the statement a second time changes nothing. *)
Theorem backfill_effective_date_fills_once (date_of_timestamp : timestamptz -> date)
  (table : list stored_assessment) :
  List.length (backfill_effective_date date_of_timestamp table) = List.length table
  /\ (forall row', In row' (backfill_effective_date date_of_timestamp table) ->
        exists row, In row table
          /\ sa_assessment_id row' = sa_assessment_id row
          /\ (a_effective_date (sa_columns row) <> None -> row' = row)
          /\ (a_effective_date (sa_columns row) = None ->
              forall d, sa_assessment_date row = Some d ->
                        a_effective_date (sa_columns row') = Some d)
          /\ (a_effective_date (sa_columns row') = None <->
              a_effective_date (sa_columns row) = None
              /\ sa_assessment_date row = None
              /\ a_created_at (sa_columns row) = None))
  /\ backfill_effective_date date_of_timestamp
       (backfill_effective_date date_of_timestamp table)
     = backfill_effective_date date_of_timestamp table.
Proof.
  unfold backfill_effective_date.
  split; [apply sql_update_length|]. split.
  - intros row' H. apply sql_update_In in H. destruct H as [row [Hin ->]].
    exists row. split; [exact Hin|].
    destruct (a_effective_date (sa_columns row)) as [d0|] eqn:E; simpl.
    + rewrite E. repeat split; try congruence. intros [H _]. discriminate.
    + unfold effective_date_default, coalesce2.
      destruct (sa_assessment_date row) as [d|];
        destruct (a_created_at (sa_columns row)) as [c|]; simpl;
        repeat split; try congruence; try tauto;
        intros H; try discriminate; destruct H as [_ [H1 H2]]; discriminate.
  - apply sql_update_idempotent. intros r _ H.
    simpl in H. unfold with_effective_date, effective_date_default in *. simpl in *.
    destruct (coalesce2 (sa_assessment_date r)
                (option_map date_of_timestamp (a_created_at (sa_columns r))));
      [discriminate|reflexivity].
Qed.

Lemma backfill_effective_date_fills_once_witness :
  exists row,
    In row [mk_stored_assessment 7 (Some 20080) None
              (mk_assessment (Some 1%N) (Some "Math") "Benchmark" "Winter" "2024-25"
                             (Some (58 # 1)%Q) None (Some 200))]
    /\ sa_assessment_id
         (with_effective_date (Some 20080)
            (mk_stored_assessment 7 (Some 20080) None
               (mk_assessment (Some 1%N) (Some "Math") "Benchmark" "Winter" "2024-25"
                              (Some (58 # 1)%Q) None (Some 200))))
       = sa_assessment_id row.
Proof.
  destruct (proj1 (proj2
              (backfill_effective_date_fills_once (fun t => t / 86400)
                 [mk_stored_assessment 7 (Some 20080) None
                    (mk_assessment (Some 1%N) (Some "Math") "Benchmark" "Winter"
                                   "2024-25" (Some (58 # 1)%Q) None (Some 200))]))
              (with_effective_date (Some 20080)
                 (mk_stored_assessment 7 (Some 20080) None
                    (mk_assessment (Some 1%N) (Some "Math") "Benchmark" "Winter"
                                   "2024-25" (Some (58 # 1)%Q) None (Some 200)))))
    as [row [Hin [Hid _]]].
  - left. reflexivity.
  - exists row. split; [exact Hin|exact Hid].
Defined.

(* ------------------------------------------------------------------------- *)
(** ** Migration: de-duplication before the unique index *)
(* ------------------------------------------------------------------------- *)

Lemma holds_some (b : bool) : Sql.holds (Some b) = b.
Proof. now destruct b. Qed.

Lemma superseded_by_holds (a a2 : stored_assessment) :
  Sql.holds (superseded_by a a2) = true <->
  a_enrollment_id (sa_columns a) <> None
  /\ assessment_window a = assessment_window a2
  /\ sa_assessment_id a < sa_assessment_id a2.
Proof.
  unfold superseded_by, assessment_window.
  rewrite !and3_holds, !andb_true_iff, is_not_null_holds, !holds_some.
  rewrite not_distinct_text, !String.eqb_eq, Z.ltb_lt.
  destruct (a_enrollment_id (sa_columns a)) as [e1|],
           (a_enrollment_id (sa_columns a2)) as [e2|];
    rewrite ?cmp3_holds, ?cmp3_null_l, ?cmp3_null_r, ?N.eqb_eq.
  - split.
    + intros [_ [-> [-> [-> [-> [-> Hlt]]]]]].
      split; [discriminate|]. split; [reflexivity|exact Hlt].
    + intros [_ [Hw Hlt]]. inversion Hw. repeat split; auto.
  - split; [intros [_ [H _]]; discriminate|intros [_ [Hw _]]; discriminate].
  - split; [intros [H _]; discriminate|intros [H _]; now contradiction H].
  - split; [intros [H _]; discriminate|intros [H _]; now contradiction H].
Qed.

Lemma deduplicate_In (table : list stored_assessment) (a : stored_assessment) :
  In a (deduplicate_assessments table) <->
  In a table /\ forall a2, In a2 table -> Sql.holds (superseded_by a a2) = false.
Proof.
  unfold deduplicate_assessments, sql_delete_using.
  rewrite filter_In, negb_true_iff. split; intros [Hin H]; (split; [exact Hin|]).
  - intros a2 Ha2. apply not_true_is_false. intros Hs.
    assert (E : existsb (fun a2 => Sql.holds (superseded_by a a2)) table = true)
      by (apply existsb_exists; now exists a2).
    congruence.
  - apply not_true_is_false. intros E. apply existsb_exists in E.
    destruct E as [a2 [Ha2 Hs]]. rewrite (H a2 Ha2) in Hs. discriminate.
Qed.

Lemma greatest_by {A} (f : A -> Z) (l : list A) (x : A) :
  In x l -> exists m, In m l /\ forall y, In y l -> f y <= f m.
Proof.
  intros Hx. assert (Hne : l <> []) by (intros ->; destruct Hx). clear Hx.
  induction l as [|h l IH]; [congruence|].
  destruct l as [|h' l'].
  - exists h. split; [now left|]. intros y [<-|[]]. lia.
  - destruct IH as [m [Hm Hmax]]; [discriminate|].
    destruct (Z.le_gt_cases (f h) (f m)) as [Hle|Hgt].
    + exists m. split; [now right|]. intros y [<-|Hy]; [exact Hle|now apply Hmax].
    + exists h. split; [now left|]. intros y [<-|Hy]; [lia|].
      specialize (Hmax y Hy). lia.
Qed.

Lemma assessment_window_eq_dec (a b : stored_assessment) :
  {assessment_window a = assessment_window b}
  + {assessment_window a <> assessment_window b}.
Proof.
  repeat decide equality; try apply N.eq_dec; try apply Ascii.ascii_dec.
Qed.

(** X4.  After the de-duplicating DELETE two rows that have an enrollment and
    agree on enrollment, subject, type, period and year have the same
    assessment_id, so with [assessment_id] a key they are the same row and
    the unique index [uq_assessment_unique_window] can be built.  The DELETE
    only removes rows, and a second run removes nothing more. *)
Theorem deduplicate_makes_windows_unique (table : list stored_assessment) :
  (forall a b, In a (deduplicate_assessments table) ->
               In b (deduplicate_assessments table) ->
               a_enrollment_id (sa_columns a) <> None ->
               assessment_window a = assessment_window b ->
               sa_assessment_id a = sa_assessment_id b)
  /\ (forall a, In a (deduplicate_assessments table) -> In a table)
  /\ deduplicate_assessments (deduplicate_assessments table)
     = deduplicate_assessments table.
Proof.
  split; [|split].
  - intros a b Ha Hb Hn Hw.
    apply deduplicate_In in Ha. destruct Ha as [Ha Hna].
    apply deduplicate_In in Hb. destruct Hb as [Hb Hnb].
    destruct (Z.lt_total (sa_assessment_id a) (sa_assessment_id b))
      as [Hlt|[Heq|Hgt]]; [|exact Heq|].
    + exfalso. specialize (Hna b Hb).
      rewrite (proj2 (superseded_by_holds a b)) in Hna; [discriminate|auto].
    + exfalso. specialize (Hnb a Ha).
      rewrite (proj2 (superseded_by_holds b a)) in Hnb; [discriminate|].
      split; [|split; [now symmetry|lia]].
      unfold assessment_window in Hw. inversion Hw. congruence.
  - intros a Ha. now apply deduplicate_In in Ha.
  - unfold deduplicate_assessments at 1. unfold sql_delete_using.
    apply filter_all. intros a Ha. apply negb_true_iff.
    apply not_true_is_false. intros E. apply existsb_exists in E.
    destruct E as [a2 [Ha2 Hs]].
    apply deduplicate_In in Ha. destruct Ha as [_ Hna].
    apply deduplicate_In in Ha2. destruct Ha2 as [Ha2 _].
    rewrite (Hna a2 Ha2) in Hs. discriminate.
Qed.

Lemma deduplicate_makes_windows_unique_witness :
  sa_assessment_id (mk_stored_assessment 8 None None winter_scored)
  = sa_assessment_id (mk_stored_assessment 8 None None winter_scored).
Proof.
  apply (proj1 (deduplicate_makes_windows_unique
                  [mk_stored_assessment 7 None None winter_scored;
                   mk_stored_assessment 8 None None winter_scored;
                   mk_stored_assessment 9 None None fall_scored])).
  - vm_compute. left. reflexivity.
  - vm_compute. left. reflexivity.
  - discriminate.
  - reflexivity.
Defined.

(** X5.  The DELETE loses no window: every row of the table is kept or is
    represented by a kept row of the same enrollment, subject, type, period
    and year with a larger assessment_id, which is the largest of its window;
    and a row without enrollment is always kept. *)
Theorem deduplicate_keeps_the_newest (table : list stored_assessment)
  (a : stored_assessment) :
  In a table ->
  (a_enrollment_id (sa_columns a) = None -> In a (deduplicate_assessments table))
  /\ exists kept, In kept (deduplicate_assessments table)
       /\ assessment_window kept = assessment_window a
       /\ sa_assessment_id a <= sa_assessment_id kept
       /\ forall b, In b table -> assessment_window b = assessment_window a ->
                    sa_assessment_id b <= sa_assessment_id kept.
Proof.
  intros Ha. split.
  - intros Hnone. apply deduplicate_In. split; [exact Ha|].
    intros a2 _. apply not_true_is_false. intros Hs.
    apply superseded_by_holds in Hs. tauto.
  - set (same := filter (fun b => if assessment_window_eq_dec b a then true else false)
                        table).
    assert (Hsame : forall b, In b same <->
                      In b table /\ assessment_window b = assessment_window a).
    { intros b. unfold same. rewrite filter_In.
      destruct (assessment_window_eq_dec b a); intuition congruence. }
    destruct (greatest_by sa_assessment_id same a) as [kept [Hk Hmax]].
    { apply Hsame. auto. }
    apply Hsame in Hk. destruct Hk as [Hk Hw].
    exists kept. split; [|split; [exact Hw|split]].
    + apply deduplicate_In. split; [exact Hk|].
      intros a2 Ha2. apply not_true_is_false. intros Hs.
      apply superseded_by_holds in Hs. destruct Hs as [_ [Hw2 Hlt]].
      assert (Hin2 : In a2 same) by (apply Hsame; split; [exact Ha2|congruence]).
      specialize (Hmax a2 Hin2). lia.
    + apply Hmax. apply Hsame. auto.
    + intros b Hb Hwb. apply Hmax. apply Hsame. auto.
Qed.

Lemma deduplicate_keeps_the_newest_witness :
  exists kept,
    In kept (deduplicate_assessments
               [mk_stored_assessment 7 None None winter_scored;
                mk_stored_assessment 8 None None winter_scored])
    /\ assessment_window kept
       = assessment_window (mk_stored_assessment 7 None None winter_scored)
    /\ 7 <= sa_assessment_id kept
    /\ forall b, In b [mk_stored_assessment 7 None None winter_scored;
                      mk_stored_assessment 8 None None winter_scored] ->
                 assessment_window b
                 = assessment_window (mk_stored_assessment 7 None None winter_scored) ->
                 sa_assessment_id b <= sa_assessment_id kept.
Proof.
  apply (proj2 (deduplicate_keeps_the_newest
                  [mk_stored_assessment 7 None None winter_scored;
                   mk_stored_assessment 8 None None winter_scored]
                  (mk_stored_assessment 7 None None winter_scored)
                  (or_introl eq_refl))).
Defined.

(* ------------------------------------------------------------------------- *)
(** ** Support status, tier and thresholds *)
(* ------------------------------------------------------------------------- *)

(** X6.  In every row of [v_support_status] the support status and the tier
    name the same level (Unknown/Unknown, Needs Support/Intensive,
    Monitor/Strategic, On Track/Core), and they are Unknown exactly when the
    latest score is NULL. *)
Theorem support_status_agrees_with_tier (roster : list roster_row)
  (thresholds : list benchmark_threshold_row) (ss : support_row) :
  In ss (v_support_status roster thresholds) ->
  In (ss_support_status ss, ss_tier ss)
     [ (Status_Unknown, Tier_Unknown); (Needs_Support, Intensive);
       (Monitor, Strategic); (On_Track, Core) ]
  /\ (ss_tier ss = Tier_Unknown <-> ss_latest_score ss = None)
  /\ (ss_support_status ss = Status_Unknown <-> ss_latest_score ss = None).
Proof.
  intros H. apply support_In in H. destruct H as [r [t [_ [_ ->]]]].
  cbn [support_select ss_support_status ss_tier ss_latest_score].
  generalize (bind t t_support_threshold) (bind t t_benchmark_threshold).
  intros st bt. unfold support_status_case, tier_case.
  destruct (r_latest_score r) as [s|], st as [st|], bt as [bt|]; simpl;
    repeat match goal with
           | |- context [Qltb ?x ?y] => destruct (Qltb x y)
           end;
    simpl; repeat split; try tauto; try discriminate; try congruence.
Qed.

Lemma support_status_agrees_with_tier_witness :
  ss_tier (support_select
             (roster_select 20100 enrollment_two student_eight None None) None)
    = Tier_Unknown
  <-> ss_latest_score
        (support_select
           (roster_select 20100 enrollment_two student_eight None None) None)
      = None.
Proof.
  apply (support_status_agrees_with_tier
           [roster_select 20100 enrollment_two student_eight None None] []).
  left. reflexivity.
Defined.

(** X7.  With both thresholds present and support <= benchmark the score line
    splits into three bands: Intensive below the support threshold,
    Strategic from it up to the benchmark threshold, Core from the benchmark
    threshold on.  With benchmark <= support no score is ever Strategic. *)
Theorem tier_bands (s support benchmark : Q) :
  ((support <= benchmark)%Q ->
     (tier_case (Some s) (Some support) (Some benchmark) = Intensive
        <-> (s < support)%Q)
     /\ (tier_case (Some s) (Some support) (Some benchmark) = Strategic
        <-> (support <= s)%Q /\ (s < benchmark)%Q)
     /\ (tier_case (Some s) (Some support) (Some benchmark) = Core
        <-> (benchmark <= s)%Q))
  /\ ((benchmark <= support)%Q ->
     tier_case (Some s) (Some support) (Some benchmark) <> Strategic
     /\ (tier_case (Some s) (Some support) (Some benchmark) = Core
        <-> (support <= s)%Q)).
Proof.
  unfold tier_case. simpl.
  destruct (Qltb s support) eqn:E1;
    [apply Qltb_lt in E1 | apply Qltb_ge in E1];
    (destruct (Qltb s benchmark) eqn:E2;
     [apply Qltb_lt in E2 | apply Qltb_ge in E2]);
    simpl; split; intros Hord; repeat split;
    try discriminate; try (intros; lra); try (intros [? ?]; lra);
    try (intros; exfalso; lra); try reflexivity; try (intros; split; lra).
Qed.

Lemma tier_bands_witness :
  tier_case (Some (65 # 1)%Q) (Some (60 # 1)%Q) (Some (75 # 1)%Q) = Strategic
  <-> ((60 # 1) <= (65 # 1))%Q /\ ((65 # 1) < (75 # 1))%Q.
Proof.
  apply (proj1 (tier_bands (65 # 1)%Q (60 # 1)%Q (75 # 1)%Q)).
  vm_compute. discriminate.
Defined.

(* ------------------------------------------------------------------------- *)
(** ** Trend and priority *)
(* ------------------------------------------------------------------------- *)

(** X8.  Exchanging the latest and the prior score turns Improving into
    Declining and back, and leaves Stable as it is; with both scores present
    the trend is never No Data. *)
Theorem trend_reverses (a b : Q) :
  (trend_case (Some a) (Some b) = Improving
     <-> trend_case (Some b) (Some a) = Declining)
  /\ (trend_case (Some a) (Some b) = Stable
     <-> trend_case (Some b) (Some a) = Stable)
  /\ trend_case (Some a) (Some b) <> No_Data.
Proof.
  unfold trend_case, Qgeb. cbn [Sql.case_when Sql.is_null Sql.op3 Sql.cmp3].
  destruct (Qle_bool (2 # 1) (a - b)) eqn:E1;
    destruct (Qle_bool (a - b) (- 2 # 1)) eqn:E2;
    destruct (Qle_bool (2 # 1) (b - a)) eqn:E3;
    destruct (Qle_bool (b - a) (- 2 # 1)) eqn:E4;
    cbn [Sql.holds];
    try (apply Qle_bool_iff in E1); try (apply Qle_bool_iff in E2);
    try (apply Qle_bool_iff in E3); try (apply Qle_bool_iff in E4);
    repeat match goal with
           | H : Qle_bool ?x ?y = false |- _ =>
               assert (~ (x <= y)%Q)
                 by (let C := fresh in intros C; apply Qle_bool_iff in C; congruence);
               clear H
           end;
    try (exfalso; lra);
    repeat split; intros; try discriminate; try reflexivity; try congruence.
Qed.

Lemma priority_score_range (t : tier) (tr : option trend) (days : option Z)
  (has : bool) :
  0 <= priority_score_of t tr days has <= 12
  /\ (priority_score_of t tr days has = 12 <->
      t = Intensive /\ tr = Some Declining /\ more_than days 90 = true
      /\ has = false)
  /\ (priority_score_of t tr days has = 0 <->
      t <> Intensive /\ t <> Strategic /\ tr <> Some Declining /\ tr <> Some Stable
      /\ more_than days 60 = false).
Proof.
  priority_cases t tr days has; vm_compute;
    repeat split; try intros [? [? [? [? ?]]]]; try intros [? [? [? ?]]];
    try intros; try discriminate; try congruence; try lia.
Qed.

(** X9.  The priority score of every row of [v_priority_students] lies
    between 0 and 12.  It is 12 exactly for an Intensive row with a Declining
    trend, more than 90 days since the assessment and no active intervention;
    it is 0 exactly for a row that is neither Intensive nor Strategic, whose
    trend is neither Declining nor Stable, and that is not more than 60 days
    old. *)
Theorem priority_score_bounds (support : list support_row) (growth : list growth_row)
  (p : priority_row) :
  In p (v_priority_students support growth) ->
  0 <= pr_priority_score p <= 12
  /\ (pr_priority_score p = 12 <->
      pr_tier p = Intensive /\ pr_trend p = Some Declining
      /\ more_than (pr_days_since_assessment p) 90 = true
      /\ pr_has_active_intervention p = false)
  /\ (pr_priority_score p = 0 <->
      pr_tier p <> Intensive /\ pr_tier p <> Strategic
      /\ pr_trend p <> Some Declining /\ pr_trend p <> Some Stable
      /\ more_than (pr_days_since_assessment p) 60 = false).
Proof.
  intros H. apply priority_In in H. destruct H as [ss [g [_ [_ ->]]]].
  cbn [priority_select pr_priority_score pr_tier pr_trend
       pr_days_since_assessment pr_has_active_intervention].
  apply priority_score_range.
Qed.

Lemma priority_score_bounds_witness :
  0 <= pr_priority_score
         (priority_select
            (support_select
               (roster_select 20100 enrollment_two student_eight None None) None)
            None) <= 12.
Proof.
  apply (priority_score_bounds
           [support_select
              (roster_select 20100 enrollment_two student_eight None None) None]
           []).
  left. reflexivity.
Defined.

Lemma reasons_and_score (t : tier) (tr : option trend) (days : option Z)
  (has : bool) :
  (reasons_of t tr days has = "" <->
     t <> Intensive /\ t <> Strategic /\ tr <> Some Declining
     /\ more_than days 90 = false)
  /\ (reasons_of t tr days has = "" -> priority_score_of t tr days has <= 2)
  /\ (reasons_of t tr days has <> "" -> 2 <= priority_score_of t tr days has).
Proof.
  priority_cases t tr days has; vm_compute;
    repeat split; try intros [? [? [? ?]]];
    try intros; try discriminate; try congruence; try lia;
    try (exfalso; match goal with H : _ = _ -> False |- _ => apply H; reflexivity end).
Qed.

(** X10.  A row of [v_priority_students] has an empty reasons string exactly
    when it is neither Intensive nor Strategic, its trend is not Declining
    and it is not more than 90 days old; such a row scores at most 2 (a
    Stable trend and 61 to 90 days give points but no reason), and a row
    with any reason scores at least 2. *)
Theorem reasons_empty_iff_low_priority (support : list support_row)
  (growth : list growth_row) (p : priority_row) :
  In p (v_priority_students support growth) ->
  (pr_reasons p = "" <->
     pr_tier p <> Intensive /\ pr_tier p <> Strategic
     /\ pr_trend p <> Some Declining
     /\ more_than (pr_days_since_assessment p) 90 = false)
  /\ (pr_reasons p = "" -> pr_priority_score p <= 2)
  /\ (pr_reasons p <> "" -> 2 <= pr_priority_score p).
Proof.
  intros H. apply priority_In in H. destruct H as [ss [g [_ [_ ->]]]].
  cbn [priority_select pr_priority_score pr_tier pr_trend pr_reasons
       pr_days_since_assessment pr_has_active_intervention].
  apply reasons_and_score.
Qed.

Lemma reasons_empty_iff_low_priority_witness :
  let p :=
    priority_select
      (support_select
         (roster_select 20100 enrollment_two student_eight None None) None)
      None in
  pr_reasons p = "" /\ pr_priority_score p <= 2.
Proof.
  intros p.
  assert (Hp : In p (v_priority_students
                       [support_select
                          (roster_select 20100 enrollment_two student_eight
                             None None) None] [])).
  { left. reflexivity. }
  destruct (reasons_empty_iff_low_priority _ _ p Hp) as [_ [Hlow _]].
  split; [reflexivity|]. apply Hlow. reflexivity.
Defined.

Ltac eval_case_when :=
  repeat match goal with
         | |- context [@Sql.case_when Z ?l 0] =>
             let v := eval vm_compute in (@Sql.case_when Z l 0) in
             change (@Sql.case_when Z l 0) with v
         end.

(** X11.  The priority score never goes down when the assessment gets older,
    when the active intervention is taken away, or when the tier moves from
    Core over Strategic to Intensive; hence, for fixed thresholds, a lower
    score never gives a lower priority. *)
Theorem priority_is_monotone (tr : option trend) :
  (forall t has d1 d2, d1 <= d2 ->
     priority_score_of t tr None has <= priority_score_of t tr (Some d1) has
     /\ priority_score_of t tr (Some d1) has <= priority_score_of t tr (Some d2) has)
  /\ (forall t days,
     priority_score_of t tr days true <= priority_score_of t tr days false)
  /\ (forall t1 t2 days has, tier_rank t2 <= tier_rank t1 ->
     t1 <> Tier_Unknown -> t2 <> Tier_Unknown ->
     priority_score_of t1 tr days has <= priority_score_of t2 tr days has)
  /\ (forall support benchmark s1 s2 days has, (s1 <= s2)%Q ->
     priority_score_of (tier_case (Some s2) support benchmark) tr days has
     <= priority_score_of (tier_case (Some s1) support benchmark) tr days has).
Proof.
  assert (Htier : forall t1 t2 days has, tier_rank t2 <= tier_rank t1 ->
            t1 <> Tier_Unknown -> t2 <> Tier_Unknown ->
            priority_score_of t1 tr days has <= priority_score_of t2 tr days has).
  { intros t1 t2 days has Hr H1 H2.
    destruct t1, t2; simpl in Hr; try congruence; try lia;
      unfold priority_score_of;
      generalize (Sql.case_when [(days_over days 90, 2); (days_over days 60, 1)] 0);
      generalize (Sql.case_when [(trend_is tr Declining, 3); (trend_is tr Stable, 1)] 0);
      intros x y; destruct has; eval_case_when; lia. }
  split; [|split; [|split]].
  - intros t has d1 d2 Hle.
    unfold priority_score_of, days_over, Sql.cmp3. rewrite !Z.gtb_ltb.
    generalize (Sql.case_when [(tier_is t Intensive, 5); (tier_is t Strategic, 3)] 0).
    generalize (Sql.case_when [(trend_is tr Declining, 3); (trend_is tr Stable, 1)] 0).
    generalize (Sql.case_when [(uncovered has t, 2)] 0).
    intros x y z.
    destruct (Z.ltb_spec 90 d1); destruct (Z.ltb_spec 60 d1);
      destruct (Z.ltb_spec 90 d2); destruct (Z.ltb_spec 60 d2);
      try lia; eval_case_when; lia.
  - intros t days. unfold priority_score_of.
    generalize (Sql.case_when [(days_over days 90, 2); (days_over days 60, 1)] 0).
    generalize (Sql.case_when [(trend_is tr Declining, 3); (trend_is tr Stable, 1)] 0).
    intros x y. destruct t; eval_case_when; lia.
  - exact Htier.
  - intros support benchmark s1 s2 days has Hle.
    apply Htier.
    + unfold tier_case.
      destruct support as [st|], benchmark as [bt|]; simpl;
        repeat match goal with
               | |- context [Qltb ?x ?y] =>
                   let E := fresh "E" in
                   destruct (Qltb x y) eqn:E;
                   [apply Qltb_lt in E | apply Qltb_ge in E]
               end;
        simpl; try lia; exfalso; lra.
    + unfold tier_case.
      destruct support as [st|], benchmark as [bt|]; simpl;
        repeat match goal with
               | |- context [Qltb ?x ?y] => destruct (Qltb x y)
               end; discriminate.
    + unfold tier_case.
      destruct support as [st|], benchmark as [bt|]; simpl;
        repeat match goal with
               | |- context [Qltb ?x ?y] => destruct (Qltb x y)
               end; discriminate.
Qed.

Lemma priority_is_monotone_witness :
  priority_score_of Strategic (Some Stable) None false
    <= priority_score_of Strategic (Some Stable) (Some 70) false
  /\ priority_score_of Strategic (Some Stable) (Some 70) false
     <= priority_score_of Strategic (Some Stable) (Some 95) false.
Proof.
  apply (proj1 (priority_is_monotone (Some Stable)) Strategic false 70 95).
  lia.
Defined.

(* ------------------------------------------------------------------------- *)
(** ** Cardinality of the joins *)
(* ------------------------------------------------------------------------- *)

Lemma filter_at_most_one {A K} (key : A -> K) (p : A -> bool) (l : list A) :
  NoDup (map key l) ->
  (forall x y, In x l -> In y l -> p x = true -> p y = true -> key x = key y) ->
  (List.length (filter p l) <= 1)%nat.
Proof.
  induction l as [|x l IH]; intros Hnd Hkey; simpl; [lia|].
  inversion Hnd as [|? ? Hnot Hnd']; subst.
  destruct (p x) eqn:Ex.
  - rewrite filter_none; [simpl; lia|].
    intros y Hy. apply not_true_is_false. intros Ey.
    apply Hnot. rewrite (Hkey x y (or_introl eq_refl) (or_intror Hy) Ex Ey).
    now apply in_map.
  - apply IH; [exact Hnd'|]. intros a b Ha Hb. apply Hkey; now right.
Qed.

(** A LEFT JOIN against a table whose matching rows share one key, itself
    unique in the table, returns exactly one row. *)
Lemma left_join_single {A B K} (key : B -> K) (on : A -> B -> Sql.tv) (a : A)
  (right : list B) :
  NoDup (map key right) ->
  (forall x y, Sql.holds (on a x) = true -> Sql.holds (on a y) = true ->
               key x = key y) ->
  exists b, Sql.left_join on a right = [b].
Proof.
  intros Hnd Hkey. unfold Sql.left_join.
  pose proof (filter_at_most_one key (fun b => Sql.holds (on a b)) right Hnd) as Hle.
  destruct (filter (fun b => Sql.holds (on a b)) right) as [|m [|m' ms]].
  - now exists None.
  - now exists (Some m).
  - exfalso. simpl in Hle.
    assert (S (S (List.length ms)) <= 1)%nat; [|lia].
    apply Hle. intros x y _ _. apply Hkey.
Qed.

Lemma left_join_length {A B} (on : A -> B -> Sql.tv) (a : A) (right : list B) :
  (1 <= List.length (Sql.left_join on a right))%nat.
Proof.
  unfold Sql.left_join.
  destruct (filter (fun b => Sql.holds (on a b)) right); simpl; lia.
Qed.

Lemma flat_map_singletons {A B C} (f : A -> list B) (h : B -> C) (h' : A -> C)
  (l : list A) :
  (forall x, In x l -> exists y, f x = [y] /\ h y = h' x) ->
  map h (flat_map f l) = map h' l.
Proof.
  induction l as [|x l IH]; intros H; [reflexivity|].
  cbn [flat_map map]. rewrite map_app.
  destruct (H x (or_introl eq_refl)) as [y [-> Hy]]. simpl. rewrite Hy. f_equal.
  apply IH. intros; apply H; now right.
Qed.

Lemma flat_map_length_ge {A B} (f : A -> list B) (l : list A) :
  (forall x, In x l -> (1 <= List.length (f x))%nat) ->
  (List.length l <= List.length (flat_map f l))%nat.
Proof.
  induction l as [|x l IH]; intros H; [simpl; lia|].
  cbn [flat_map]. rewrite length_app. simpl.
  specialize (H x (or_introl eq_refl)) as Hx.
  assert (List.length l <= List.length (flat_map f l))%nat
    by (apply IH; intros; apply H; now right).
  lia.
Qed.

Lemma growth_keys (assessments : list assessment) :
  map growth_row_key (v_growth_last_two assessments)
  = Sql.distinct same_growth_key
      (map ranked_key
         (filter (fun r : assessment * Z => Sql.holds (Some (snd r <=? 2)))
                 (ranked assessments))).
Proof.
  unfold v_growth_last_two, pairs. cbv zeta. rewrite !map_map.
  rewrite <- (map_id (Sql.distinct _ _)) at 2.
  apply map_ext. intros [[eid sub] yr]. reflexivity.
Qed.

Lemma growth_matches_key (ss : support_row) (g : growth_row) :
  Sql.holds (growth_matches ss g) = true ->
  exists yr, ss_school_year ss = Some yr
             /\ growth_row_key g = (Some (ss_enrollment_id ss), ss_subject_area ss, yr).
Proof.
  unfold growth_matches, growth_row_key.
  rewrite !and3_holds, !andb_true_iff. intros [H1 [H2 H3]].
  destruct (g_enrollment_id g) as [e|]; [|discriminate].
  rewrite cmp3_holds in H1. apply N.eqb_eq in H1. subst e.
  destruct (g_subject_area g) as [s|]; [|discriminate].
  destruct (ss_subject_area ss) as [s'|]; [|discriminate].
  rewrite cmp3_holds in H2. apply String.eqb_eq in H2. subst s'.
  destruct (ss_school_year ss) as [y|]; [|discriminate].
  rewrite cmp3_holds in H3. apply String.eqb_eq in H3. subst y.
  exists (g_school_year g). auto.
Qed.

(** X12.  [v_growth_last_two] has one row for each (enrollment, subject,
    year), so the LEFT JOIN of [v_priority_students] never multiplies a row:
    the priority view lists the rows of [v_support_status] one for one, in
    the same order. *)
Theorem priority_rows_are_the_support_rows (support : list support_row)
  (assessments : list assessment) :
  NoDup (map growth_row_key (v_growth_last_two assessments))
  /\ map (fun p => (pr_enrollment_id p, pr_subject_area p, pr_tier p))
         (v_priority_students support (v_growth_last_two assessments))
     = map (fun ss => (ss_enrollment_id ss, ss_subject_area ss, ss_tier ss)) support
  /\ List.length (v_priority_students support (v_growth_last_two assessments))
     = List.length support.
Proof.
  assert (Hnd : NoDup (map growth_row_key (v_growth_last_two assessments))).
  { rewrite growth_keys. apply (distinct_NoDup _ same_growth_key_eq). }
  assert (Hrows :
    map (fun p => (pr_enrollment_id p, pr_subject_area p, pr_tier p))
        (v_priority_students support (v_growth_last_two assessments))
    = map (fun ss => (ss_enrollment_id ss, ss_subject_area ss, ss_tier ss)) support).
  { unfold v_priority_students. apply flat_map_singletons. intros ss _.
    destruct (left_join_single growth_row_key growth_matches ss
                (v_growth_last_two assessments) Hnd) as [g Hg].
    - intros x y Hx Hy.
      destruct (growth_matches_key ss x Hx) as [yr [Hyr Ex]].
      destruct (growth_matches_key ss y Hy) as [yr' [Hyr' Ey]].
      congruence.
    - rewrite Hg. exists (priority_select ss g). split; reflexivity. }
  split; [exact Hnd|]. split; [exact Hrows|].
  rewrite <- (length_map (fun p => (pr_enrollment_id p, pr_subject_area p, pr_tier p))).
  rewrite Hrows. apply length_map.
Qed.

Lemma threshold_matches_key (r : roster_row) (t : benchmark_threshold_row) :
  Sql.holds (threshold_matches r t) = true ->
  (r_subject_area r, r_latest_type r, r_grade_level r, r_latest_period r,
   r_school_year r)
  = (Some (t_subject_area t), Some (t_assessment_type t), Some (t_grade_level t),
     Some (t_assessment_period t), Some (t_school_year t)).
Proof.
  unfold threshold_matches.
  rewrite !and3_holds, !andb_true_iff. intros [H1 [H2 [H3 [H4 H5]]]].
  destruct (r_subject_area r); [|discriminate].
  destruct (r_latest_type r); [|discriminate].
  destruct (r_grade_level r); [|discriminate].
  destruct (r_latest_period r); [|discriminate].
  destruct (r_school_year r); [|discriminate].
  rewrite cmp3_holds in H1, H2, H3, H4, H5.
  apply String.eqb_eq in H1, H2, H3, H4, H5. congruence.
Qed.

(** X13.  [v_support_status] has at least one row for every roster row.
    When no two rows of [benchmark_thresholds] share subject, assessment
    type, grade, period and year, it has exactly one, in roster order; the
    table has no such constraint, and a repeated threshold row repeats the
    students it matches. *)
Theorem support_rows_per_roster_row (roster : list roster_row)
  (thresholds : list benchmark_threshold_row) :
  (List.length roster <= List.length (v_support_status roster thresholds))%nat
  /\ (NoDup (map threshold_key thresholds) ->
      map (fun ss => (ss_enrollment_id ss, ss_subject_area ss)) 
          (v_support_status roster thresholds)
      = map roster_key roster
      /\ List.length (v_support_status roster thresholds) = List.length roster)
  /\ (forall r t, Sql.holds (threshold_matches r t) = true ->
      List.length (v_support_status [r] [t; t]) = 2%nat).
Proof.
  split; [|split].
  - unfold v_support_status. apply flat_map_length_ge. intros r _.
    rewrite length_map. apply left_join_length.
  - intros Hnd.
    assert (Hrows :
      map (fun ss => (ss_enrollment_id ss, ss_subject_area ss))
          (v_support_status roster thresholds) = map roster_key roster).
    { unfold v_support_status. apply flat_map_singletons. intros r _.
      destruct (left_join_single threshold_key threshold_matches r thresholds Hnd)
        as [t Ht].
      - intros x y Hx Hy.
        pose proof (threshold_matches_key r x Hx) as Ex.
        pose proof (threshold_matches_key r y Hy) as Ey.
        unfold threshold_key. rewrite Ex in Ey. inversion Ey. congruence.
      - rewrite Ht. exists (support_select r t). split; reflexivity. }
    split; [exact Hrows|].
    rewrite <- (length_map (fun ss => (ss_enrollment_id ss, ss_subject_area ss))).
    rewrite Hrows. apply length_map.
  - intros r t Hm. unfold v_support_status, Sql.left_join. simpl.
    rewrite Hm. reflexivity.
Qed.

Lemma support_rows_per_roster_row_witness :
  List.length
    (v_support_status
       [roster_select 20100 enrollment_one student_seven
          (hd_error (latest [winter_scored])) None]
       [reading_threshold])
  = 1%nat.
Proof.
  apply (proj1 (proj2 (support_rows_per_roster_row
           [roster_select 20100 enrollment_one student_seven
              (hd_error (latest [winter_scored])) None]
           [reading_threshold]))).
  repeat constructor. intros [].
Defined.

(* ------------------------------------------------------------------------- *)
(** ** The groups of [v_teacher_kpis] *)
(* ------------------------------------------------------------------------- *)

Section GroupSums.
Context {K A : Type} (same : K -> K -> bool) (key : A -> K).
Hypothesis same_eq : forall a b, same a b = true <-> a = b.

Lemma one_key_counts (ks : list K) (x : K) (c : Z) :
  NoDup ks -> In x ks ->
  Zsum (map (fun k => if same k x then c else 0) ks) = c.
Proof.
  induction 1 as [|k ks Hnot Hnd IH]; intros Hin; [destruct Hin|].
  simpl. destruct Hin as [->|Hin].
  - rewrite (proj2 (same_eq x x) eq_refl).
    assert (E : Zsum (map (fun k => if same k x then c else 0) ks) = 0).
    { clear IH Hnd. induction ks as [|k ks IH]; [reflexivity|]. simpl.
      destruct (same k x) eqn:S.
      - apply same_eq in S. subst. exfalso. apply Hnot. now left.
      - rewrite IH; [lia|]. intros H. apply Hnot. now right. }
    lia.
  - destruct (same k x) eqn:S.
    + apply same_eq in S. subst. contradiction.
    + rewrite IH by exact Hin. lia.
Qed.

(** Counting the rows that satisfy [p] group by group counts each of them
    once. *)
Lemma group_counts_add_up (p : A -> bool) (ks : list K) (rows : list A) :
  NoDup ks -> (forall r, In r rows -> In (key r) ks) ->
  Zsum (map (fun k => Z.of_nat (List.length (filter p (Sql.group same key k rows)))) ks)
  = Z.of_nat (List.length (filter p rows)).
Proof.
  intros Hnd. induction rows as [|r rows IH]; intros Hcov.
  - simpl. induction ks as [|k ks IHk]; [reflexivity|].
    simpl. inversion Hnd; subst. now rewrite IHk.
  - assert (E : forall k,
      Z.of_nat (List.length (filter p (Sql.group same key k (r :: rows))))
      = (if same k (key r) then (if p r then 1 else 0) else 0)
        + Z.of_nat (List.length (filter p (Sql.group same key k rows)))).
    { intros k. unfold Sql.group. simpl.
      destruct (same k (key r)); simpl; [|lia].
      destruct (p r); simpl List.length; lia. }
    rewrite (map_ext _ _ E).
    assert (Hsplit : forall (f g : K -> Z) l,
      Zsum (map (fun k => f k + g k) l) = Zsum (map f l) + Zsum (map g l)).
    { intros f g l. induction l as [|k l IHl]; simpl; [reflexivity|].
      rewrite IHl. lia. }
    rewrite Hsplit, IH by (intros; apply Hcov; now right).
    rewrite one_key_counts by (auto; apply Hcov; now left).
    simpl. destruct (p r); simpl List.length; lia.
Qed.
End GroupSums.

Lemma kpi_keys (roster : list roster_row) :
  map kpi_row_key (v_teacher_kpis roster)
  = Sql.distinct same_kpi_key (map teacher_year_subject roster).
Proof.
  unfold v_teacher_kpis. rewrite map_map.
  rewrite <- (map_id (Sql.distinct _ _)) at 2.
  apply map_ext. intros [[tn sy] sa]. reflexivity.
Qed.

(** X14.  The groups of [v_teacher_kpis] partition the roster: no two rows of
    the view have the same teacher, year and subject, the totals add up to
    the number of roster rows, and the assessed and overdue counts add up to
    the numbers of roster rows with a score and with more than 90 days. *)
Theorem kpi_groups_partition_the_roster (roster : list roster_row) :
  NoDup (map kpi_row_key (v_teacher_kpis roster))
  /\ Zsum (map k_total_students (v_teacher_kpis roster))
     = Z.of_nat (List.length roster)
  /\ Zsum (map k_assessed_students (v_teacher_kpis roster))
     = Z.of_nat (List.length (filter has_score roster))
  /\ Zsum (map k_overdue_count (v_teacher_kpis roster))
     = Z.of_nat (List.length
                   (filter (fun r => more_than (r_days_since_assessment r) 90) roster)).
Proof.
  pose proof (distinct_NoDup _ same_kpi_key_eq (map teacher_year_subject roster))
    as Hnd.
  assert (Hcov : forall r, In r roster ->
            In (teacher_year_subject r)
               (Sql.distinct same_kpi_key (map teacher_year_subject roster))).
  { intros r Hr. apply (proj2 (distinct_In _ same_kpi_key_eq _ _)).
    now apply in_map. }
  split; [rewrite kpi_keys; exact Hnd|].
  unfold v_teacher_kpis. rewrite !map_map.
  cbn [kpi_of_group k_total_students k_assessed_students k_overdue_count].
  split; [|split].
  - rewrite <- (filter_all (fun _ => true) roster) at 2 by reflexivity.
    rewrite <- (group_counts_add_up _ teacher_year_subject same_kpi_key_eq
                  (fun _ => true) _ roster Hnd Hcov).
    f_equal. apply map_ext. intros k. rewrite count_star_length.
    now rewrite filter_all by reflexivity.
  - rewrite <- (group_counts_add_up _ teacher_year_subject same_kpi_key_eq
                  has_score _ roster Hnd Hcov).
    f_equal. apply map_ext. intros k. rewrite count_filter_length.
    do 2 f_equal. apply filter_ext. intros r. apply is_not_null_holds.
  - rewrite <- (group_counts_add_up _ teacher_year_subject same_kpi_key_eq
                  (fun r => more_than (r_days_since_assessment r) 90) _ roster
                  Hnd Hcov).
    f_equal. apply map_ext. intros k. rewrite count_filter_length.
    do 2 f_equal. apply filter_ext. intros r. unfold more_than.
    destruct (r_days_since_assessment r) as [d|]; [|reflexivity].
    rewrite cmp3_holds. apply Z.gtb_ltb.
Qed.

Lemma present_days_of_map (rows : list roster_row) :
  flat_map (fun v : option Z => match v with Some d => [d] | None => [] end)
           (map r_days_since_assessment rows)
  = present_days rows.
Proof.
  unfold present_days. induction rows as [|r rows IH]; [reflexivity|].
  simpl. now rewrite IH.
Qed.

(** The median of a non-empty list lies between any bounds of its values. *)
Lemma median_within_bounds (vals : list (option Z)) (lo hi : Z) (m : Q) :
  (forall d, In (Some d) vals -> lo <= d <= hi) ->
  Sql.percentile_cont_half vals = Some m ->
  (inject_Z lo <= m)%Q /\ (m <= inject_Z hi)%Q.
Proof.
  intros Hb. unfold Sql.percentile_cont_half.
  destruct (flat_map (fun v : option Z =>
                        match v with Some d => [d] | None => [] end) vals)
    as [|d0 rest] eqn:E; [intros H; discriminate H|].
  assert (Hp : forall d, In d (d0 :: rest) -> lo <= d <= hi).
  { intros d Hd. apply Hb. rewrite <- E in Hd. apply in_flat_map in Hd.
    destruct Hd as [[d'|] [Hin Hd]]; [|destruct Hd].
    destruct Hd as [<-|[]]. exact Hin. }
  cbv zeta.
  set (sorted := Sql.order_by Z.compare (d0 :: rest)).
  assert (Hn : (0 < List.length sorted)%nat).
  { unfold sorted. rewrite order_by_length. simpl. lia. }
  assert (Hs : forall i, (i < List.length sorted)%nat ->
                         lo <= nth i sorted 0 <= hi).
  { intros i Hi. apply Hp. apply (proj1 (order_by_In Z.compare (d0 :: rest) _)).
    now apply nth_In. }
  assert (Hlo : ((List.length sorted - 1) / 2 < List.length sorted)%nat).
  { apply Nat.le_lt_trans with (List.length sorted - 1)%nat; [|lia].
    apply Nat.Div0.div_le_upper_bound. lia. }
  assert (Hhi : (List.length sorted / 2 < List.length sorted)%nat)
    by (apply Nat.div_lt; lia).
  pose proof (Hs _ Hlo) as [L1 U1]. pose proof (Hs _ Hhi) as [L2 U2].
  rewrite Zle_Qle in L1, U1, L2, U2.
  match goal with |- Some ?e = Some m -> _ => set (mv := e) end.
  intros Hm. assert (Em : m = mv) by congruence. rewrite Em. unfold mv.
  destruct (((List.length sorted - 1) / 2 =? List.length sorted / 2)%nat).
  - split; assumption.
  - split; lra.
Qed.

Lemma filter_length_mono {A} (p q : A -> bool) (l : list A) :
  (forall x, In x l -> p x = true -> q x = true) ->
  (List.length (filter p l) <= List.length (filter q l) <= List.length l)%nat.
Proof.
  induction l as [|x l IH]; intros H; simpl; [lia|].
  assert (Hl : (List.length (filter p l) <= List.length (filter q l)
                <= List.length l)%nat)
    by (apply IH; intros; apply H; auto; now right).
  destruct (p x) eqn:Ep.
  - rewrite (H x (or_introl eq_refl) Ep). simpl. lia.
  - destruct (q x); simpl; lia.
Qed.

Lemma median_none_iff (rows : list roster_row) :
  Sql.percentile_cont_half (map r_days_since_assessment rows) = None <->
  forall r, In r rows -> r_days_since_assessment r = None.
Proof.
  split; [|apply median_of_no_days].
  unfold Sql.percentile_cont_half. rewrite present_days_of_map.
  destruct (present_days rows) as [|d rest] eqn:E; [|intros H; discriminate H].
  intros _ r Hr. destruct (r_days_since_assessment r) as [d|] eqn:Ed; [|reflexivity].
  assert (Hin : In d (present_days rows)).
  { unfold present_days. apply in_flat_map. exists r. rewrite Ed.
    split; [exact Hr|now left]. }
  rewrite E in Hin. destruct Hin.
Qed.

(** X15.  In every row of [v_teacher_kpis] the group is not empty (so the
    NULLIF(COUNT( * ), 0) divisor of the percentage columns is never NULL),
    the overdue count is at most the number of rows that have a date, which
    is at most the total; the median is NULL exactly when no row of the
    group has a date, and otherwise lies between any two bounds of the
    days-since-assessment of the group. *)
Theorem kpi_counts_and_median_range (roster : list roster_row) (k : kpi_row) :
  In k (v_teacher_kpis roster) ->
  let cohort :=
    Sql.group same_kpi_key teacher_year_subject (kpi_row_key k) roster in
  1 <= k_total_students k
  /\ 0 <= k_overdue_count k <= Z.of_nat (List.length (filter has_days cohort))
  /\ Z.of_nat (List.length (filter has_days cohort)) <= k_total_students k
  /\ (k_median_days_since k = None <->
      forall r, In r cohort -> r_days_since_assessment r = None)
  /\ (forall lo hi m,
        (forall r d, In r cohort -> r_days_since_assessment r = Some d ->
                     lo <= d <= hi) ->
        k_median_days_since k = Some m ->
        (inject_Z lo <= m)%Q /\ (m <= inject_Z hi)%Q).
Proof.
  intros Hk. apply kpis_In in Hk. destruct Hk as [[[tn sy] sa] [Hkey ->]].
  unfold kpi_row_key.
  cbn [kpi_of_group k_teacher_name k_school_year k_subject_area
       k_total_students k_overdue_count k_median_days_since fst snd].
  cbv zeta.
  set (cohort := Sql.group same_kpi_key teacher_year_subject (tn, sy, sa) roster).
  rewrite count_star_length, count_filter_length.
  assert (Hover : (List.length
                     (filter (fun r => Sql.holds
                                (Sql.cmp3 Z.gtb (r_days_since_assessment r)
                                          (Some 90%Z)))
                             cohort)
                   <= List.length (filter has_days cohort)
                   <= List.length cohort)%nat).
  { apply filter_length_mono. intros r _. unfold has_days.
    destruct (r_days_since_assessment r); [reflexivity|discriminate]. }
  split.
  { apply in_map_iff in Hkey. destruct Hkey as [r [Hr Hin]].
    assert (Hc : In r cohort)
      by (apply (group_In _ same_kpi_key_eq); auto).
    destruct cohort; [destruct Hc|simpl List.length; lia]. }
  split; [lia|]. split; [lia|]. split.
  - apply median_none_iff.
  - intros lo hi m Hb. apply median_within_bounds.
    intros d Hd. apply in_map_iff in Hd. destruct Hd as [r [Hd Hr]].
    now apply (Hb r d).
Qed.

Lemma kpi_counts_and_median_range_witness :
  1 <= k_total_students
         (kpi_of_group (Some "Garcia", Some "2024-25", None)
            [roster_select 20100 enrollment_two student_eight None None]).
Proof.
  apply (kpi_counts_and_median_range
           [roster_select 20100 enrollment_two student_eight None None]
           (kpi_of_group (Some "Garcia", Some "2024-25", None)
              [roster_select 20100 enrollment_two student_eight None None])).
  left. reflexivity.
Defined.

(* ------------------------------------------------------------------------- *)
(** ** One roster row per enrollment and subject *)
(* ------------------------------------------------------------------------- *)

(** Blocks of keys owned by pairwise different owners do not overlap. *)
Lemma NoDup_owned_blocks {A B K} (own : A -> K) (tag : B -> K) (f : A -> list B)
  (l : list A) :
  NoDup (map own l) ->
  (forall a, In a l -> NoDup (f a)) ->
  (forall a b, In b (f a) -> tag b = own a) ->
  NoDup (flat_map f l).
Proof.
  induction l as [|a l IH]; intros Hnd Hblock Htag; [constructor|].
  cbn [flat_map]. inversion Hnd as [|? ? Hnot Hnd']; subst.
  apply NoDup_app.
  - apply Hblock. now left.
  - apply IH; [exact Hnd'| |exact Htag]. intros; apply Hblock; now right.
  - intros b Hb Hb'. apply in_flat_map in Hb'. destruct Hb' as [a' [Ha' Hb']].
    apply Hnot. rewrite <- (Htag a b Hb), (Htag a' b Hb'). now apply in_map.
Qed.

Lemma NoDup_map_filter {A K1 K2} (g : A -> K1) (f : A -> K2) (p : A -> bool)
  (l : list A) :
  NoDup (map g l) ->
  (forall x y, In x l -> In y l -> p x = true -> p y = true ->
               f x = f y -> g x = g y) ->
  NoDup (map f (filter p l)).
Proof.
  induction l as [|x l IH]; intros Hnd Hinj; [constructor|].
  inversion Hnd as [|? ? Hnot Hnd']; subst. simpl.
  assert (Hrest : NoDup (map f (filter p l))).
  { apply IH; [exact Hnd'|]. intros a b Ha Hb. apply Hinj; now right. }
  destruct (p x) eqn:Ex; [|exact Hrest].
  simpl. constructor; [|exact Hrest].
  intros Hin. apply in_map_iff in Hin. destruct Hin as [y [Hy Hyin]].
  apply filter_In in Hyin. destruct Hyin as [Hyin Ey].
  apply Hnot.
  rewrite (Hinj x y (or_introl eq_refl) (or_intror Hyin) Ex Ey (eq_sym Hy)).
  now apply in_map.
Qed.

Lemma latest_keys_NoDup (assessments : list assessment) :
  NoDup (map (fun l => (l_enrollment_id l, l_subject_area l)) (latest assessments)).
Proof.
  unfold latest. rewrite map_map. cbn [l_enrollment_id l_subject_area].
  change (map (fun a => (a_enrollment_id a, a_subject_area a))
              (latest_assessments assessments))
    with (map enrollment_subject (latest_assessments assessments)).
  rewrite latest_one_row_per_pair.
  apply (distinct_NoDup _ same_enrollment_subject_eq).
Qed.

Lemma active_intervention_keys_NoDup (interventions : list intervention) :
  NoDup (map ai_enrollment_id (active_intervention interventions)).
Proof.
  unfold active_intervention. rewrite map_map. cbn [ai_enrollment_id].
  rewrite map_id. apply (distinct_NoDup _ not_distinct_N).
Qed.

Lemma latest_matches_enrollment (e : enrollment) (l : latest_row) :
  Sql.holds (latest_matches e l) = true ->
  l_enrollment_id l = Some (e_enrollment_id e).
Proof.
  unfold latest_matches. rewrite and3_holds, andb_true_iff. intros [H _].
  destruct (l_enrollment_id l) as [k|]; [|discriminate].
  rewrite cmp3_holds in H. apply N.eqb_eq in H. now subst.
Qed.

(** X16.  With [enrollment_id] a key of [student_enrollments] and
    [student_uuid] a key of [students_core], [v_teacher_roster] has at most
    one row for each enrollment and subject. *)
Theorem roster_one_row_per_enrollment_and_subject (today : date)
  (enrollments : list enrollment) (students : list student)
  (assessments : list assessment) (interventions : list intervention) :
  NoDup (map e_enrollment_id enrollments) ->
  NoDup (map s_student_uuid students) ->
  NoDup (map roster_key
             (v_teacher_roster today enrollments students assessments interventions)).
Proof.
  intros Hen Hst. unfold v_teacher_roster.
  assert (Hmap : forall {A B C} (g : B -> C) (f : A -> list B) (l : list A),
            map g (flat_map f l) = flat_map (fun x => map g (f x)) l).
  { intros A B C g f l. induction l as [|x l IH]; [reflexivity|].
    cbn [flat_map]. now rewrite map_app, IH. }
  rewrite Hmap.
  apply (NoDup_owned_blocks e_enrollment_id fst); [exact Hen| |].
  - intros e _.
    (* at most one student *)
    pose proof (filter_at_most_one s_student_uuid
                  (fun s => Sql.holds (student_matches e s)) students Hst) as Hone.
    assert (Hle : (List.length (filter (fun s => Sql.holds (student_matches e s))
                                       students) <= 1)%nat).
    { apply Hone. intros x y _ _ Hx Hy. unfold student_matches in Hx, Hy.
      destruct (e_student_uuid e) as [u|]; [|discriminate].
      rewrite cmp3_holds in Hx, Hy. apply N.eqb_eq in Hx, Hy. congruence. }
    destruct (filter (fun s => Sql.holds (student_matches e s)) students)
      as [|s [|s' rest]]; [constructor| |simpl in Hle; lia].
    cbn [flat_map]. rewrite app_nil_r, Hmap.
    (* exactly one active_intervention row *)
    destruct (left_join_single ai_enrollment_id active_matches e
                (active_intervention interventions)
                (active_intervention_keys_NoDup interventions)) as [ai Hai].
    { intros x y Hx Hy. unfold active_matches in Hx, Hy.
      destruct (ai_enrollment_id x) as [kx|]; [|discriminate].
      destruct (ai_enrollment_id y) as [ky|]; [|discriminate].
      rewrite cmp3_holds in Hx, Hy. apply N.eqb_eq in Hx, Hy. congruence. }
    rewrite Hai. cbn [map].
    assert (Hflat : forall (ls : list (option latest_row)),
              flat_map (fun l => [roster_key (roster_select today e s l ai)]) ls
              = map (fun l => (e_enrollment_id e, bind l l_subject_area)) ls).
    { intros ls. induction ls as [|l ls IH]; [reflexivity|].
      cbn [flat_map map]. now rewrite IH. }
    rewrite Hflat. unfold Sql.left_join.
    destruct (filter (fun b => Sql.holds (latest_matches e b)) (latest assessments))
      as [|m ms] eqn:Ef.
    + repeat constructor. intros [].
    + rewrite <- Ef, map_map. cbn [bind].
      apply (NoDup_map_filter (fun l => (l_enrollment_id l, l_subject_area l)));
        [apply latest_keys_NoDup|].
      intros x y _ _ Hx Hy Hxy.
      apply latest_matches_enrollment in Hx, Hy. inversion Hxy. congruence.
  - intros e k Hk. apply in_map_iff in Hk. destruct Hk as [r [<- Hr]].
    apply in_flat_map in Hr. destruct Hr as [s [_ Hr]].
    apply in_flat_map in Hr. destruct Hr as [l [_ Hr]].
    apply in_map_iff in Hr. destruct Hr as [ai [<- _]]. reflexivity.
Qed.

Lemma roster_one_row_per_enrollment_and_subject_witness :
  NoDup (map roster_key (roster_of (sample_db [fall_scored; winter_scored] [] []))).
Proof.
  apply (roster_one_row_per_enrollment_and_subject 20100
           [enrollment_one; enrollment_two] [student_seven; student_eight]
           [fall_scored; winter_scored] []).
  - repeat constructor; simpl; intuition discriminate.
  - repeat constructor; simpl; intuition discriminate.
Defined.

(* ------------------------------------------------------------------------- *)
(** ** Migration: the enrollment of the legacy rows *)
(* ------------------------------------------------------------------------- *)

Lemma ranks_at_least {A} (part : list A) (i n : nat) (x : A) (rn : Z) :
  In (x, rn) (combine part (map Z.of_nat (seq i n))) -> Z.of_nat i <= rn.
Proof.
  revert i n. induction part as [|a part IH]; intros i n H; [destruct H|].
  destruct n as [|n]; [destruct H|].
  cbn [seq map combine] in H. destruct H as [E|H].
  - inversion E. lia.
  - apply IH in H. lia.
Qed.

(** The row ranked 1 in a partition is the first row of the partition in the
    window order, and every partition has one. *)
Lemma row_number_first {K A} (same : K -> K -> bool) (key : A -> K)
  (cmp : A -> A -> comparison) (rows : list A) :
  (forall a b, same a b = true <-> a = b) ->
  forall x, In (x, 1) (Sql.row_number same key cmp rows) <->
            exists rest, Sql.order_by cmp (Sql.group same key (key x) rows) = x :: rest.
Proof.
  intros same_eq x. unfold Sql.row_number. rewrite in_flat_map. split.
  - intros [k [Hk Hin]]. cbv zeta in Hin.
    assert (Hx : key x = k).
    { apply in_combine_l in Hin. apply (proj1 (order_by_In cmp _ _)) in Hin.
      apply (proj1 (group_In _ same_eq _ _ _ _)) in Hin. tauto. }
    rewrite Hx.
    destruct (Sql.order_by cmp (Sql.group same key k rows)) as [|h t];
      [destruct Hin|].
    cbn [List.length seq map combine] in Hin. destruct Hin as [E|Hin].
    + inversion E. subst. now exists t.
    + apply ranks_at_least in Hin. lia.
  - intros [rest E]. exists (key x). split.
    + apply (proj2 (distinct_In _ same_eq _ _)). apply in_map.
      assert (Hx : In x (Sql.group same key (key x) rows)).
      { apply (proj1 (order_by_In cmp _ _)). rewrite E. now left. }
      apply (proj1 (group_In _ same_eq _ _ _ _)) in Hx. tauto.
    + cbv zeta. rewrite E. cbn [List.length seq map combine]. now left.
Qed.

Section BackfillFacts.
Variable text_compare : text -> text -> comparison.

Variable rows : list workflow_row.
Variable id_map : list id_map_row.
Variable enrollments : list enrollment.

Lemma backfill_join_In (i : workflow_row) (e : enrollment) :
  In (i, e) (backfill_join rows id_map enrollments) <->
  In i rows /\ w_enrollment_id i = None
  /\ enrollment_of_student id_map enrollments i e.
Proof.
  unfold backfill_join, enrollment_of_student.
  rewrite filter_In, in_flat_map. cbn [fst]. split.
  - intros [[i2 [Hi2 H]] Hnull].
    apply in_flat_map in H. destruct H as [m [Hm H]].
    apply in_map_iff in H. destruct H as [e' [E He']]. inversion E; subst i2 e'.
    apply filter_In in Hm. destruct Hm as [Hm Hleg].
    apply filter_In in He'. destruct He' as [He' Hu].
    split; [exact Hi2|]. split.
    + destruct (w_enrollment_id i); [discriminate|reflexivity].
    + split; [exact He'|].
      destruct (m_legacy_student_id m) as [s|] eqn:El; [|discriminate].
      rewrite cmp3_holds in Hleg. apply Z.eqb_eq in Hleg. subst s.
      destruct (e_student_uuid e) as [u|] eqn:Eu; [|discriminate].
      destruct (m_student_uuid m) as [u'|] eqn:Eu'; [|discriminate].
      rewrite cmp3_holds in Hu. apply N.eqb_eq in Hu. subst u'.
      exists m, u. repeat split; auto.
  - intros [Hi [Hnull [He [m [u [Hm [Hleg [Hmu Heu]]]]]]]]. split.
    + exists i. split; [exact Hi|]. apply in_flat_map. exists m. split.
      * apply filter_In. split; [exact Hm|].
        rewrite Hleg, cmp3_holds. apply Z.eqb_refl.
      * apply in_map. apply filter_In. split; [exact He|].
        rewrite Heu, Hmu, cmp3_holds. apply N.eqb_refl.
    + now rewrite Hnull.
Qed.

Lemma backfill_matches_holds (i : workflow_row)
  (sub : (workflow_row * enrollment) * Z) :
  Sql.holds (backfill_matches i sub) = true <->
  w_id (fst (fst sub)) = w_id i /\ snd sub = 1 /\ w_enrollment_id i = None.
Proof.
  unfold backfill_matches.
  rewrite !and3_holds, !andb_true_iff, !holds_some, !Z.eqb_eq.
  destruct (w_enrollment_id i); simpl; intuition congruence.
Qed.

(** What the UPDATE does to one row: nothing, or it gives the row the
    enrollment of the first row of its partition of the sub-select. *)
Lemma backfill_row_cases (i : workflow_row) :
  (backfill_row text_compare rows id_map enrollments i = i
   /\ (w_enrollment_id i = None ->
       forall i3 e', In (i3, e') (backfill_join rows id_map enrollments) ->
                     w_id i3 <> w_id i))
  \/ (exists i2 e rest,
        w_enrollment_id i = None /\ w_id i2 = w_id i
        /\ Sql.order_by (by_school_year_desc text_compare)
             (Sql.group Z.eqb (fun p => w_id (fst p)) (w_id i2)
                        (backfill_join rows id_map enrollments))
           = (i2, e) :: rest
        /\ backfill_row text_compare rows id_map enrollments i
           = with_enrollment_id (Some (e_enrollment_id e)) i).
Proof.
  unfold backfill_row.
  destruct (filter (fun sub => Sql.holds (backfill_matches i sub))
                   (backfill_candidates text_compare rows id_map enrollments))
    as [|sub subs] eqn:Ef.
  - left. split; [reflexivity|]. intros Hnull i3 e' Hin Hid.
    assert (Hg : In (i3, e')
                   (Sql.group Z.eqb (fun p => w_id (fst p)) (w_id (fst (i3, e')))
                              (backfill_join rows id_map enrollments)))
      by (apply (proj2 (group_In _ Z.eqb_eq _ _ _ _)); auto).
    apply (proj2 (order_by_In (by_school_year_desc text_compare) _ _)) in Hg.
    destruct (Sql.order_by (by_school_year_desc text_compare)
                (Sql.group Z.eqb (fun p => w_id (fst p)) (w_id (fst (i3, e')))
                           (backfill_join rows id_map enrollments)))
      as [|h t] eqn:Eo; [destruct Hg|].
    assert (Hh : In h (Sql.group Z.eqb (fun p => w_id (fst p)) (w_id (fst (i3, e')))
                                 (backfill_join rows id_map enrollments))).
    { apply (proj1 (order_by_In (by_school_year_desc text_compare) _ _)).
      rewrite Eo. now left. }
    apply (proj1 (group_In _ Z.eqb_eq _ _ _ _)) in Hh. destruct Hh as [_ Hkey].
    assert (H1 : In (h, 1) (backfill_candidates text_compare rows id_map enrollments)).
    { apply (row_number_first _ _ _ _ Z.eqb_eq). exists t.
      cbn beta. rewrite Hkey. exact Eo. }
    assert (Hm : In (h, 1)
                   (filter (fun sub => Sql.holds (backfill_matches i sub))
                      (backfill_candidates text_compare rows id_map enrollments))).
    { apply filter_In. split; [exact H1|].
      apply backfill_matches_holds. cbn [fst snd] in *. repeat split; congruence. }
    rewrite Ef in Hm. destruct Hm.
  - right.
    assert (Hsub : In sub (filter (fun sub => Sql.holds (backfill_matches i sub))
                     (backfill_candidates text_compare rows id_map enrollments)))
      by (rewrite Ef; now left).
    apply filter_In in Hsub. destruct Hsub as [Hsub Hm].
    apply backfill_matches_holds in Hm. destruct Hm as [Hid [Hrn Hnull]].
    destruct sub as [[i2 e] rn]. cbn [fst snd] in *. subst rn.
    apply (row_number_first _ _ _ _ Z.eqb_eq) in Hsub. destruct Hsub as [rest Eo].
    cbn [fst] in Eo.
    exists i2, e, rest. auto.
Qed.

Lemma backfill_row_keeps_key (i : workflow_row) :
  w_id (backfill_row text_compare rows id_map enrollments i) = w_id i
  /\ w_student_id (backfill_row text_compare rows id_map enrollments i)
     = w_student_id i
  /\ (w_enrollment_id i <> None ->
      backfill_row text_compare rows id_map enrollments i = i).
Proof.
  destruct (backfill_row_cases i) as [[E _]|[i2 [e [rest [Hnull [_ [_ E]]]]]]];
    rewrite E; repeat split; try reflexivity. congruence.
Qed.

(** A row is left without enrollment exactly when it had none and the
    sub-select has no row for it. *)
Lemma backfill_row_none (i : workflow_row) :
  w_enrollment_id (backfill_row text_compare rows id_map enrollments i) = None <->
  w_enrollment_id i = None
  /\ forall i3 e', In (i3, e') (backfill_join rows id_map enrollments) ->
                   w_id i3 <> w_id i.
Proof.
  destruct (backfill_row_cases i) as [[E Hno]|[i2 [e [rest [Hnull [Hid [Eo E]]]]]]];
    rewrite E.
  - split; [intros Hn; split; [exact Hn|now apply Hno]|tauto].
  - cbn [with_enrollment_id w_enrollment_id]. split; [discriminate|].
    intros [_ Hno]. exfalso. apply (Hno i2 e); [|exact Hid].
    assert (Hin : In (i2, e) (Sql.group Z.eqb (fun p => w_id (fst p)) (w_id i2)
                                (backfill_join rows id_map enrollments))).
    { apply (proj1 (order_by_In (by_school_year_desc text_compare) _ _)).
      rewrite Eo. now left. }
    apply (proj1 (group_In _ Z.eqb_eq _ _ _ _)) in Hin. tauto.
Qed.

Hypothesis text_compare_antisym :
  forall x y, text_compare x y = CompOpp (text_compare y x).
Hypothesis text_compare_trans :
  forall x y z, text_compare x y <> Gt -> text_compare y z <> Gt ->
                text_compare x z <> Gt.

Lemma by_school_year_antisym (p q : workflow_row * enrollment) :
  by_school_year_desc text_compare p q
  = CompOpp (by_school_year_desc text_compare q p).
Proof.
  unfold by_school_year_desc, text_desc_nulls_last.
  destruct (e_school_year (snd p)), (e_school_year (snd q)); try reflexivity.
  apply text_compare_antisym.
Qed.

Lemma by_school_year_trans (p q r : workflow_row * enrollment) :
  not_after (by_school_year_desc text_compare) p q ->
  not_after (by_school_year_desc text_compare) q r ->
  not_after (by_school_year_desc text_compare) p r.
Proof.
  unfold not_after, by_school_year_desc, text_desc_nulls_last.
  destruct (e_school_year (snd p)), (e_school_year (snd q)),
           (e_school_year (snd r)); try congruence.
  intros H1 H2. now apply text_compare_trans with t0.
Qed.

(** The enrollment a row takes is that of a first row of its partition: no
    row of the partition has a later school year. *)
Lemma backfill_row_latest (i : workflow_row) (x : uuid) :
  w_enrollment_id i = None ->
  w_enrollment_id (backfill_row text_compare rows id_map enrollments i) = Some x ->
  exists i2 e, In (i2, e) (backfill_join rows id_map enrollments)
    /\ w_id i2 = w_id i /\ x = e_enrollment_id e
    /\ forall i3 e', In (i3, e') (backfill_join rows id_map enrollments) ->
                     w_id i3 = w_id i ->
                     text_desc_nulls_last text_compare
                       (e_school_year e) (e_school_year e') <> Gt.
Proof.
  intros Hnull Hx.
  destruct (backfill_row_cases i) as [[E _]|[i2 [e [rest [_ [Hid [Eo E]]]]]]];
    rewrite E in Hx; [congruence|].
  cbn [with_enrollment_id w_enrollment_id] in Hx. inversion Hx; subst x.
  assert (Hin : In (i2, e) (Sql.group Z.eqb (fun p => w_id (fst p)) (w_id i2)
                              (backfill_join rows id_map enrollments))).
  { apply (proj1 (order_by_In (by_school_year_desc text_compare) _ _)).
    rewrite Eo. now left. }
  apply (proj1 (group_In _ Z.eqb_eq _ _ _ _)) in Hin. destruct Hin as [Hin _].
  exists i2, e. repeat split; auto.
  intros i3 e' Hin3 Hid3.
  apply (order_by_first _ by_school_year_antisym by_school_year_trans _ _ _ Eo
           (i3, e')).
  apply (proj2 (group_In _ Z.eqb_eq _ _ _ _)). cbn [fst].
  split; [exact Hin3|congruence].
Qed.
End BackfillFacts.

Lemma byte_order_antisym (x y : text) :
  byte_order x y = CompOpp (byte_order y x).
Proof.
  unfold byte_order.
  pose proof (@StrictOrder_Irreflexive _ _ OrdersEx.String_as_OT.lt_strorder) as irr.
  pose proof (@StrictOrder_Transitive _ _ OrdersEx.String_as_OT.lt_strorder) as tr.
  destruct (OrdersEx.String_as_OT.compare_spec x y) as [E|L|L],
           (OrdersEx.String_as_OT.compare_spec y x) as [E'|L'|L'];
    simpl; try reflexivity; exfalso;
    try (unfold OrdersEx.String_as_OT.eq in *; subst);
    solve [ eapply irr; eassumption
          | eapply irr; eapply tr; eassumption ].
Qed.

Lemma byte_order_trans (x y z : text) :
  byte_order x y <> Gt -> byte_order y z <> Gt -> byte_order x z <> Gt.
Proof.
  unfold byte_order.
  pose proof (@StrictOrder_Irreflexive _ _ OrdersEx.String_as_OT.lt_strorder) as irr.
  pose proof (@StrictOrder_Transitive _ _ OrdersEx.String_as_OT.lt_strorder) as tr.
  destruct (OrdersEx.String_as_OT.compare_spec x y) as [E|L|L],
           (OrdersEx.String_as_OT.compare_spec y z) as [E'|L'|L'],
           (OrdersEx.String_as_OT.compare_spec x z) as [E2|L2|L2];
    intros H1 H2 H3; try congruence; exfalso;
    try (unfold OrdersEx.String_as_OT.eq in *; subst);
    solve [ eapply irr; eassumption
          | eapply irr; eapply tr; eassumption
          | eapply irr; eapply tr; [eassumption|]; eapply tr; eassumption ].
Qed.

Lemma NoDup_map_injective {A K} (f : A -> K) (l : list A) (x y : A) :
  NoDup (map f l) -> In x l -> In y l -> f x = f y -> x = y.
Proof.
  induction l as [|a l IH]; intros Hnd Hx Hy E; [destruct Hx|].
  inversion Hnd as [|? ? Hnot Hnd']; subst.
  destruct Hx as [->|Hx], Hy as [->|Hy]; auto.
  - exfalso. apply Hnot. rewrite E. now apply in_map.
  - exfalso. apply Hnot. rewrite <- E. now apply in_map.
Qed.

(** X17.  The enrollment backfill of section 1.1 keeps every row, its key and
    its legacy student_id, and leaves a row that has an enrollment as it
    is.  With the row key unique, a row without enrollment gets the
    enrollment of its own student (through [student_id_map]) whose school
    year is latest in the collation order, NULL years last; it stays
    without enrollment exactly when its student has no enrollment. *)
Theorem backfill_gives_the_latest_enrollment
  (text_compare : text -> text -> comparison)
  (rows : list workflow_row) (id_map : list id_map_row)
  (enrollments : list enrollment) :
  (forall x y, text_compare x y = CompOpp (text_compare y x)) ->
  (forall x y z, text_compare x y <> Gt -> text_compare y z <> Gt ->
                 text_compare x z <> Gt) ->
  NoDup (map w_id rows) ->
  map w_id (backfill_enrollment_id text_compare rows id_map enrollments)
    = map w_id rows
  /\ map w_student_id (backfill_enrollment_id text_compare rows id_map enrollments)
     = map w_student_id rows
  /\ forall i, In i rows ->
       (w_enrollment_id i <> None ->
        backfill_row text_compare rows id_map enrollments i = i)
       /\ (w_enrollment_id i = None ->
           match w_enrollment_id
                   (backfill_row text_compare rows id_map enrollments i) with
           | Some x =>
               exists e, enrollment_of_student id_map enrollments i e
                 /\ x = e_enrollment_id e
                 /\ forall e', enrollment_of_student id_map enrollments i e' ->
                               text_desc_nulls_last text_compare
                                 (e_school_year e) (e_school_year e') <> Gt
           | None => forall e, ~ enrollment_of_student id_map enrollments i e
           end).
Proof.
  intros Hanti Htrans Hnd. unfold backfill_enrollment_id.
  split; [|split].
  - rewrite map_map. apply map_ext. intros i.
    apply (backfill_row_keeps_key text_compare rows id_map enrollments i).
  - rewrite map_map. apply map_ext. intros i.
    apply (backfill_row_keeps_key text_compare rows id_map enrollments i).
  - intros i Hi. split.
    + apply (backfill_row_keeps_key text_compare rows id_map enrollments i).
    + intros Hnull.
      destruct (w_enrollment_id (backfill_row text_compare rows id_map enrollments i))
        as [x|] eqn:Ex.
      * destruct (backfill_row_latest text_compare rows id_map enrollments
                    Hanti Htrans i x Hnull Ex) as [i2 [e [Hin [Hid [Hx Hfirst]]]]].
        pose proof Hin as Hin'.
        apply backfill_join_In in Hin'. destruct Hin' as [Hi2 [_ He]].
        assert (E : i2 = i) by (apply (NoDup_map_injective w_id rows); auto).
        subst i2. exists e. split; [exact He|]. split; [exact Hx|].
        intros e' He'. apply (Hfirst i e'); [|reflexivity].
        apply backfill_join_In. auto.
      * apply backfill_row_none in Ex. destruct Ex as [_ Hno].
        intros e He. apply (Hno i e); [|reflexivity].
        apply backfill_join_In. auto.
Qed.

Lemma backfill_gives_the_latest_enrollment_witness :
  map w_id (backfill_enrollment_id byte_order [legacy_note]
              [mk_id_map (Some 501) (Some 7%N)]
              [enrollment_one_last_year; enrollment_one])
  = map w_id [legacy_note].
Proof.
  apply (backfill_gives_the_latest_enrollment byte_order [legacy_note]
           [mk_id_map (Some 501) (Some 7%N)]
           [enrollment_one_last_year; enrollment_one]
           byte_order_antisym byte_order_trans).
  repeat constructor. intros [].
Defined.

Lemma map_fixed {A} (f : A -> A) (l : list A) :
  (forall x, In x l -> f x = x) -> map f l = l.
Proof.
  induction l as [|x l IH]; intros H; [reflexivity|].
  simpl. rewrite (H x (or_introl eq_refl)). f_equal.
  apply IH. intros; apply H; now right.
Qed.

(** X18.  The enrollment backfill is idempotent: run on its own result it
    changes no row. *)
Theorem backfill_enrollment_is_idempotent
  (text_compare : text -> text -> comparison)
  (rows : list workflow_row) (id_map : list id_map_row)
  (enrollments : list enrollment) :
  backfill_enrollment_id text_compare
    (backfill_enrollment_id text_compare rows id_map enrollments)
    id_map enrollments
  = backfill_enrollment_id text_compare rows id_map enrollments.
Proof.
  set (rows' := backfill_enrollment_id text_compare rows id_map enrollments).
  unfold backfill_enrollment_id at 1. apply map_fixed. intros i' Hi'.
  destruct (backfill_row_cases text_compare rows' id_map enrollments i')
    as [[E _]|[i2 [e [rest [Hnull [Hid [Eo _]]]]]]]; [exact E|].
  exfalso.
  (* the row had no enrollment before either, and nothing to take *)
  unfold rows', backfill_enrollment_id in Hi'. apply in_map_iff in Hi'.
  destruct Hi' as [i [Ei Hi]]. rewrite <- Ei in Hnull.
  apply backfill_row_none in Hnull. destruct Hnull as [Hnull Hno].
  assert (Hin : In (i2, e) (Sql.group Z.eqb (fun p => w_id (fst p)) (w_id i2)
                              (backfill_join rows' id_map enrollments))).
  { apply (proj1 (order_by_In (by_school_year_desc text_compare) _ _)).
    rewrite Eo. now left. }
  apply (proj1 (group_In _ Z.eqb_eq _ _ _ _)) in Hin. destruct Hin as [Hin _].
  apply backfill_join_In in Hin. destruct Hin as [Hi2 [Hnull2 He]].
  unfold rows', backfill_enrollment_id in Hi2. apply in_map_iff in Hi2.
  destruct Hi2 as [i0 [Ei0 Hi0]]. rewrite <- Ei0 in Hnull2.
  pose proof Hnull2 as Hn0. apply backfill_row_none in Hn0.
  destruct Hn0 as [Hnull0 _].
  destruct (backfill_row_cases text_compare rows id_map enrollments i0)
    as [[E0 _]|[? [e0 [? [_ [_ [_ E0]]]]]]];
    [|rewrite E0 in Hnull2; discriminate].
  rewrite E0 in Ei0. subst i2.
  apply (Hno i0 e).
  - apply backfill_join_In. auto.
  - rewrite Hid, <- Ei.
    apply (proj1 (backfill_row_keeps_key text_compare rows id_map enrollments i)).
Qed.

(* ------------------------------------------------------------------------- *)
(** ** Where a roster row takes its assessment from *)
(* ------------------------------------------------------------------------- *)

(** X19.  A roster row either carries no assessment at all (subject, score,
    date, period, type and days are all NULL) or carries the columns of one
    assessment of its enrollment whose school year is the enrollment's and
    which is at least as recent as every assessment of the same enrollment
    and subject, of whatever school year; days_since_assessment is then
    today minus its effective date. *)
Theorem roster_row_shows_the_newest_assessment (today : date)
  (enrollments : list enrollment) (students : list student)
  (assessments : list assessment) (interventions : list intervention)
  (r : roster_row) :
  In r (v_teacher_roster today enrollments students assessments interventions) ->
  (r_subject_area r = None /\ r_latest_score r = None /\ r_latest_date r = None
   /\ r_latest_period r = None /\ r_latest_type r = None
   /\ r_days_since_assessment r = None)
  \/ (exists a, In a assessments
        /\ a_enrollment_id a = Some (r_enrollment_id r)
        /\ r_school_year r = Some (a_school_year a)
        /\ r_subject_area r = a_subject_area a
        /\ r_latest_score r = a_score_normalized a
        /\ r_latest_date r = a_effective_date a
        /\ r_latest_period r = Some (a_assessment_period a)
        /\ r_latest_type r = Some (a_assessment_type a)
        /\ r_days_since_assessment r
           = option_map (fun d => today - d) (a_effective_date a)
        /\ forall b, In b assessments ->
                     a_enrollment_id b = a_enrollment_id a ->
                     a_subject_area b = a_subject_area a ->
                     at_least_as_recent a b).
Proof.
  intros Hr. apply roster_In in Hr.
  destruct Hr as [e [s [l [ai [_ [_ [_ [Hl [_ ->]]]]]]]]].
  apply left_join_In in Hl. destruct Hl as [[-> _]|[row [-> [Hrow Hon]]]].
  - left. repeat split.
  - right. unfold latest in Hrow. apply in_map_iff in Hrow.
    destruct Hrow as [a [<- Ha]].
    apply latest_is_newest_row in Ha. destruct Ha as [Hin [Hnn Hnew]].
    unfold latest_matches in Hon. rewrite and3_holds, andb_true_iff in Hon.
    cbn [l_enrollment_id l_school_year] in Hon. destruct Hon as [Hid Hyear].
    destruct (a_enrollment_id a) as [k|] eqn:Ek; [|discriminate].
    rewrite cmp3_holds in Hid. apply N.eqb_eq in Hid. subst k.
    destruct (e_school_year e) as [y|] eqn:Ey; [|discriminate].
    rewrite cmp3_holds in Hyear. apply String.eqb_eq in Hyear. subst y.
    exists a. cbn [roster_select r_enrollment_id r_school_year r_subject_area
                   r_latest_score r_latest_date r_latest_period r_latest_type
                   r_days_since_assessment bind option_map
                   l_subject_area l_latest_score l_latest_date l_latest_period
                   l_latest_type].
    split; [exact Hin|]. split; [exact Ek|]. split; [exact Ey|].
    repeat (split; [reflexivity|]).
    intros b Hb Hbe Hbs. apply Hnew; [exact Hb|rewrite Hbe, Ek; discriminate|].
    unfold enrollment_subject. congruence.
Qed.

Lemma roster_row_shows_the_newest_assessment_witness :
  (r_subject_area
     (roster_select 20100 enrollment_two student_eight None None) = None
   /\ r_latest_score
        (roster_select 20100 enrollment_two student_eight None None) = None
   /\ r_latest_date
        (roster_select 20100 enrollment_two student_eight None None) = None
   /\ r_latest_period
        (roster_select 20100 enrollment_two student_eight None None) = None
   /\ r_latest_type
        (roster_select 20100 enrollment_two student_eight None None) = None
   /\ r_days_since_assessment
        (roster_select 20100 enrollment_two student_eight None None) = None)
  \/ (exists a, In a [winter_scored]
        /\ a_enrollment_id a
           = Some (r_enrollment_id
                     (roster_select 20100 enrollment_two student_eight None None))
        /\ r_school_year
             (roster_select 20100 enrollment_two student_eight None None)
           = Some (a_school_year a)
        /\ r_subject_area
             (roster_select 20100 enrollment_two student_eight None None)
           = a_subject_area a
        /\ r_latest_score
             (roster_select 20100 enrollment_two student_eight None None)
           = a_score_normalized a
        /\ r_latest_date
             (roster_select 20100 enrollment_two student_eight None None)
           = a_effective_date a
        /\ r_latest_period
             (roster_select 20100 enrollment_two student_eight None None)
           = Some (a_assessment_period a)
        /\ r_latest_type
             (roster_select 20100 enrollment_two student_eight None None)
           = Some (a_assessment_type a)
        /\ r_days_since_assessment
             (roster_select 20100 enrollment_two student_eight None None)
           = option_map (fun d => 20100 - d) (a_effective_date a)
        /\ forall b, In b [winter_scored] ->
                     a_enrollment_id b = a_enrollment_id a ->
                     a_subject_area b = a_subject_area a ->
                     at_least_as_recent a b).
Proof.
  apply (roster_row_shows_the_newest_assessment 20100
           [enrollment_one; enrollment_two] [student_seven; student_eight]
           [winter_scored] []).
  vm_compute. right. left. reflexivity.
Defined.

(* ------------------------------------------------------------------------- *)
(** ** The dashboard components *)
(* ------------------------------------------------------------------------- *)

Lemma tier_unknown_iff_no_score (roster : list roster_row)
  (thresholds : list benchmark_threshold_row) (ss : support_row) :
  In ss (v_support_status roster thresholds) ->
  (ss_tier ss = Tier_Unknown <-> ss_latest_score ss = None).
Proof.
  intros H. apply support_In in H. destruct H as [r [t [_ [_ ->]]]].
  cbn [support_select ss_tier ss_latest_score].
  generalize (bind t t_support_threshold) (bind t t_benchmark_threshold).
  intros st bt. unfold tier_case.
  destruct (r_latest_score r) as [s|], st as [st|], bt as [bt|]; simpl;
    repeat match goal with
           | |- context [Qltb ?x ?y] => destruct (Qltb x y)
           end;
    simpl; split; intros; try discriminate; try congruence; reflexivity.
Qed.

(** X20.  The badge the overview draws for a row of the priority view reads
    "Not assessed" exactly when the row has no latest score; otherwise it
    reads the display name of the row's tier, which begins with the tier the
    view wrote; and its colours are always those of the tier's own name in
    lower case. *)
Theorem badge_of_a_priority_row (roster : list roster_row)
  (thresholds : list benchmark_threshold_row) (growth : list growth_row)
  (p : priority_row) :
  In p (v_priority_students (v_support_status roster thresholds) growth) ->
  let b := priority_badge (Some (tier_label (pr_tier p))) in
  (badge_label b = "Not assessed" <-> pr_latest_score p = None)
  /\ (pr_latest_score p <> None ->
      badge_label b = tierToDisplayTier (Some (tier_label (pr_tier p)))
      /\ String.prefix (tier_label (pr_tier p)) (badge_label b) = true)
  /\ badge_key b = Js.Own (Sql.lower (tier_label (pr_tier p))).
Proof.
  intros H. apply priority_In in H. destruct H as [ss [g [Hss [_ ->]]]].
  apply tier_unknown_iff_no_score in Hss.
  cbn [priority_select pr_tier pr_latest_score].
  destruct Hss as [H1 H2].
  destruct (ss_tier ss) eqn:Et; destruct (ss_latest_score ss) as [s|] eqn:Es;
    try (specialize (H1 eq_refl); discriminate H1);
    try (specialize (H2 eq_refl); discriminate H2);
    vm_compute; repeat split; intros; try discriminate; try congruence.
Qed.

Lemma badge_of_a_priority_row_witness :
  badge_label (priority_badge (Some (tier_label Tier_Unknown))) = "Not assessed"
  <-> @None Q = None.
Proof.
  apply (badge_of_a_priority_row
           [roster_select 20100 enrollment_two student_eight None None] [] []
           (priority_select
              (support_select
                 (roster_select 20100 enrollment_two student_eight None None)
                 None) None)).
  left. reflexivity.
Defined.

Lemma or_text_nonempty (a : option string) (d : string) :
  d <> "" -> Js.or_text a d <> "".
Proof. destruct a as [[|c r]|]; simpl; intros; congruence. Qed.

Lemma or_text_truthy (a : option string) (d : string) :
  Js.truthy a = true -> Some (Js.or_text a d) = a.
Proof. destruct a as [[|c r]|]; simpl; intros; congruence. Qed.

(** X21.  [tierToDisplayTier] never returns an empty text and applying it
    twice changes nothing.  [RiskBadge] never draws an empty label; asked to
    show "Not assessed" it never draws "Unknown"; a tier, when there is one,
    hides the risk; and with neither tier nor risk the key is "unknown" and
    the label is "Not assessed" or a dash. *)
Theorem badge_label_is_never_blank (risk tier : option string)
  (showNotAssessed : bool) :
  let b := RiskBadge risk tier showNotAssessed in
  tierToDisplayTier tier <> ""
  /\ tierToDisplayTier (Some (tierToDisplayTier tier)) = tierToDisplayTier tier
  /\ badge_label b <> ""
  /\ (showNotAssessed = true -> badge_label b <> "Unknown")
  /\ (Js.truthy tier = true -> b = RiskBadge None tier showNotAssessed)
  /\ (Js.truthy tier = false -> Js.truthy risk = false ->
      badge_key b = Js.Own "unknown"
      /\ badge_label b = if showNotAssessed then "Not assessed" else "—").
Proof.
  cbv zeta. repeat split.
  - unfold tierToDisplayTier.
    repeat match goal with
           | |- context [if ?c then _ else _] => destruct c
           end; try discriminate.
    apply or_text_nonempty. discriminate.
  - unfold tierToDisplayTier, Js.equals.
    destruct tier as [s|]; [|reflexivity].
    destruct (String.eqb_spec s "Core"); [reflexivity|].
    destruct (String.eqb_spec s "Strategic"); [reflexivity|].
    destruct (String.eqb_spec s "Intensive"); [reflexivity|].
    destruct s as [|c r]; [reflexivity|]. simpl Js.or_text.
    repeat match goal with
           | H : ?x <> ?y |- _ =>
               apply String.eqb_neq in H; rewrite H; clear H
           end.
    reflexivity.
  - unfold RiskBadge. cbn [badge_label].
    destruct (showNotAssessed && _); [discriminate|].
    apply or_text_nonempty. discriminate.
  - intros ->. unfold RiskBadge. cbn [badge_label andb].
    destruct (Js.or tier risk) as [[|c r]|] eqn:E;
      cbn [Js.truthy negb orb Js.equals Js.or_text]; try discriminate.
    destruct (String.eqb_spec (String c r) "Unknown") as [He|He];
      [discriminate|exact He].
  - intros Ht. unfold RiskBadge, Js.or. rewrite Ht. reflexivity.
  - unfold RiskBadge, Js.or. rewrite H, H0.
    destruct risk as [[|c r]|]; try discriminate H0;
      destruct showNotAssessed; reflexivity.
  - unfold RiskBadge, Js.or. rewrite H, H0.
    destruct risk as [[|c r]|]; try discriminate H0;
      destruct showNotAssessed; reflexivity.
Qed.

Lemma badge_label_is_never_blank_witness :
  badge_key (RiskBadge (Some "") None true) = Js.Own "unknown"
  /\ badge_label (RiskBadge (Some "") None true) = "Not assessed".
Proof.
  apply (badge_label_is_never_blank (Some "") None true); reflexivity.
Defined.

Lemma trend_chip_cases (t : option string) :
  (exists c, In (t, c) [ (Some "Improving", mk_chip (Some "↑") (Some "Improving") "#E6F2EC" "#1E6B43");
                 (Some "Declining", mk_chip (Some "↓") (Some "Declining") "#FCE8E8" "#9B1C1C");
                 (Some "Stable", mk_chip (Some "→") (Some "Stable") "#E6F2EC" "#1E6B43") ]
      /\ TrendChip t = Some c)
  \/ ((exists name, t = Some name /\ In name Js.object_prototype)
      /\ TrendChip t = Some proto_chip)
  \/ ((forall name, In name ["Improving"; "Declining"; "Stable"] -> t <> Some name)
      /\ (forall name, In name Js.object_prototype -> t <> Some name)
      /\ TrendChip t = Some unknown_chip).
Proof.
  destruct t as [s|].
  2:{ right. right. repeat split; try discriminate. }
  destruct (String.eqb_spec "Improving" s) as [<-|H1].
  { left. eexists. split; [left; reflexivity|reflexivity]. }
  destruct (String.eqb_spec "Declining" s) as [<-|H2].
  { left. eexists. split; [right; left; reflexivity|reflexivity]. }
  destruct (String.eqb_spec "Stable" s) as [<-|H3].
  { left. eexists. split; [right; right; left; reflexivity|reflexivity]. }
  assert (Hnames : forall name, In name ["Improving"; "Declining"; "Stable"] ->
                                Some s <> Some name).
  { intros name Hn E. injection E as ->. simpl in Hn. intuition congruence. }
  destruct (String.eqb_spec "Unknown" s) as [<-|H4].
  { right. right. split; [exact Hnames|]. split; [|reflexivity].
    intros name Hn E. injection E as <-. simpl in Hn.
    intuition discriminate. }
  assert (Hown : Js.own TREND_CONFIG s = None).
  { unfold TREND_CONFIG, Js.own.
    apply String.eqb_neq in H1, H2, H3, H4. rewrite H1, H2, H3, H4. reflexivity. }
  unfold TrendChip, Js.get. cbn [Js.nullish]. rewrite Hown.
  destruct (existsb (String.eqb s) Js.object_prototype) eqn:Ex.
  - assert (Hs : In s Js.object_prototype).
    { apply existsb_exists in Ex. destruct Ex as [x [Hx Hex]].
      apply String.eqb_eq in Hex. subst x. exact Hx. }
    right. left. split; [exists s; split; [reflexivity|exact Hs]|].
    assert (Ht : Js.truthy (Some s) = true).
    { destruct s; [|reflexivity]. simpl in Hs. intuition discriminate. }
    rewrite Ht. cbn [andb]. rewrite Hown, Ex. reflexivity.
  - right. right. split; [exact Hnames|]. split.
    + intros name Hn E. injection E as <-.
      assert (existsb (String.eqb s) Js.object_prototype = true).
      { apply existsb_exists. exists s. split; [exact Hn|apply String.eqb_refl]. }
      congruence.
    + rewrite Bool.andb_false_r. reflexivity.
Qed.

(** X22.  [TrendChip] (the version that picks its colours in [getColors])
    never fails.  Its label is the trend itself for
    Improving, Declining and Stable; it is undefined exactly for a trend that
    names a member of [Object.prototype]; for everything else (no trend, the
    empty text, "No Data", any other word) it is "Unknown".  Only Declining
    is drawn on the red background.  For the trends the view can write, the
    label is therefore never undefined, and "No Data" and NULL both show as
    "Unknown". *)
Theorem trend_chip_labels (t : option string) :
  exists c,
    TrendChip t = Some c
    /\ (forall name, In name ["Improving"; "Declining"; "Stable"] ->
        (chip_label c = Some name <-> t = Some name))
    /\ (chip_label c = None <->
        exists name, t = Some name /\ In name Js.object_prototype)
    /\ (chip_label c <> None ->
        (forall name, In name ["Improving"; "Declining"; "Stable"] ->
                      t <> Some name) ->
        chip_label c = Some "Unknown")
    /\ (chip_backgroundColor c = "#FCE8E8" <-> t = Some "Declining")
    /\ (forall tr : option trend,
          t = option_map trend_label tr ->
          chip_label c
          = Some (match tr with
                  | Some Improving => "Improving"
                  | Some Declining => "Declining"
                  | Some Stable => "Stable"
                  | Some No_Data | None => "Unknown"
                  end)).
Proof.
  assert (Hproto : forall name, In name Js.object_prototype ->
            ~ In name ["Improving"; "Declining"; "Stable"; "No Data"]).
  { intros name Hn Hc. simpl in Hn, Hc.
    repeat match goal with
           | H : _ \/ _ |- _ => destruct H
           | H : False |- _ => destruct H
           end; subst; discriminate. }
  destruct (trend_chip_cases t)
    as [[c [Hin ->]]|[[[name [-> Hn]] ->]|[Hnames [Hnot ->]]]].
  - exists c. split; [reflexivity|].
    simpl in Hin.
    destruct Hin as [E|[E|[E|[]]]]; injection E as <- <-;
      cbn [chip_label chip_backgroundColor].
    all: split; [intros name Hn; simpl in Hn;
                 split; intros E; [congruence|];
                 injection E as <-; reflexivity|].
    all: split; [split; [discriminate|];
                 intros [name [E Hn]]; injection E as <-;
                 apply Hproto in Hn; simpl in Hn; tauto|].
    all: split; [intros _ Hn; exfalso; eapply Hn; [|reflexivity];
                 simpl; tauto|].
    all: split; [split; intros E; try discriminate E; reflexivity|].
    all: intros [[]|] E; try discriminate E; reflexivity.
  - exists proto_chip. split; [reflexivity|].
    cbn [chip_label chip_backgroundColor proto_chip].
    pose proof (Hproto _ Hn) as Hp. simpl in Hp.
    split; [intros n Hin; split; [discriminate|];
            intros E; injection E as ->; simpl in Hin; tauto|].
    split; [split; [intros _; exists name; auto|reflexivity]|].
    split; [intros H; exfalso; apply H; reflexivity|].
    split; [split; [discriminate|]; intros E; injection E as ->; tauto|].
    intros [[]|] E; try discriminate E; injection E as ->; tauto.
  - exists unknown_chip. split; [reflexivity|].
    cbn [chip_label chip_backgroundColor unknown_chip].
    split; [intros n Hin; split; [intros E; injection E as <-;
                                  simpl in Hin; intuition discriminate|];
            intros E; exfalso; exact (Hnames _ Hin E)|].
    split; [split; [discriminate|];
            intros [n [E Hn]]; exfalso; exact (Hnot _ Hn E)|].
    split; [reflexivity|].
    split; [split; [discriminate|]; intros E; exfalso;
            apply (Hnames "Declining"); [simpl; tauto|exact E]|].
    intros [[]|] E; try reflexivity; exfalso;
      (eapply Hnames; [|exact E]); simpl; tauto.
Qed.

(* ------------------------------------------------------------------------- *)
(** ** The overview and the student page *)
(* ------------------------------------------------------------------------- *)

Lemma filter_map_commute {A B} (f : A -> B) (p : B -> bool) (l : list A) :
  filter p (map f l) = map f (filter (fun x => p (f x)) l).
Proof.
  induction l as [|x l IH]; simpl; [reflexivity|].
  destruct (p (f x)); simpl; rewrite IH; reflexivity.
Qed.

Lemma kpi_predicate_reasons (f : KpiFilter) (t : tier) (tr : option trend)
  (days : option Z) (has : bool) (r : PriorityStudentRow) :
  row_tier r = tier_label t ->
  row_trend r = option_map trend_label tr ->
  row_days_since_assessment r = days ->
  row_has_active_intervention r = has ->
  kpi_predicate f r = contains (reason_of_filter f) (reasons_of t tr days has).
Proof.
  intros Ht Htr Hd Hh. unfold kpi_predicate. rewrite Ht, Htr, Hd, Hh.
  clear. 
  destruct f; destruct t; destruct tr as [[]|]; destruct has;
  destruct days as [d|];
  unfold reasons_of, reason_args, days_over, Sql.cmp3, Js.nullish;
  rewrite ?Z.gtb_ltb;
  try (destruct (90 <? d)); reflexivity.
Qed.

(** X23.  With a blank search box the overview shows every row of the
    priority view, and each KPI filter keeps exactly the rows whose reasons
    text names that condition: "overdue" the rows with "Overdue assessment
    (>90d)", "declining" those with "Declining growth trend", and
    "no_intervention" those with "No active intervention". *)
Theorem kpi_filters_follow_the_reasons (trim toLowerCase : string -> string)
  (support : list support_row) (growth : list growth_row)
  (searchStudent : string) :
  trim searchStudent = "" ->
  let view := v_priority_students support growth in
  priorityRows trim toLowerCase (Some (map client_row view)) searchStudent None
  = map client_row view
  /\ forall f,
       priorityRows trim toLowerCase (Some (map client_row view)) searchStudent
                    (Some f)
       = map client_row
           (filter (fun p => contains (reason_of_filter f) (pr_reasons p)) view).
Proof.
  intros Hblank view. unfold priorityRows. rewrite Hblank. cbn [Js.truthy].
  split; [reflexivity|]. intros f.
  rewrite filter_map_commute. f_equal.
  apply filter_ext_in. intros p Hp.
  apply (proj1 (priority_In _ _ _)) in Hp. destruct Hp as [ss [g [_ [_ ->]]]].
  apply kpi_predicate_reasons; reflexivity.
Qed.

Lemma kpi_filters_follow_the_reasons_witness :
  priorityRows Sql.trim Sql.lower
    (Some (map client_row
             (v_priority_students
                [support_select
                   (roster_select 20100 enrollment_two student_eight None None)
                   None] [])))
    "  " (Some no_intervention)
  = [].
Proof.
  destruct (kpi_filters_follow_the_reasons Sql.trim Sql.lower
              [support_select
                 (roster_select 20100 enrollment_two student_eight None None)
                 None] [] "  " eq_refl) as [_ H].
  rewrite (H no_intervention). reflexivity.
Defined.

Lemma includes_In (ids : list string) (id : string) :
  includes ids id = true <-> In id ids.
Proof.
  unfold includes. rewrite existsb_exists. split.
  - intros [x [Hx E]]. apply String.eqb_eq in E. now subst.
  - intros H. exists id. split; [exact H|apply String.eqb_refl].
Qed.

Lemma includes_false (ids : list string) (id : string) :
  includes ids id = false <-> ~ In id ids.
Proof.
  rewrite <- includes_In. destruct (includes ids id); split; congruence.
Qed.

Lemma length_zero {A} (l : list A) : (List.length l =? 0)%nat = true <-> l = [].
Proof. destruct l; simpl; split; congruence. Qed.

Lemma selected_spec (sel : list string) (id : string) :
  isEnrollmentSelected sel id = true <-> sel = [] \/ In id sel.
Proof.
  unfold isEnrollmentSelected. rewrite Bool.orb_true_iff, length_zero, includes_In.
  tauto.
Qed.

Lemma without_In (l : list string) (eid id : string) :
  In id (filter (fun x => negb (String.eqb x eid)) l) <-> In id l /\ id <> eid.
Proof.
  rewrite filter_In. rewrite Bool.negb_true_iff, String.eqb_neq. tauto.
Qed.

(** The three outcomes of a toggle. *)
Lemma toggle_cases (allIds prev : list string) (eid : string) :
  let current := if (List.length prev =? 0)%nat then allIds else prev in
  let next :=
    if includes current eid
    then filter (fun id => negb (String.eqb id eid)) current
    else (current ++ [eid])%list in
  (next = [] /\ toggleEnrollment allIds prev eid = prev)
  \/ (next <> [] /\ List.length next = List.length allIds
      /\ (forall id, In id allIds -> In id next)
      /\ toggleEnrollment allIds prev eid = [])
  \/ (next <> [] /\ toggleEnrollment allIds prev eid = next).
Proof.
  intros current next. unfold toggleEnrollment. fold current. fold next.
  destruct (List.length next =? 0)%nat eqn:E0.
  - left. apply length_zero in E0. auto.
  - assert (Hne : next <> []).
    { intros H. apply length_zero in H. congruence. }
    destruct ((List.length next =? List.length allIds)%nat
              && forallb (fun id => includes next id) allIds) eqn:E1.
    + right. left. apply Bool.andb_true_iff in E1. destruct E1 as [El Ea].
      apply Nat.eqb_eq in El. rewrite forallb_forall in Ea.
      repeat split; auto. intros id Hid. apply includes_In. auto.
    + right. right. auto.
Qed.

Lemma toggle_keeps_the_others (allIds prev : list string)
  (eid id : string) :
  In id allIds -> id <> eid ->
  isEnrollmentSelected (toggleEnrollment allIds prev eid) id
  = isEnrollmentSelected prev id.
Proof.
  intros Hid Hne.
  assert (Hiff : isEnrollmentSelected (toggleEnrollment allIds prev eid) id = true
                 <-> isEnrollmentSelected prev id = true).
  { rewrite !selected_spec.
    pose proof (toggle_cases allIds prev eid) as H. cbv zeta in H.
    set (current := if (List.length prev =? 0)%nat then allIds else prev) in *.
    assert (Hcur : In id current <-> prev = [] \/ In id prev).
    { unfold current. destruct prev as [|p ps]; simpl.
      - split; [now left|intros _; exact Hid].
      - split; [now right|]. intros [H0|H0]; [discriminate|exact H0]. }
    set (next := if includes current eid
                 then filter (fun x => negb (String.eqb x eid)) current
                 else (current ++ [eid])%list) in *.
    assert (Hnext : In id next <-> In id current).
    { unfold next. destruct (includes current eid).
      - rewrite without_In. tauto.
      - rewrite in_app_iff. simpl. split; [|tauto].
        intros [H0|[H0|[]]]; [exact H0|]. congruence. }
    destruct H as [[_ ->]|[[_ [_ [Hall ->]]]|[Hnn ->]]].
    - tauto.
    - split; [|now left]. intros _. apply Hcur, Hnext, Hall, Hid.
    - rewrite <- Hcur, <- Hnext. split; [|now right].
      intros [H0|H0]; [contradiction|exact H0]. }
  destruct (isEnrollmentSelected (toggleEnrollment allIds prev eid) id),
           (isEnrollmentSelected prev id); try reflexivity.
  - symmetry. apply Hiff. reflexivity.
  - apply Hiff. reflexivity.
Qed.

Lemma selected_false (sel : list string) (id : string) :
  isEnrollmentSelected sel id = false <-> sel <> [] /\ ~ In id sel.
Proof.
  pose proof (selected_spec sel id) as H.
  destruct (isEnrollmentSelected sel id).
  - split; [discriminate|]. intros [H1 H2]. exfalso.
    destruct (proj1 H eq_refl); contradiction.
  - split; [|reflexivity]. intros _. split; intros H0; 
      (assert (false = true) by (apply H; auto)); discriminate.
Qed.

Lemma toggle_self (allIds prev : list string) (eid : string) :
  In eid allIds ->
  (In eid (if (List.length prev =? 0)%nat then allIds else prev)
   /\ (forall id, In id (if (List.length prev =? 0)%nat then allIds else prev) ->
                  id = eid)
   /\ toggleEnrollment allIds prev eid = prev)
  \/ (isEnrollmentSelected (toggleEnrollment allIds prev eid) eid
      = negb (isEnrollmentSelected prev eid)
      /\ toggleEnrollment allIds prev eid <> prev).
Proof.
  intros Heid.
  pose proof (toggle_cases allIds prev eid) as H. cbv zeta in H.
  set (current := if (List.length prev =? 0)%nat then allIds else prev) in *.
  assert (Hcur : In eid current <-> isEnrollmentSelected prev eid = true).
  { rewrite selected_spec. unfold current. destruct prev as [|p ps]; simpl.
    - split; [now left|intros _; exact Heid].
    - split; [now right|]. intros [H0|H0]; [discriminate|exact H0]. }
  destruct (includes current eid) eqn:Einc.
  - (* the toggled enrollment is selected: it is taken out *)
    assert (Hin : In eid current) by (apply includes_In; exact Einc).
    assert (Hsel : isEnrollmentSelected prev eid = true) by (apply Hcur, Hin).
    destruct H as [[Hnil Hres]|[[_ [_ [Hall _]]]|[Hnn Hres]]].
    + left. split; [exact Hin|]. split; [|exact Hres].
      intros id Hid. destruct (string_dec id eid) as [E|E]; [exact E|].
      exfalso. assert (Hf : In id []) by (rewrite <- Hnil; apply without_In; auto).
      destruct Hf.
    + exfalso. apply Hall in Heid. apply without_In in Heid. tauto.
    + right. rewrite Hres, Hsel. split.
      * apply selected_false. split; [exact Hnn|].
        intros Hf. apply without_In in Hf. tauto.
      * intros E. 
        assert (Hf : In eid (filter (fun id => negb (id =? eid)%string) current)).
        { rewrite E. destruct prev as [|p ps].
          - exfalso. apply Hnn. exact E.
          - exact Hin. }
        apply without_In in Hf. tauto.
  - (* it is not selected: it is added *)
    assert (Hnin : ~ In eid current) by (apply includes_false; exact Einc).
    assert (Hsel : isEnrollmentSelected prev eid = false).
    { destruct (isEnrollmentSelected prev eid); [|reflexivity].
      exfalso. apply Hnin, Hcur. reflexivity. }
    assert (Hprev : current = prev).
    { unfold current. destruct prev; [|reflexivity].
      exfalso. apply Hnin. exact Heid. }
    destruct H as [[Hnil _]|[[_ [_ [_ Hres]]]|[_ Hres]]].
    + destruct current; discriminate Hnil.
    + right. rewrite Hres, Hsel. split; [reflexivity|].
      intros E. rewrite <- E in Hsel. discriminate Hsel.
    + right. rewrite Hres, Hsel. split.
      * apply selected_spec. right. apply in_or_app. right. now left.
      * rewrite Hprev. intros E. apply (f_equal (@List.length string)) in E.
        rewrite length_app in E. simpl in E. lia.
Qed.

(** X24.  Toggling an enrollment of the student changes the selection of no
    other enrollment.  The toggled enrollment itself changes sides, unless
    it was the only one selected: then the toggle is refused and the
    selection stays as it was. *)
Theorem toggle_changes_only_the_toggled (allIds prev : list string)
  (eid : string) :
  In eid allIds ->
  (forall id, In id allIds -> id <> eid ->
     isEnrollmentSelected (toggleEnrollment allIds prev eid) id
     = isEnrollmentSelected prev id)
  /\ ((toggleEnrollment allIds prev eid = prev
       /\ isEnrollmentSelected prev eid = true
       /\ forall id, In id allIds -> isEnrollmentSelected prev id = true ->
                     id = eid)
      \/ isEnrollmentSelected (toggleEnrollment allIds prev eid) eid
         = negb (isEnrollmentSelected prev eid)).
Proof.
  intros Heid. split.
  - intros id Hid Hne. now apply toggle_keeps_the_others.
  - destruct (toggle_self allIds prev eid Heid) as [[Hin [Hall Hres]]|[H _]];
      [left|right; exact H].
    split; [exact Hres|].
    assert (Hcur : forall id, In id allIds -> isEnrollmentSelected prev id = true ->
                     In id (if (List.length prev =? 0)%nat then allIds else prev)).
    { intros id Hid Hs. apply selected_spec in Hs.
      destruct prev as [|p ps]; simpl; [exact Hid|].
      destruct Hs as [Hs|Hs]; [discriminate|exact Hs]. }
    split.
    + apply selected_spec. destruct prev as [|p ps]; [now left|right; exact Hin].
    + intros id Hid Hs. apply Hall, Hcur; assumption.
Qed.

Lemma toggle_changes_only_the_toggled_witness :
  isEnrollmentSelected (toggleEnrollment ["e1"; "e2"] [] "e1") "e1"
  = negb (isEnrollmentSelected [] "e1")
  /\ isEnrollmentSelected (toggleEnrollment ["e1"; "e2"] [] "e1") "e2" = true.
Proof.
  destruct (toggle_changes_only_the_toggled ["e1"; "e2"] [] "e1") as [H1 H2].
  - left. reflexivity.
  - split; [reflexivity|]. rewrite H1; [reflexivity|right; left; reflexivity|discriminate].
Defined.

(** X25.  When the enrollment ids are distinct, toggling the same
    enrollment twice leaves every enrollment selected or not as it was. *)
Theorem toggle_twice_restores (allIds prev : list string) (eid id : string) :
  NoDup allIds -> In eid allIds -> In id allIds ->
  isEnrollmentSelected
    (toggleEnrollment allIds (toggleEnrollment allIds prev eid) eid) id
  = isEnrollmentSelected prev id.
Proof.
  intros Hnd Heid Hid.
  destruct (string_dec id eid) as [->|Hne].
  2:{ rewrite !toggle_keeps_the_others by assumption. reflexivity. }
  destruct (toggle_self allIds prev eid Heid) as [[_ [_ Hres]]|[Hflip Hchg]].
  { rewrite Hres, Hres. reflexivity. }
  set (s1 := toggleEnrollment allIds prev eid) in *.
  destruct (toggle_self allIds s1 eid Heid) as [[Hin [Hall Hres]]|[Hflip2 _]].
  2:{ rewrite Hflip2, Hflip. apply Bool.negb_involutive. }
  exfalso.
  (* the second toggle was refused: [eid] is the only id of the selection
     [s1], which the first toggle had just changed *)
  pose proof (toggle_cases allIds prev eid) as H. cbv zeta in H. fold s1 in H.
  assert (Hsel1 : isEnrollmentSelected s1 eid = true).
  { apply selected_spec. destruct s1 as [|x xs]; [now left|right; exact Hin]. }
  rewrite Hsel1 in Hflip. symmetry in Hflip. apply Bool.negb_true_iff in Hflip.
  apply selected_false in Hflip. destruct Hflip as [Hpne Hnin].
  assert (Hcur : (if (List.length prev =? 0)%nat then allIds else prev) = prev).
  { destruct prev; [contradiction|reflexivity]. }
  rewrite Hcur in H.
  assert (Hinc : includes prev eid = false) by (apply includes_false; exact Hnin).
  rewrite Hinc in H.
  destruct H as [[_ E]|[[_ [Hlen [_ E]]]|[_ E]]].
  - apply Hchg. exact E.
  - (* collapsed to "all": every enrollment is [eid] *)
    rewrite E in Hall. simpl in Hall.
    assert (Hone : allIds = [eid]).
    { destruct allIds as [|a [|b rest]]; [destruct Heid| |].
      - f_equal. apply Hall. now left.
      - exfalso. inversion Hnd as [|? ? Hna _]; subst. apply Hna.
        rewrite (Hall a), (Hall b); [now left|right; now left|now left]. }
    rewrite Hone, length_app in Hlen. simpl in Hlen.
    destruct prev; [contradiction|simpl in Hlen; lia].
  - rewrite E in Hall.
    destruct prev as [|p ps]; [contradiction|].
    assert (p = eid) by (apply Hall; simpl; now left).
    subst p. apply Hnin. now left.
Qed.

Lemma toggle_twice_restores_witness :
  isEnrollmentSelected
    (toggleEnrollment ["e1"; "e2"] (toggleEnrollment ["e1"; "e2"] ["e2"] "e1") "e1")
    "e1"
  = isEnrollmentSelected ["e2"] "e1".
Proof.
  apply (toggle_twice_restores ["e1"; "e2"] ["e2"] "e1" "e1").
  - repeat constructor; simpl; intuition discriminate.
  - left. reflexivity.
  - left. reflexivity.
Defined.

(** X26.  A selection made of the student's enrollments stays one after a
    toggle, and it never becomes a selection that shows no enrollment. *)
Theorem toggle_never_deselects_all (allIds prev : list string) (eid : string) :
  allIds <> [] -> incl prev allIds -> In eid allIds ->
  incl (toggleEnrollment allIds prev eid) allIds
  /\ exists id, In id allIds
                /\ isEnrollmentSelected (toggleEnrollment allIds prev eid) id = true.
Proof.
  intros Hne Hincl Heid.
  pose proof (toggle_cases allIds prev eid) as H. cbv zeta in H.
  set (current := if (List.length prev =? 0)%nat then allIds else prev) in *.
  assert (Hcur : incl current allIds).
  { unfold current. destruct prev; [apply incl_refl|exact Hincl]. }
  set (next := if includes current eid
               then filter (fun id => negb (id =? eid)%string) current
               else (current ++ [eid])%list) in *.
  assert (Hnext : incl next allIds).
  { unfold next. destruct (includes current eid).
    - intros x Hx. apply without_In in Hx. apply Hcur. tauto.
    - intros x Hx. apply in_app_or in Hx. destruct Hx as [Hx|[<-|[]]]; auto. }
  assert (Hsome : forall sel, incl sel allIds ->
            exists id, In id allIds /\ isEnrollmentSelected sel id = true).
  { intros sel Hs. destruct sel as [|x xs].
    - destruct allIds as [|a rest]; [contradiction|].
      exists a. split; [now left|reflexivity].
    - exists x. split; [apply Hs; now left|].
      apply selected_spec. right. now left. }
  destruct H as [[_ ->]|[[_ [_ [_ ->]]]|[_ ->]]].
  - split; [exact Hincl|apply Hsome, Hincl].
  - split; [intros x []|apply Hsome; intros x []].
  - split; [exact Hnext|apply Hsome, Hnext].
Qed.

Lemma toggle_never_deselects_all_witness :
  incl (toggleEnrollment ["e1"; "e2"] ["e1"] "e1") ["e1"; "e2"]
  /\ exists id, In id ["e1"; "e2"]
       /\ isEnrollmentSelected (toggleEnrollment ["e1"; "e2"] ["e1"] "e1") id = true.
Proof.
  apply (toggle_never_deselects_all ["e1"; "e2"] ["e1"] "e1").
  - discriminate.
  - intros x [<-|[]]. left. reflexivity.
  - left. reflexivity.
Defined.

Section LatestYearFacts.
Variable string_compare : string -> string -> comparison.
Hypothesis compare_antisym :
  forall x y, string_compare x y = CompOpp (string_compare y x).
Hypothesis compare_trans :
  forall x y z, string_compare x y <> Gt -> string_compare y z <> Gt ->
                string_compare x z <> Gt.
Hypothesis compare_eq : forall x y, string_compare x y = Eq -> x = y.
Hypothesis empty_least : forall x, string_compare "" x <> Gt.

Lemma later_false (a b : string) :
  later string_compare a b = false <-> string_compare a b <> Gt.
Proof.
  unfold later. destruct (string_compare a b); split; congruence.
Qed.

Lemma fold_max (l : list Enrollment) (acc : string) :
  let m := fold_left (fun max e => if later string_compare (en_school_year e) max
                                   then en_school_year e else max) l acc in
  string_compare acc m <> Gt
  /\ (forall e, In e l -> string_compare (en_school_year e) m <> Gt)
  /\ (m = acc \/ exists e, In e l /\ en_school_year e = m).
Proof.
  revert acc. induction l as [|x l IH]; intros acc; simpl.
  - split; [|split; [intros e []|now left]].
    intros H. pose proof (compare_antisym acc acc) as E. rewrite H in E.
    discriminate.
  - destruct (later string_compare (en_school_year x) acc) eqn:El.
    + destruct (IH (en_school_year x)) as [H1 [H2 H3]].
      split; [|split].
      * apply compare_trans with (en_school_year x); [|exact H1].
        unfold later in El. rewrite compare_antisym.
        destruct (string_compare (en_school_year x) acc); discriminate.
      * intros e [<-|He]; [exact H1|now apply H2].
      * right. destruct H3 as [H3|[e [He H3]]].
        -- exists x. split; [now left|now symmetry].
        -- exists e. split; [now right|exact H3].
    + destruct (IH acc) as [H1 [H2 H3]].
      split; [exact H1|split].
      * intros e [<-|He]; [|now apply H2].
        apply compare_trans with acc; [|exact H1]. now apply later_false.
      * destruct H3 as [H3|[e [He H3]]]; [now left|].
        right. exists e. split; [now right|exact H3].
Qed.

(** X27.  For a student with enrollments, "latest year" selects exactly
    the enrollments of one school year; some enrollment has that year, no
    enrollment has a later one, and the selection is not empty. *)
Theorem latest_year_keeps_the_last_year (studentEnrollments : list Enrollment)
  (selected : list string) :
  studentEnrollments <> [] ->
  let year := latestYear string_compare studentEnrollments in
  (exists e, In e studentEnrollments /\ en_school_year e = year)
  /\ (forall e, In e studentEnrollments ->
                later string_compare (en_school_year e) year = false)
  /\ (forall id, In id (deselectToLatestYear string_compare studentEnrollments selected)
                 <-> exists e, In e studentEnrollments
                               /\ en_school_year e = year
                               /\ en_enrollment_id e = id)
  /\ deselectToLatestYear string_compare studentEnrollments selected <> [].
Proof.
  intros Hne year.
  destruct (fold_max studentEnrollments "") as [_ [Hmax Hsome]].
  fold (latestYear string_compare studentEnrollments) in Hmax, Hsome.
  fold year in Hmax, Hsome.
  assert (Hex : exists e, In e studentEnrollments /\ en_school_year e = year).
  { destruct Hsome as [E|H]; [|exact H].
    destruct studentEnrollments as [|x l]; [contradiction|].
    exists x. split; [now left|].
    apply compare_eq.
    pose proof (Hmax x (or_introl eq_refl)) as H1.
    pose proof (empty_least (en_school_year x)) as H2.
    rewrite E in H1 |- *. rewrite compare_antisym in H2.
    destruct (string_compare (en_school_year x) ""); simpl in *; congruence. }
  assert (Hids : forall id,
            In id (deselectToLatestYear string_compare studentEnrollments selected)
            <-> exists e, In e studentEnrollments
                          /\ en_school_year e = year /\ en_enrollment_id e = id).
  { intros id. unfold deselectToLatestYear.
    assert (El : (List.length studentEnrollments =? 0)%nat = false).
    { destruct studentEnrollments; [contradiction|reflexivity]. }
    rewrite El, in_map_iff. fold year. split.
    - intros [e [Hid He]]. apply filter_In in He. destruct He as [He Hy].
      apply String.eqb_eq in Hy. exists e. auto.
    - intros [e [He [Hy Hid]]]. exists e. split; [exact Hid|].
      apply filter_In. split; [exact He|now apply String.eqb_eq]. }
  split; [exact Hex|]. split; [|split; [exact Hids|]].
  - intros e He. apply later_false. now apply Hmax.
  - destruct Hex as [e [He Hy]].
    intros E. assert (Hin : In (en_enrollment_id e)
                               (deselectToLatestYear string_compare
                                  studentEnrollments selected)).
    { apply Hids. exists e. auto. }
    rewrite E in Hin. destruct Hin.
Qed.

End LatestYearFacts.

Lemma byte_order_eq (x y : string) : byte_order x y = Eq -> x = y.
Proof.
  unfold byte_order.
  destruct (OrdersEx.String_as_OT.compare_spec x y); congruence.
Qed.

Lemma byte_order_empty (x : string) : byte_order "" x <> Gt.
Proof. destruct x; discriminate. Qed.

Lemma latest_year_keeps_the_last_year_witness :
  deselectToLatestYear byte_order
    [mk_Enrollment "e1" "2023-24"; mk_Enrollment "e2" "2024-25"] [] <> [].
Proof.
  apply (latest_year_keeps_the_last_year byte_order byte_order_antisym
           byte_order_trans byte_order_eq byte_order_empty
           [mk_Enrollment "e1" "2023-24"; mk_Enrollment "e2" "2024-25"] []).
  discriminate.
Defined.


Lemma sorted_last {A} (R : A -> A -> Prop) (l : list A) (z : A) :
  (forall x, R x x) ->
  StronglySorted R l ->
  nth_error l (List.length l - 1) = Some z ->
  forall y, In y l -> R y z.
Proof.
  intros Hrefl Hs. induction Hs as [|x l Hs IH Hall]; intros Hn y Hy.
  - destruct Hy.
  - destruct l as [|x' l'].
    + simpl in Hn. injection Hn as <-. destruct Hy as [<-|[]]. apply Hrefl.
    + assert (Hn' : nth_error (x' :: l') (List.length (x' :: l') - 1) = Some z).
      { simpl in Hn |- *. rewrite Nat.sub_0_r. exact Hn. }
      destruct Hy as [<-|Hy].
      * rewrite Forall_forall in Hall. apply Hall.
        eapply nth_error_In. exact Hn'.
      * apply IH; assumption.
Qed.

Section DisplayHeaderFacts.
Variable toLowerCase : string -> string.
Variable localeCompare : string -> string -> comparison.
Hypothesis localeCompare_antisym :
  forall x y, localeCompare x y = CompOpp (localeCompare y x).
Hypothesis localeCompare_trans :
  forall x y z, localeCompare x y <> Gt -> localeCompare y z <> Gt ->
                localeCompare x z <> Gt.

Lemma by_date_antisym (a b : Assessment) :
  by_date_descending localeCompare a b
  = CompOpp (by_date_descending localeCompare b a).
Proof. unfold by_date_descending. apply localeCompare_antisym. Qed.

Lemma by_date_trans (a b c : Assessment) :
  not_after (by_date_descending localeCompare) a b ->
  not_after (by_date_descending localeCompare) b c ->
  not_after (by_date_descending localeCompare) a c.
Proof.
  unfold not_after, by_date_descending. intros H1 H2.
  eapply localeCompare_trans; eassumption.
Qed.

Lemma lastWithScore_is_the_earliest (assessments : list Assessment) :
  (exists a, In a assessments /\ hasScore a = true) ->
  exists a, lastWithScore localeCompare assessments = Some a
            /\ In a assessments /\ hasScore a = true
            /\ forall b, In b assessments -> hasScore b = true ->
                         localeCompare (date_text a) (date_text b) <> Gt.
Proof.
  intros [a0 [Ha0 Hs0]]. unfold lastWithScore.
  set (scored := filter hasScore assessments).
  assert (Hin0 : In a0 scored) by (apply filter_In; auto).
  assert (Hlen : (0 < List.length scored)%nat).
  { destruct scored; [destruct Hin0|simpl; lia]. }
  destruct (Nat.ltb_spec 0 (List.length scored)) as [_|H]; [|lia].
  unfold array_sort.
  set (sorted := Sql.order_by (by_date_descending localeCompare) scored).
  assert (Hsl : List.length sorted = List.length scored)
    by apply order_by_length.
  destruct (nth_error sorted (List.length scored - 1)) as [z|] eqn:En.
  2:{ apply nth_error_None in En. lia. }
  exists z. split; [reflexivity|].
  assert (Hz : In z scored).
  { apply (proj1 (order_by_In (by_date_descending localeCompare) scored z)).
    eapply nth_error_In. exact En. }
  apply filter_In in Hz. destruct Hz as [Hz Hsz].
  split; [exact Hz|]. split; [exact Hsz|].
  intros b Hb Hsb.
  assert (Hbs : In b sorted).
  { apply (proj2 (order_by_In (by_date_descending localeCompare) scored b)).
    apply filter_In. auto. }
  rewrite <- Hsl in En.
  exact (sorted_last (not_after (by_date_descending localeCompare)) sorted z
           (cmp_refl _ by_date_antisym)
           (order_by_sorted _ by_date_antisym by_date_trans scored) En b Hbs).
Qed.

(** X28.  Outside legacy mode, when the header of the response is missing
    or carries neither a latest score nor a last date, the header the page
    shows takes both from one scored assessment, and no scored assessment
    has an earlier date than that one: the sort is by date descending and
    the page reads its last element. *)
Theorem derived_header_shows_the_earliest_scored {G} (scoresHistory : list Q)
  (interventions : list (option string)) (goals : list G)
  (h : option api_header) (assessments : list Assessment) :
  (exists a, In a assessments /\ hasScore a = true) ->
  (forall hd, h = Some hd -> h_latest_score hd = None
                             /\ h_last_assessed_date hd = None) ->
  exists d a,
    displayHeader toLowerCase localeCompare false scoresHistory interventions
                  goals h assessments = Some d
    /\ In a assessments /\ hasScore a = true
    /\ d_latest_score d = as_score_normalized a
    /\ d_last_assessed_date d
       = coalesce2 (as_effective_date a) (as_assessment_date a)
    /\ forall b, In b assessments -> hasScore b = true ->
                 localeCompare (date_text a) (date_text b) <> Gt.
Proof.
  intros Hex Hh.
  destruct (lastWithScore_is_the_earliest assessments Hex)
    as [a [Hl [Ha [Hs Hmin]]]].
  unfold displayHeader. cbn [andb]. rewrite Hl. cbn [bind].
  destruct h as [hd|].
  - destruct (Hh hd eq_refl) as [-> ->].
    eexists. exists a. split; [reflexivity|]. cbn. auto.
  - assert (El : (List.length assessments =? 0)%nat = false).
    { destruct assessments; [destruct Ha|reflexivity]. }
    rewrite El. eexists. exists a. split; [reflexivity|]. cbn. auto.
Qed.

End DisplayHeaderFacts.

Lemma derived_header_shows_the_earliest_scored_witness :
  exists d a,
    displayHeader Sql.lower byte_order false [] [] (@nil unit) None
      [ mk_Assessment (Some (88 # 1)%Q) (Some "2025-01-15") None;
        mk_Assessment (Some (61 # 1)%Q) (Some "2024-09-10") None ] = Some d
    /\ d_last_assessed_date d = Some "2024-09-10"
    /\ as_effective_date a = Some "2024-09-10".
Proof.
  destruct (derived_header_shows_the_earliest_scored Sql.lower byte_order
              byte_order_antisym byte_order_trans [] [] (@nil unit) None
              [ mk_Assessment (Some (88 # 1)%Q) (Some "2025-01-15") None;
                mk_Assessment (Some (61 # 1)%Q) (Some "2024-09-10") None ])
    as [d [a [Hd [Ha [Hs [Hsc [Hdate Hmin]]]]]]].
  - eexists. split; [left; reflexivity|reflexivity].
  - intros hd E. discriminate E.
  - exists d, a. split; [exact Hd|].
    vm_compute in Hd. injection Hd as <-. 
    split; [reflexivity|]. simpl in Hdate.
    destruct a as [s [e|] ad]; simpl in Hdate |- *; try congruence.
    destruct Ha as [E|[E|[]]]; inversion E; subst; discriminate Hdate.
Defined.


Section SortByGradeFacts.
Context {T : Type} (grade_level : T -> string).

Lemma by_grade_antisym (a b : T) :
  by_grade grade_level a b = CompOpp (by_grade grade_level b a).
Proof. unfold by_grade. apply Z.compare_antisym. Qed.

Lemma by_grade_trans (a b c : T) :
  not_after (by_grade grade_level) a b ->
  not_after (by_grade grade_level) b c ->
  not_after (by_grade grade_level) a c.
Proof.
  unfold not_after, by_grade. rewrite !Z.compare_gt_iff. lia.
Qed.

Lemma insert_keeps_each_grade (k : Z) (x : T) (l : list T) :
  filter (fun r => grade_index (grade_level r) =? k)
         (Sql.insert_row (by_grade grade_level) x l)
  = filter (fun r => grade_index (grade_level r) =? k) (x :: l).
Proof.
  induction l as [|y l IH]; [reflexivity|].
  cbn [Sql.insert_row].
  destruct (by_grade grade_level x y) eqn:E; try reflexivity.
  cbn [filter] in IH |- *. rewrite IH.
  unfold by_grade in E. apply Z.compare_gt_iff in E.
  destruct (Z.eqb_spec (grade_index (grade_level x)) k),
           (Z.eqb_spec (grade_index (grade_level y)) k); try reflexivity.
  lia.
Qed.

Lemma sort_keeps_each_grade (k : Z) (rows : list T) :
  filter (fun r => grade_index (grade_level r) =? k) (sortByGrade grade_level rows)
  = filter (fun r => grade_index (grade_level r) =? k) rows.
Proof.
  unfold sortByGrade, array_sort.
  induction rows as [|x l IH]; [reflexivity|].
  cbn [Sql.order_by fold_right]. rewrite insert_keeps_each_grade.
  cbn [filter]. unfold Sql.order_by in IH. rewrite IH. reflexivity.
Qed.

Lemma grade_index_range (g : string) :
  (In g GRADE_ORDER /\ 0 <= grade_index g <= 4)
  \/ (~ In g GRADE_ORDER /\ grade_index g = 99).
Proof.
  unfold grade_index, GRADE_ORDER. cbn [indexed Js.own].
  repeat match goal with
         | |- context [String.eqb ?a g] =>
             destruct (String.eqb_spec a g) as [<-|?];
             [left; split; [simpl; tauto|cbn; lia]|]
         end.
  right. split; [simpl; tauto|reflexivity].
Qed.

(** X29.  [sortByGrade] returns the same rows, ordered by the position of
    their grade in [GRADE_ORDER]; rows of one grade keep their order; a
    grade has the rank of its position in [GRADE_ORDER], and every grade
    outside it ranks after all five. *)
Theorem sortByGrade_orders_the_grades (rows : list T) :
  Permutation (sortByGrade grade_level rows) rows
  /\ StronglySorted
       (fun a b => grade_index (grade_level a) <= grade_index (grade_level b))
       (sortByGrade grade_level rows)
  /\ (forall g,
        filter (fun r => String.eqb (grade_level r) g) (sortByGrade grade_level rows)
        = filter (fun r => String.eqb (grade_level r) g) rows)
  /\ (forall i g, nth_error GRADE_ORDER i = Some g -> grade_index g = Z.of_nat i)
  /\ (forall g g', In g GRADE_ORDER -> ~ In g' GRADE_ORDER ->
                   grade_index g < grade_index g').
Proof.
  split; [apply order_by_perm|]. split; [|split; [|split]].
  - pose proof (order_by_sorted _ by_grade_antisym by_grade_trans rows) as H.
    unfold sortByGrade, array_sort.
    induction H as [|x l Hs IH Hall]; constructor; [exact IH|].
    eapply Forall_impl; [|exact Hall]. intros y Hy.
    unfold not_after, by_grade in Hy. rewrite Z.compare_gt_iff in Hy. lia.
  - intros g.
    assert (Hsplit : forall l : list T,
              filter (fun r => String.eqb (grade_level r) g) l
              = filter (fun r => String.eqb (grade_level r) g)
                  (filter (fun r => grade_index (grade_level r) =? grade_index g) l)).
    { induction l as [|x l IH]; [reflexivity|]. cbn [filter].
      destruct (String.eqb_spec (grade_level x) g) as [E|E].
      - rewrite E, Z.eqb_refl. cbn [filter].
        rewrite E, String.eqb_refl, IH. reflexivity.
      - destruct (grade_index (grade_level x) =? grade_index g); [|exact IH].
        cbn [filter]. apply String.eqb_neq in E. rewrite E. exact IH. }
    rewrite Hsplit, sort_keeps_each_grade, <- Hsplit. reflexivity.
  - intros i g Hi.
    do 5 (destruct i as [|i]; [injection Hi as <-; reflexivity|]).
    destruct i; discriminate Hi.
  - intros g g' Ha Hb.
    destruct (grade_index_range g) as [[_ H1]|[H1 _]]; [|contradiction].
    destruct (grade_index_range g') as [[H2 _]|[_ H2]]; [contradiction|]. lia.
Qed.

End SortByGradeFacts.
